(** * Task Management System: shallow embedding of the domain models and services

    Python sources modelled here:
    - models/task.py, models/project.py, models/team.py, models/user.py
    - repositories/*_repository.py (in-memory dict stores)
    - services/user_service.py, services/task_service.py, services/team_service.py

    Conventions.
    - A [datetime] is an integer number of microseconds ([Z]); [datetime.utcnow()]
      is an explicit [now] argument; a [timedelta]'s [.days] is the floor
      division of the difference by one day.
    - A raised exception is the [Raise] branch of [res]; the Python exception
      class is kept ([ValueError], [PermissionError], the models'
      [ValidationError], [KeyError], [TypeError], [AttributeError]).
    - A repository's [self._data] dict is an association list in insertion
      order; [d[k] = v] replaces in place or appends.
    - Python [str] values are Stdlib strings of 8-bit characters (Latin-1). *)

From Stdlib Require Import String Ascii List ZArith Bool Lia Floats Uint63.
From Stdlib Require Import BinaryString DecimalString DecimalNat.
Import ListNotations.
Open Scope string_scope.
Open Scope Z_scope.

(* ------------------------------------------------------------------ *)
(** ** Python runtime fragments *)

Module Py.

Inductive exn : Type :=
| ValueError (msg : string)
| PermissionError (msg : string)
| ValidationError (msg : string)
| KeyError (key : string)
| TypeError (msg : string)
| AttributeError (msg : string).

Inductive res (A : Type) : Type :=
| Ok (a : A)
| Raise (e : exn).
Arguments Ok {A} a.
Arguments Raise {A} e.

Definition bind {A B} (m : res A) (k : A -> res B) : res B :=
  match m with Ok a => k a | Raise e => Raise e end.

Declare Scope py_scope.
Notation "x <- m ;; k" := (bind m (fun x => k))
  (at level 61, m at next level, right associativity) : py_scope.
Open Scope py_scope.

(** [str.isspace] on a single Latin-1 character. *)
Definition isspace (c : ascii) : bool :=
  let n := nat_of_ascii c in
  ((9 <=? n) && (n <=? 13))%nat || ((28 <=? n) && (n <=? 32))%nat
  || (n =? 133)%nat || (n =? 160)%nat.

(** [str.lower] on a single Latin-1 character. *)
Definition lower_char (c : ascii) : ascii :=
  let n := nat_of_ascii c in
  if ((65 <=? n) && (n <=? 90))%nat
     || ((192 <=? n) && (n <=? 222) && negb (n =? 215))%nat
  then ascii_of_nat (n + 32) else c.

Fixpoint lower (s : string) : string :=
  match s with
  | EmptyString => EmptyString
  | String c s' => String (lower_char c) (lower s')
  end.

Fixpoint lstrip (s : string) : string :=
  match s with
  | EmptyString => EmptyString
  | String c s' => if isspace c then lstrip s' else s
  end.

Fixpoint rev_str (s : string) (acc : string) : string :=
  match s with
  | EmptyString => acc
  | String c s' => rev_str s' (String c acc)
  end.

(** [str.strip()]: strip leading whitespace, then trailing whitespace. *)
Definition strip (s : string) : string :=
  rev_str (lstrip (rev_str (lstrip s) EmptyString)) EmptyString.

(** Truthiness of a [str]. *)
Definition truthy (s : string) : bool :=
  match s with EmptyString => false | _ => true end.

(** [str(n)] for a non-negative [int]. *)
Definition str_of_nat (n : nat) : string :=
  NilZero.string_of_uint (Nat.to_uint n).

(** [int(x)] of a float: truncation toward zero of its exact value. *)
Definition float_trunc (f : float) : Z :=
  match Prim2SF f with
  | S754_finite s m e =>
      let a := if 0 <=? e then Z.shiftl (Zpos m) e else Z.shiftr (Zpos m) (- e) in
      if s then - a else a
  | _ => 0
  end.

(** [float(n)] of a non-negative [int] below [2^62]. *)
Definition float_of_nat (n : nat) : float := of_uint63 (Uint63.of_Z (Z.of_nat n)).

End Py.

Import Py.
Open Scope py_scope.

(* ------------------------------------------------------------------ *)
(** ** models/task.py *)

Module TaskModel.

Inductive TaskStatus := TODO | IN_PROGRESS | REVIEW | DONE | CANCELLED.
Inductive TaskPriority := LOW | MEDIUM | HIGH | URGENT.

Definition TaskStatus_eqb (a b : TaskStatus) : bool :=
  match a, b with
  | TODO, TODO | IN_PROGRESS, IN_PROGRESS | REVIEW, REVIEW
  | DONE, DONE | CANCELLED, CANCELLED => true
  | _, _ => false
  end.

Definition TaskPriority_eqb (a b : TaskPriority) : bool :=
  match a, b with
  | LOW, LOW | MEDIUM, MEDIUM | HIGH, HIGH | URGENT, URGENT => true
  | _, _ => false
  end.

Record TaskComment := mkComment {
  c_id : string;
  c_author_id : string;
  c_content : string;
  c_created_at : Z
}.

Record Task := mkTask {
  t_id : string;
  t_title : string;
  t_description : string;
  t_status : TaskStatus;
  t_priority : TaskPriority;
  t_assignee_id : option string;
  t_due_date : option Z;
  t_created_at : Z;
  t_updated_at : Z;
  t_comments : list TaskComment;
  t_tags : list string
}.

(** One day in microseconds. *)
Definition DAY : Z := 86400 * 1000000.

(** [Task._validate_title] *)
Definition _validate_title (title : string) : res string :=
  if negb (truthy title) || negb (truthy (strip title))
  then Raise (ValueError "Task title cannot be empty")
  else Ok (strip title).

(** [Task.__init__]; [tid] is the fresh [uuid4] string, [now] is [utcnow()]. *)
Definition new_task (tid : string) (now : Z) (title description : string)
    (assignee_id : option string) (priority : TaskPriority)
    (due_date : option Z) : res Task :=
  ti <- _validate_title title ;;
  Ok (mkTask tid ti description TODO priority assignee_id due_date now now [] []).

Definition set_status (t : Task) (s : TaskStatus) (now : Z) : Task :=
  mkTask (t_id t) (t_title t) (t_description t) s (t_priority t) (t_assignee_id t)
    (t_due_date t) (t_created_at t) now (t_comments t) (t_tags t).

Definition set_assignee (t : Task) (a : option string) (now : Z) : Task :=
  mkTask (t_id t) (t_title t) (t_description t) (t_status t) (t_priority t) a
    (t_due_date t) (t_created_at t) now (t_comments t) (t_tags t).

(** [Task.update_status] *)
Definition update_status (t : Task) (new_status : TaskStatus) (now : Z) : res Task :=
  if TaskStatus_eqb (t_status t) DONE && negb (TaskStatus_eqb new_status DONE)
  then Raise (ValueError "Cannot change status of completed task")
  else Ok (set_status t new_status now).

(** [Task.add_comment]; [cid] is the fresh [uuid4] string. *)
Definition add_comment (t : Task) (cid author_id content : string) (now : Z)
    : res (TaskComment * Task) :=
  if negb (truthy (strip content))
  then Raise (ValueError "Comment content cannot be empty")
  else
    let c := mkComment cid author_id (strip content) now in
    Ok (c, mkTask (t_id t) (t_title t) (t_description t) (t_status t) (t_priority t)
             (t_assignee_id t) (t_due_date t) (t_created_at t) now
             (t_comments t ++ [c]) (t_tags t)).

(** [Task.is_urgent]; [(due - now).days] is [Z.div] by one day (floor). *)
Definition is_urgent (t : Task) (now : Z) : bool :=
  if TaskPriority_eqb (t_priority t) URGENT then true
  else match t_due_date t with
       | Some due =>
           let days_until_due := (due - now) / DAY in
           (days_until_due <=? 1)
           && (TaskPriority_eqb (t_priority t) HIGH || TaskPriority_eqb (t_priority t) URGENT)
       | None => false
       end.

(** The spec's reading of [isUrgent]: Urgent, or a due date within one day of
    the evaluation time with priority High or Urgent. *)
Definition is_urgent_spec (t : Task) (now : Z) : bool :=
  TaskPriority_eqb (t_priority t) URGENT
  || match t_due_date t with
     | Some due =>
         (Z.abs (due - now) <=? DAY)
         && (TaskPriority_eqb (t_priority t) HIGH || TaskPriority_eqb (t_priority t) URGENT)
     | None => false
     end.

End TaskModel.

Import TaskModel.

(* ------------------------------------------------------------------ *)
(** ** models/project.py *)

Module ProjectModel.

Inductive ProjectStatus := PLANNING | ACTIVE | ON_HOLD | COMPLETED | P_CANCELLED.

Record ProjectMilestone := mkMilestone {
  m_id : string;
  m_title : string;
  m_description : string;
  m_due_date : Z;
  m_completed : bool;
  m_completed_at : option Z
}.

Record Project := mkProject {
  p_id : string;
  p_name : string;
  p_description : string;
  p_status : ProjectStatus;
  p_owner_id : option string;
  p_created_at : Z;
  p_updated_at : Z;
  p_tasks : list Task;
  p_milestones : list ProjectMilestone;
  p_team_members : list string
}.

Definition _validate_name (name : string) : res string :=
  if negb (truthy name) || negb (truthy (strip name))
  then Raise (ValueError "Project name cannot be empty")
  else Ok (strip name).

Definition set_tasks (p : Project) (ts : list Task) (now : Z) : Project :=
  mkProject (p_id p) (p_name p) (p_description p) (p_status p) (p_owner_id p)
    (p_created_at p) now ts (p_milestones p) (p_team_members p).

(** [Task.__eq__]: tasks compare by id, so [task in self._tasks] is a search by id. *)
Definition task_eq (a b : Task) : bool := String.eqb (t_id a) (t_id b).

Definition task_in (t : Task) (ts : list Task) : bool := existsb (task_eq t) ts.

(** [Project.add_task] *)
Definition add_task (p : Project) (t : Task) (now : Z) : Project :=
  if negb (task_in t (p_tasks p)) then set_tasks p (p_tasks p ++ [t]) now else p.

(** [list.remove]: drops the first element equal to [t]. *)
Fixpoint list_remove (t : Task) (ts : list Task) : list Task :=
  match ts with
  | [] => []
  | x :: r => if task_eq x t then r else x :: list_remove t r
  end.

(** [Project.remove_task] *)
Definition remove_task (p : Project) (t : Task) (now : Z) : Project :=
  if task_in t (p_tasks p) then set_tasks p (list_remove t (p_tasks p)) now else p.

(** [Project.get_tasks_by_status] *)
Definition get_tasks_by_status (p : Project) (s : TaskStatus) : list Task :=
  filter (fun t => TaskStatus_eqb (t_status t) s) (p_tasks p).

(** [Project.get_progress_percentage]:
    [int((completed_tasks / len(self._tasks)) * 100)] in binary64 arithmetic. *)
Definition get_progress_percentage (p : Project) : Z :=
  match p_tasks p with
  | [] => 0
  | _ =>
      let completed_tasks := length (get_tasks_by_status p DONE) in
      float_trunc
        (PrimFloat.mul
           (PrimFloat.div (float_of_nat completed_tasks) (float_of_nat (length (p_tasks p))))
           (float_of_nat 100))
  end.

(** The spec's progress percentage: [floor(100 * D / N)], 0 when [N = 0]. *)
Definition progress_spec (p : Project) : Z :=
  let n := Z.of_nat (length (p_tasks p)) in
  let d := Z.of_nat (length (get_tasks_by_status p DONE)) in
  if n =? 0 then 0 else (100 * d) / n.

End ProjectModel.

Import ProjectModel.

(* ------------------------------------------------------------------ *)
(** ** models/team.py *)

Module TeamModel.

Inductive TeamRole := LEADER | MEMBER | CONTRIBUTOR.

Definition TeamRole_eqb (a b : TeamRole) : bool :=
  match a, b with
  | LEADER, LEADER | MEMBER, MEMBER | CONTRIBUTOR, CONTRIBUTOR => true
  | _, _ => false
  end.

Record TeamMember := mkMember {
  tm_user_id : string;
  tm_role : TeamRole;
  tm_joined_at : Z;
  tm_permissions : list string
}.

Record Team := mkTeam {
  team_id : string;
  team_name : string;
  team_description : string;
  team_leader_id : option string;
  team_created_at : Z;
  team_updated_at : Z;
  team_members : list TeamMember;
  team_projects : list string
}.

Definition _validate_team_name (name : string) : res string :=
  if negb (truthy name) || negb (truthy (strip name))
  then Raise (ValueError "Team name cannot be empty")
  else Ok (strip name).

Definition set_members (t : Team) (ms : list TeamMember) (now : Z) : Team :=
  mkTeam (team_id t) (team_name t) (team_description t) (team_leader_id t)
    (team_created_at t) now ms (team_projects t).

(** [user_id == self._leader_id] with [self._leader_id : Optional[str]]. *)
Definition is_leader_id (t : Team) (uid : string) : bool :=
  match team_leader_id t with Some l => String.eqb uid l | None => false end.

(** The loop of [Team.remove_member]: [Some (Ok rest)] when a member with
    [uid] is found and popped, [Some (Raise _)] when it is the leader,
    [None] when the loop ends without a match. *)
Fixpoint remove_member_loop (t : Team) (uid : string) (ms : list TeamMember)
    : option (res (list TeamMember)) :=
  match ms with
  | [] => None
  | m :: r =>
      if String.eqb (tm_user_id m) uid then
        if is_leader_id t uid then Some (Raise (ValueError "Cannot remove team leader"))
        else Some (Ok r)
      else match remove_member_loop t uid r with
           | Some (Ok r') => Some (Ok (m :: r'))
           | o => o
           end
  end.

(** [Team.remove_member] *)
Definition remove_member (t : Team) (uid : string) (now : Z) : res (bool * Team) :=
  match remove_member_loop t uid (team_members t) with
  | None => Ok (false, t)
  | Some (Raise e) => Raise e
  | Some (Ok ms) => Ok (true, set_members t ms now)
  end.

(** [Team.is_member] *)
Definition is_member (t : Team) (uid : string) : bool :=
  existsb (fun m => String.eqb (tm_user_id m) uid) (team_members t).

(** [Team.get_member_role] *)
Definition get_member_role (t : Team) (uid : string) : option TeamRole :=
  match find (fun m => String.eqb (tm_user_id m) uid) (team_members t) with
  | Some m => Some (tm_role m)
  | None => None
  end.

End TeamModel.

Import TeamModel.

(* ------------------------------------------------------------------ *)
(** ** models/user.py *)

Module UserModel.

Inductive UserRole := ADMIN | USER | GUEST.

Definition UserRole_eqb (a b : UserRole) : bool :=
  match a, b with
  | ADMIN, ADMIN | USER, USER | GUEST, GUEST => true
  | _, _ => false
  end.

(** [hashlib.pbkdf2_hmac('sha256', password, salt, 100000).hex()], kept abstract. *)
Class Hasher := { pbkdf2_hex : string -> string -> string }.

Record UserProfile := mkProfile {
  first_name : string;
  last_name : string;
  bio : string
}.

Record User := mkUser {
  u_id : option string;
  u_username : string;
  u_email : string;
  u_password_hash : string;
  u_role : UserRole;
  u_profile : UserProfile;
  u_created_at : Z;
  u_permissions : list string
}.

Definition is_admin (u : User) : bool := UserRole_eqb (u_role u) ADMIN.

(** [User._get_permissions] *)
Definition _get_permissions (r : UserRole) : list string :=
  match r with
  | ADMIN => ["admin.panel"; "user.manage"; "system.settings"]
  | USER => ["profile.update"; "content.create"]
  | GUEST => ["content.read"]
  end.

(** [User._validate_username]: length check first, then [lower().strip()]. *)
Definition _validate_username (username : string) : res string :=
  if negb (truthy username) || (String.length username <? 3)%nat
  then Raise (ValidationError "Username must be at least 3 characters")
  else Ok (strip (lower username)).

(** Character classes of [EMAIL_REGEX]. *)
Definition is_alpha (c : ascii) : bool :=
  let n := nat_of_ascii c in ((65 <=? n) && (n <=? 90))%nat || ((97 <=? n) && (n <=? 122))%nat.
Definition is_digit (c : ascii) : bool :=
  let n := nat_of_ascii c in ((48 <=? n) && (n <=? 57))%nat.
Definition local_class (c : ascii) : bool :=
  is_alpha c || is_digit c || existsb (Ascii.eqb c) ["."; "_"; "%"; "+"; "-"]%char.
Definition domain_class (c : ascii) : bool :=
  is_alpha c || is_digit c || existsb (Ascii.eqb c) ["."; "-"]%char.

Definition all_chars (p : ascii -> bool) (l : list ascii) : bool := forallb p l.

(** Splits [l] at its last occurrence of [c]. *)
Fixpoint split_last (c : ascii) (l : list ascii) : option (list ascii * list ascii) :=
  match l with
  | [] => None
  | x :: r =>
      match split_last c r with
      | Some (a, b) => Some (x :: a, b)
      | None => if Ascii.eqb x c then Some ([], r) else None
      end
  end.

(** [EMAIL_REGEX.match(s)] for
    [^[a-zA-Z0-9._%+-]+@[a-zA-Z0-9.-]+\.[a-zA-Z]{2,}$]: neither class
    contains [@], so there is exactly one [@]; the top-level domain has no
    dot, so it follows the last dot. *)
Definition email_regex_match (s : string) : bool :=
  let l := list_ascii_of_string s in
  match split_last "@"%char l with
  | None => false
  | Some (loc, dom) =>
      negb (existsb (Ascii.eqb "@") loc)
      && negb (Nat.eqb (length loc) 0) && all_chars local_class loc
      && match split_last "."%char dom with
         | None => false
         | Some (host, tld) =>
             negb (Nat.eqb (length host) 0) && all_chars domain_class host
             && (2 <=? length tld)%nat && all_chars is_alpha tld
         end
  end.

(** [User._validate_email] *)
Definition _validate_email (email : string) : res string :=
  let e := lower (strip email) in
  if email_regex_match e then Ok e else Raise (ValidationError "Invalid email format").

Section WithHasher.
Context `{Hasher}.

(** [User._hash_password]; [salt] is [secrets.token_hex(16)]. *)
Definition _hash_password (salt password : string) : res string :=
  if (String.length password <? 6)%nat
  then Raise (ValidationError "Password too short")
  else Ok (salt ++ ":" ++ pbkdf2_hex salt password).

(** [User.__init__] *)
Definition new_user (salt : string) (now : Z) (username email password : string)
    (role : UserRole) : res User :=
  un <- _validate_username username ;;
  em <- _validate_email email ;;
  ph <- _hash_password salt password ;;
  Ok (mkUser None un em ph role (mkProfile "" "" "") now (_get_permissions role)).

(** [str.split(':')] into exactly two parts, as the unpacking
    [salt, stored_hash = ...] requires. *)
Definition split_colon (s : string) : option (string * string) :=
  let l := list_ascii_of_string s in
  match split_last ":"%char l with
  | Some (a, b) =>
      if existsb (Ascii.eqb ":") a then None
      else Some (string_of_list_ascii a, string_of_list_ascii b)
  | None => None
  end.

(** [User.verify_password]; the bare [except] turns a failed unpacking into [False]. *)
Definition verify_password (u : User) (password : string) : bool :=
  match split_colon (u_password_hash u) with
  | Some (salt, stored) => String.eqb (pbkdf2_hex salt password) stored
  | None => false
  end.

(** [User.change_password] *)
Definition change_password (u : User) (salt old_password new_password : string)
    : res User :=
  if negb (verify_password u old_password)
  then Raise (ValidationError "Current password incorrect")
  else
    ph <- _hash_password salt new_password ;;
    Ok (mkUser (u_id u) (u_username u) (u_email u) ph (u_role u) (u_profile u)
          (u_created_at u) (u_permissions u)).

End WithHasher.

(** [user._role = r; user._permissions = user._get_permissions()] *)
Definition set_role (u : User) (r : UserRole) : User :=
  mkUser (u_id u) (u_username u) (u_email u) (u_password_hash u) r (u_profile u)
    (u_created_at u) (_get_permissions r).

Definition set_id (u : User) (i : string) : User :=
  mkUser (Some i) (u_username u) (u_email u) (u_password_hash u) (u_role u) (u_profile u)
    (u_created_at u) (u_permissions u).

End UserModel.

Import UserModel.

(* ------------------------------------------------------------------ *)
(** ** repositories: the in-memory stores, threaded through the services *)

Module Repo.

(** [dict.get] *)
Fixpoint dict_get {V} (k : string) (d : list (string * V)) : option V :=
  match d with
  | [] => None
  | (k', v) :: r => if String.eqb k k' then Some v else dict_get k r
  end.

(** [d[k] = v]: an existing key keeps its position. *)
Fixpoint dict_set {V} (k : string) (v : V) (d : list (string * V)) : list (string * V) :=
  match d with
  | [] => [(k, v)]
  | (k', v') :: r => if String.eqb k k' then (k, v) :: r else (k', v') :: dict_set k v r
  end.

Definition values {V} (d : list (string * V)) : list V := map snd d.

(** The three repositories a service works on; [*_next] is [self._next_id]. *)
Record Store := mkStore {
  users : list (string * User);
  user_next : nat;
  tasks : list (string * Task);
  task_next : nat;
  teams : list (string * Team);
  team_next : nat
}.

Definition with_users (s : Store) (d : list (string * User)) (n : nat) : Store :=
  mkStore d n (tasks s) (task_next s) (teams s) (team_next s).
Definition with_tasks (s : Store) (d : list (string * Task)) : Store :=
  mkStore (users s) (user_next s) d (task_next s) (teams s) (team_next s).
Definition with_teams (s : Store) (d : list (string * Team)) : Store :=
  mkStore (users s) (user_next s) (tasks s) (task_next s) d (team_next s).

(** A service call: the stores are mutated in place, so an exception
    propagates together with the stores as they are at that point. *)
Definition M (A : Type) : Type := Store -> res A * Store.

Definition retM {A} (a : A) : M A := fun s => (Ok a, s).
Definition raiseM {A} (e : exn) : M A := fun s => (Raise e, s).
Definition bindM {A B} (m : M A) (k : A -> M B) : M B :=
  fun s => match m s with
           | (Ok a, s') => k a s'
           | (Raise e, s') => (Raise e, s')
           end.
Definition getS : M Store := fun s => (Ok s, s).
Definition liftM {A} (r : res A) : M A := fun s => (r, s).

Declare Scope repo_scope.
Notation "'let!' x ':=' m 'in' k" := (bindM m (fun x => k))
  (at level 200, x name, m at level 100, k at level 200) : repo_scope.
Open Scope repo_scope.

(** [UserRepository.save] *)
Definition user_save (u : User) : M User :=
  fun s =>
    match u_id u with
    | Some i =>
        if truthy i then (Ok u, with_users s (dict_set i u (users s)) (user_next s))
        else let i' := "userrepository_" ++ str_of_nat (user_next s) in
             let u' := set_id u i' in
             (Ok u', with_users s (dict_set i' u' (users s)) (S (user_next s)))
    | None =>
        let i' := "userrepository_" ++ str_of_nat (user_next s) in
        let u' := set_id u i' in
        (Ok u', with_users s (dict_set i' u' (users s)) (S (user_next s)))
    end.

Definition user_get_by_id (i : string) : M (option User) :=
  fun s => (Ok (dict_get i (users s)), s).

(** [UserRepository.get_by_username] / [get_by_email]: first stored match. *)
Definition user_get_by_username (name : string) : M (option User) :=
  fun s => (Ok (find (fun u => String.eqb (u_username u) name) (values (users s))), s).
Definition user_get_by_email (email : string) : M (option User) :=
  fun s => (Ok (find (fun u => String.eqb (u_email u) email) (values (users s))), s).

(** [TaskRepository.save]: [Task.id] has no setter, so an empty id would fail. *)
Definition task_save (t : Task) : M Task :=
  fun s =>
    if truthy (t_id t) then (Ok t, with_tasks s (dict_set (t_id t) t (tasks s)))
    else (Raise (AttributeError "can't set attribute"), s).

Definition task_get_by_id (i : string) : M (option Task) :=
  fun s => (Ok (dict_get i (tasks s)), s).

(** [TeamRepository.save]: [Team.id] has no setter either. *)
Definition team_save (t : Team) : M Team :=
  fun s =>
    if truthy (team_id t) then (Ok t, with_teams s (dict_set (team_id t) t (teams s)))
    else (Raise (AttributeError "can't set attribute"), s).

Definition team_get_by_id (i : string) : M (option Team) :=
  fun s => (Ok (dict_get i (teams s)), s).

End Repo.

Import Repo.

(* ------------------------------------------------------------------ *)
(** ** services/user_service.py *)

Module UserService.

Section WithHasher.
Context `{Hasher}.

(** [UserService.create_user]; [salt] and [now] are the values the [User]
    constructor draws from [secrets] and the clock. *)
Definition create_user (salt : string) (now : Z) (username email password : string)
    (role : UserRole) : M User :=
  let! by_name := user_get_by_username username in
  match by_name with
  | Some _ => raiseM (ValueError ("Username '" ++ username ++ "' already exists"))
  | None =>
    let! by_email := user_get_by_email email in
    match by_email with
    | Some _ => raiseM (ValueError ("Email '" ++ email ++ "' already exists"))
    | None =>
        match new_user salt now username email password role with
        | Raise (ValidationError m) => raiseM (ValueError m)
        | Raise e => raiseM e
        | Ok u => user_save u
        end
    end
  end.

(** [UserService.change_user_password] *)
Definition change_user_password (salt user_id old_password new_password : string)
    : M User :=
  let! user := user_get_by_id user_id in
  match user with
  | None => raiseM (ValueError ("User with ID " ++ user_id ++ " not found"))
  | Some u =>
      match change_password u salt old_password new_password with
      | Raise (ValidationError m) => raiseM (ValueError m)
      | Raise e => raiseM e
      | Ok u' => user_save u'
      end
  end.

End WithHasher.

(** [UserService.get_users_by_role] *)
Definition get_users_by_role (r : UserRole) : M (list User) :=
  fun s => (Ok (filter (fun u => UserRole_eqb (u_role u) r) (values (users s))), s).

(** [UserService.promote_user] *)
Definition promote_user (user_id : string) (new_role : UserRole) (promoter_id : string)
    : M User :=
  let! user := user_get_by_id user_id in
  match user with
  | None => raiseM (ValueError ("User with ID " ++ user_id ++ " not found"))
  | Some u =>
    let! promoter := user_get_by_id promoter_id in
    match promoter with
    | None => raiseM (ValueError ("Promoter with ID " ++ promoter_id ++ " not found"))
    | Some p =>
      if negb (is_admin p) then raiseM (PermissionError "Only admins can promote users")
      else
        if is_admin u && negb (UserRole_eqb new_role ADMIN) then
          let! admins := get_users_by_role ADMIN in
          if (length admins <=? 1)%nat
          then raiseM (ValueError "Cannot demote the last admin user")
          else user_save (set_role u new_role)
        else user_save (set_role u new_role)
    end
  end.

(** [UserService.deactivate_user]: the role becomes [GUEST]. *)
Definition deactivate_user (user_id deactivator_id : string) : M User :=
  let! user := user_get_by_id user_id in
  match user with
  | None => raiseM (ValueError ("User with ID " ++ user_id ++ " not found"))
  | Some u =>
    let! deactivator := user_get_by_id deactivator_id in
    match deactivator with
    | None => raiseM (ValueError ("Deactivator with ID " ++ deactivator_id ++ " not found"))
    | Some d =>
      if negb (is_admin d) then raiseM (PermissionError "Only admins can deactivate users")
      else
        if is_admin u then
          let! admins := get_users_by_role ADMIN in
          if (length admins <=? 1)%nat
          then raiseM (ValueError "Cannot deactivate the last admin user")
          else user_save (set_role u GUEST)
        else user_save (set_role u GUEST)
    end
  end.

End UserService.

(* ------------------------------------------------------------------ *)
(** ** services/task_service.py *)

Module TaskService.

Definition opt_str_eqb (a : option string) (b : string) : bool :=
  match a with Some x => String.eqb x b | None => false end.

(** [TaskService._can_modify_task] *)
Definition _can_modify_task (user_id : string) (task : Task) : M bool :=
  let! user := user_get_by_id user_id in
  match user with
  | None => retM false
  | Some u => retM (is_admin u || opt_str_eqb (t_assignee_id task) user_id)
  end.

(** [TaskService._can_assign_task] *)
Definition _can_assign_task (user_id : string) (task : Task) : M bool :=
  let! user := user_get_by_id user_id in
  match user with
  | None => retM false
  | Some u => retM (is_admin u)
  end.

(** [TaskService._can_comment_on_task] *)
Definition _can_comment_on_task (user_id : string) (task : Task) : M bool :=
  let! user := user_get_by_id user_id in
  match user with
  | None => retM false
  | Some u => retM (is_admin u || opt_str_eqb (t_assignee_id task) user_id)
  end.

(** [if x and not self.user_repository.get_by_id(x)] for an optional id. *)
Definition check_ref (x : option string) (what : string) : M unit :=
  match x with
  | Some i =>
      if truthy i then
        let! found := user_get_by_id i in
        match found with
        | None => raiseM (ValueError (what ++ " with ID " ++ i ++ " not found"))
        | Some _ => retM tt
        end
      else retM tt
  | None => retM tt
  end.

(** [TaskService.create_task]; [tid] is the task's fresh [uuid4]. *)
Definition create_task (tid : string) (now : Z) (title description : string)
    (assignee_id : option string) (priority : TaskPriority) (due_date : option Z)
    (creator_id : option string) : M Task :=
  let! _ := check_ref assignee_id "Assignee" in
  let! _ := check_ref creator_id "Creator" in
  let! t := liftM (new_task tid now title description assignee_id priority due_date) in
  task_save t.

(** [TaskService.update_task_status] *)
Definition update_task_status (task_id : string) (new_status : TaskStatus)
    (user_id : option string) (now : Z) : M Task :=
  let! task := task_get_by_id task_id in
  match task with
  | None => raiseM (ValueError ("Task with ID " ++ task_id ++ " not found"))
  | Some t =>
    let! ok := (match user_id with
                | Some uid => if truthy uid then _can_modify_task uid t else retM true
                | None => retM true
                end) in
    if negb ok then raiseM (PermissionError "User does not have permission to modify this task")
    else
      let! t' := liftM (update_status t new_status now) in
      task_save t'
  end.

(** [TaskService.assign_task] *)
Definition assign_task (task_id assignee_id assigner_id : string) (now : Z) : M Task :=
  let! task := task_get_by_id task_id in
  match task with
  | None => raiseM (ValueError ("Task with ID " ++ task_id ++ " not found"))
  | Some t =>
    let! assignee := user_get_by_id assignee_id in
    match assignee with
    | None => raiseM (ValueError ("Assignee with ID " ++ assignee_id ++ " not found"))
    | Some _ =>
      let! ok := _can_assign_task assigner_id t in
      if negb ok then raiseM (PermissionError "User does not have permission to assign this task")
      else task_save (set_assignee t (Some assignee_id) now)
    end
  end.

(** [TaskService.add_task_comment]; [cid] is the comment's fresh [uuid4]. *)
Definition add_task_comment (task_id author_id content cid : string) (now : Z) : M Task :=
  let! task := task_get_by_id task_id in
  match task with
  | None => raiseM (ValueError ("Task with ID " ++ task_id ++ " not found"))
  | Some t =>
    let! author := user_get_by_id author_id in
    match author with
    | None => raiseM (ValueError ("Author with ID " ++ author_id ++ " not found"))
    | Some _ =>
      let! ok := _can_comment_on_task author_id t in
      if negb ok then raiseM (PermissionError "User does not have permission to comment on this task")
      else
        let! ct := liftM (add_comment t cid author_id content now) in
        task_save (snd ct)
    end
  end.

End TaskService.

(* ------------------------------------------------------------------ *)
(** ** services/team_service.py *)

Module TeamService.

(** [TeamService._can_manage_team] *)
Definition _can_manage_team (user_id : string) (team : Team) : M bool :=
  let! user := user_get_by_id user_id in
  match user with
  | None => retM false
  | Some u =>
      retM (is_admin u || is_leader_id team user_id
            || match get_member_role team user_id with
               | Some LEADER => true
               | _ => false
               end)
  end.

(** [TeamService.remove_team_member] *)
Definition remove_team_member (tid user_id remover_id : string) (now : Z) : M bool :=
  let! team := team_get_by_id tid in
  match team with
  | None => raiseM (ValueError ("Team with ID " ++ tid ++ " not found"))
  | Some t =>
    let! ok := _can_manage_team remover_id t in
    if negb ok then raiseM (PermissionError "User does not have permission to manage this team")
    else
      let! r := liftM (remove_member t user_id now) in
      let (success, t') := r in
      if success then let! _ := team_save t' in retM success else retM success
  end.

End TeamService.

(* ------------------------------------------------------------------ *)
(** ** to_dict / from_dict of the models *)

Module Serial.

(** The plain values a [to_dict] record is made of. *)
#[warnings="-register-all"]
Inductive pyval : Type :=
| PNone
| PBool (b : bool)
| PInt (z : Z)
| PStr (s : string)
| PList (l : list pyval)
| PDict (d : list (string * pyval)).

(** [datetime.isoformat] and [datetime.fromisoformat] (the latter raising
    [ValueError] on a malformed string), kept abstract. *)
Class DateCodec := {
  isoformat : Z -> string;
  fromisoformat : string -> option Z
}.

(** Truthiness of a value. *)
Definition pytruthy (v : pyval) : bool :=
  match v with
  | PNone => false
  | PBool b => b
  | PInt z => negb (z =? 0)
  | PStr s => truthy s
  | PList l => match l with [] => false | _ => true end
  | PDict d => match d with [] => false | _ => true end
  end.

(** [data[k]] *)
Definition dget (d : pyval) (k : string) : res pyval :=
  match d with
  | PDict kv => match dict_get k kv with Some v => Ok v | None => Raise (KeyError k) end
  | _ => Raise (TypeError "not a dict")
  end.

(** [data.get(k, default)] *)
Definition dget_or (d : pyval) (k : string) (default : pyval) : res pyval :=
  match d with
  | PDict kv => match dict_get k kv with Some v => Ok v | None => Ok default end
  | _ => Raise (TypeError "not a dict")
  end.

(** The models' fields are typed: a value of another type is refused. *)
Definition as_str (v : pyval) : res string :=
  match v with PStr s => Ok s | _ => Raise (TypeError "expected str") end.
Definition as_bool (v : pyval) : res bool :=
  match v with PBool b => Ok b | _ => Raise (TypeError "expected bool") end.
Definition as_opt_str (v : pyval) : res (option string) :=
  match v with PNone => Ok None | PStr s => Ok (Some s) | _ => Raise (TypeError "expected str") end.
Definition as_list (v : pyval) : res (list pyval) :=
  match v with PList l => Ok l | _ => Raise (TypeError "expected list") end.

Fixpoint mapR {A B} (f : A -> res B) (l : list A) : res (list B) :=
  match l with
  | [] => Ok []
  | x :: r => y <- f x ;; ys <- mapR f r ;; Ok (y :: ys)
  end.

Definition as_str_list (v : pyval) : res (list string) :=
  l <- as_list v ;; mapR as_str l.

Definition opt_str_val (o : option string) : pyval :=
  match o with Some s => PStr s | None => PNone end.

(** Enum [.value]s and the enum constructors [E(value)]. *)
Definition TaskStatus_value (s : TaskStatus) : string :=
  match s with
  | TODO => "todo" | IN_PROGRESS => "in_progress" | REVIEW => "review"
  | DONE => "done" | CANCELLED => "cancelled"
  end.
Definition TaskStatus_of (v : pyval) : res TaskStatus :=
  match v with
  | PStr "todo" => Ok TODO | PStr "in_progress" => Ok IN_PROGRESS
  | PStr "review" => Ok REVIEW | PStr "done" => Ok DONE
  | PStr "cancelled" => Ok CANCELLED
  | _ => Raise (ValueError "is not a valid TaskStatus")
  end.

Definition TaskPriority_value (p : TaskPriority) : Z :=
  match p with LOW => 1 | MEDIUM => 2 | HIGH => 3 | URGENT => 4 end.
Definition TaskPriority_of (v : pyval) : res TaskPriority :=
  match v with
  | PInt 1 => Ok LOW | PInt 2 => Ok MEDIUM | PInt 3 => Ok HIGH | PInt 4 => Ok URGENT
  | _ => Raise (ValueError "is not a valid TaskPriority")
  end.

Definition ProjectStatus_value (s : ProjectStatus) : string :=
  match s with
  | PLANNING => "planning" | ACTIVE => "active" | ON_HOLD => "on_hold"
  | COMPLETED => "completed" | P_CANCELLED => "cancelled"
  end.
Definition ProjectStatus_of (v : pyval) : res ProjectStatus :=
  match v with
  | PStr "planning" => Ok PLANNING | PStr "active" => Ok ACTIVE
  | PStr "on_hold" => Ok ON_HOLD | PStr "completed" => Ok COMPLETED
  | PStr "cancelled" => Ok P_CANCELLED
  | _ => Raise (ValueError "is not a valid ProjectStatus")
  end.

Definition TeamRole_value (r : TeamRole) : string :=
  match r with LEADER => "leader" | MEMBER => "member" | CONTRIBUTOR => "contributor" end.
Definition TeamRole_of (v : pyval) : res TeamRole :=
  match v with
  | PStr "leader" => Ok LEADER | PStr "member" => Ok MEMBER
  | PStr "contributor" => Ok CONTRIBUTOR
  | _ => Raise (ValueError "is not a valid TeamRole")
  end.

Definition UserRole_value (r : UserRole) : string :=
  match r with ADMIN => "admin" | USER => "user" | GUEST => "guest" end.
Definition UserRole_of (v : pyval) : res UserRole :=
  match v with
  | PStr "admin" => Ok ADMIN | PStr "user" => Ok USER | PStr "guest" => Ok GUEST
  | _ => Raise (ValueError "is not a valid UserRole")
  end.

Section WithCodec.
Context `{DateCodec}.

Definition iso_val (d : Z) : pyval := PStr (isoformat d).

(** [datetime.fromisoformat(v)] *)
Definition from_iso (v : pyval) : res Z :=
  s <- as_str v ;;
  match fromisoformat s with
  | Some d => Ok d
  | None => Raise (ValueError "Invalid isoformat string")
  end.

(** [TaskComment.to_dict] *)
Definition comment_to_dict (c : TaskComment) : pyval :=
  PDict [("id", PStr (c_id c)); ("author_id", PStr (c_author_id c));
         ("content", PStr (c_content c)); ("created_at", iso_val (c_created_at c))].

(** The comment loop of [Task.from_dict]. *)
Definition comment_from_dict (v : pyval) : res TaskComment :=
  i <- (x <- dget v "id" ;; as_str x) ;;
  a <- (x <- dget v "author_id" ;; as_str x) ;;
  c <- (x <- dget v "content" ;; as_str x) ;;
  d <- (x <- dget v "created_at" ;; from_iso x) ;;
  Ok (mkComment i a c d).

(** [Task.to_dict] *)
Definition task_to_dict (t : Task) : pyval :=
  PDict [("id", PStr (t_id t)); ("title", PStr (t_title t));
         ("description", PStr (t_description t));
         ("status", PStr (TaskStatus_value (t_status t)));
         ("priority", PInt (TaskPriority_value (t_priority t)));
         ("assignee_id", opt_str_val (t_assignee_id t));
         ("due_date", match t_due_date t with Some d => iso_val d | None => PNone end);
         ("created_at", iso_val (t_created_at t)); ("updated_at", iso_val (t_updated_at t));
         ("comments", PList (map comment_to_dict (t_comments t)));
         ("tags", PList (map PStr (t_tags t)))].

(** [Task.from_dict]; [tid] and [now] are what [cls(...)] draws from
    [uuid4] and the clock before they are overwritten. *)
Definition task_from_dict (tid : string) (now : Z) (data : pyval) : res Task :=
  title <- (x <- dget data "title" ;; as_str x) ;;
  description <- (x <- dget_or data "description" (PStr "") ;; as_str x) ;;
  assignee <- (x <- dget_or data "assignee_id" PNone ;; as_opt_str x) ;;
  priority <- (x <- dget_or data "priority" (PInt 2) ;; TaskPriority_of x) ;;
  due <- (x <- dget_or data "due_date" PNone ;;
          if pytruthy x then (d <- from_iso x ;; Ok (Some d)) else Ok None) ;;
  task <- new_task tid now title description assignee priority due ;;
  i <- (x <- dget data "id" ;; as_str x) ;;
  st <- (x <- dget data "status" ;; TaskStatus_of x) ;;
  ca <- (x <- dget data "created_at" ;; from_iso x) ;;
  ua <- (x <- dget data "updated_at" ;; from_iso x) ;;
  tags <- (x <- dget_or data "tags" (PList []) ;; as_str_list x) ;;
  cs <- (x <- dget_or data "comments" (PList []) ;; l <- as_list x ;; mapR comment_from_dict l) ;;
  Ok (mkTask i (t_title task) (t_description task) st (t_priority task)
        (t_assignee_id task) (t_due_date task) ca ua (t_comments task ++ cs) tags).

(** [ProjectMilestone.to_dict] *)
Definition milestone_to_dict (m : ProjectMilestone) : pyval :=
  PDict [("id", PStr (m_id m)); ("title", PStr (m_title m));
         ("description", PStr (m_description m)); ("due_date", iso_val (m_due_date m));
         ("completed", PBool (m_completed m));
         ("completed_at", match m_completed_at m with Some d => iso_val d | None => PNone end)].

(** The milestone loop of [Project.from_dict]. *)
Definition milestone_from_dict (v : pyval) : res ProjectMilestone :=
  i <- (x <- dget v "id" ;; as_str x) ;;
  ti <- (x <- dget v "title" ;; as_str x) ;;
  de <- (x <- dget v "description" ;; as_str x) ;;
  du <- (x <- dget v "due_date" ;; from_iso x) ;;
  co <- (x <- dget_or v "completed" (PBool false) ;; as_bool x) ;;
  ca <- (x <- dget_or v "completed_at" PNone ;;
         if pytruthy x then (d <- from_iso x ;; Ok (Some d)) else Ok None) ;;
  Ok (mkMilestone i ti de du co ca).

(** [Project.to_dict] *)
Definition project_to_dict (p : Project) : pyval :=
  PDict [("id", PStr (p_id p)); ("name", PStr (p_name p));
         ("description", PStr (p_description p));
         ("status", PStr (ProjectStatus_value (p_status p)));
         ("owner_id", opt_str_val (p_owner_id p));
         ("created_at", iso_val (p_created_at p)); ("updated_at", iso_val (p_updated_at p));
         ("tasks", PList (map task_to_dict (p_tasks p)));
         ("milestones", PList (map milestone_to_dict (p_milestones p)));
         ("team_members", PList (map PStr (p_team_members p)))].

(** [Project.from_dict]; [tid] and [now] as for [task_from_dict]. *)
Definition project_from_dict (tid : string) (now : Z) (data : pyval) : res Project :=
  name <- (x <- dget data "name" ;; as_str x) ;;
  description <- (x <- dget_or data "description" (PStr "") ;; as_str x) ;;
  owner <- (x <- dget_or data "owner_id" PNone ;; as_opt_str x) ;;
  nm <- _validate_name name ;;
  i <- (x <- dget data "id" ;; as_str x) ;;
  st <- (x <- dget data "status" ;; ProjectStatus_of x) ;;
  ca <- (x <- dget data "created_at" ;; from_iso x) ;;
  ua <- (x <- dget data "updated_at" ;; from_iso x) ;;
  tm <- (x <- dget_or data "team_members" (PList []) ;; as_str_list x) ;;
  ts <- (x <- dget_or data "tasks" (PList []) ;; l <- as_list x ;; mapR (task_from_dict tid now) l) ;;
  ms <- (x <- dget_or data "milestones" (PList []) ;; l <- as_list x ;; mapR milestone_from_dict l) ;;
  Ok (mkProject i nm description st owner ca ua ts ms tm).

(** [TeamMember.to_dict] *)
Definition member_to_dict (m : TeamMember) : pyval :=
  PDict [("user_id", PStr (tm_user_id m)); ("role", PStr (TeamRole_value (tm_role m)));
         ("joined_at", iso_val (tm_joined_at m));
         ("permissions", PList (map PStr (tm_permissions m)))].

(** The member loop of [Team.from_dict]. *)
Definition member_from_dict (v : pyval) : res TeamMember :=
  u <- (x <- dget v "user_id" ;; as_str x) ;;
  r <- (x <- dget v "role" ;; TeamRole_of x) ;;
  j <- (x <- dget v "joined_at" ;; from_iso x) ;;
  ps <- (x <- dget_or v "permissions" (PList []) ;; as_str_list x) ;;
  Ok (mkMember u r j ps).

(** [Team.to_dict] *)
Definition team_to_dict (t : Team) : pyval :=
  PDict [("id", PStr (team_id t)); ("name", PStr (team_name t));
         ("description", PStr (team_description t));
         ("leader_id", opt_str_val (team_leader_id t));
         ("created_at", iso_val (team_created_at t)); ("updated_at", iso_val (team_updated_at t));
         ("members", PList (map member_to_dict (team_members t)));
         ("projects", PList (map PStr (team_projects t)))].

(** [Team.from_dict] *)
Definition team_from_dict (data : pyval) : res Team :=
  name <- (x <- dget data "name" ;; as_str x) ;;
  description <- (x <- dget_or data "description" (PStr "") ;; as_str x) ;;
  leader <- (x <- dget_or data "leader_id" PNone ;; as_opt_str x) ;;
  nm <- _validate_team_name name ;;
  i <- (x <- dget data "id" ;; as_str x) ;;
  ca <- (x <- dget data "created_at" ;; from_iso x) ;;
  ua <- (x <- dget data "updated_at" ;; from_iso x) ;;
  ps <- (x <- dget_or data "projects" (PList []) ;; as_str_list x) ;;
  ms <- (x <- dget_or data "members" (PList []) ;; l <- as_list x ;; mapR member_from_dict l) ;;
  Ok (mkTeam i nm description leader ca ua ms ps).

(** [User.to_dict]: the password digest is not part of the record. *)
Definition user_to_dict (u : User) : pyval :=
  PDict [("id", opt_str_val (u_id u)); ("username", PStr (u_username u));
         ("email", PStr (u_email u)); ("role", PStr (UserRole_value (u_role u)));
         ("profile", PDict [("first_name", PStr (first_name (u_profile u)));
                            ("last_name", PStr (last_name (u_profile u)));
                            ("bio", PStr (bio (u_profile u)))]);
         ("created_at", iso_val (u_created_at u));
         ("permissions", PList (map PStr (u_permissions u)))].

(** [User.from_dict]: the constructor is called with [password="dummy"];
    [salt] and [now] are what it draws from [secrets] and the clock. *)
Definition user_from_dict `{Hasher} (salt : string) (now : Z) (data : pyval) : res User :=
  un <- (x <- dget data "username" ;; as_str x) ;;
  em <- (x <- dget data "email" ;; as_str x) ;;
  ro <- (x <- dget data "role" ;; UserRole_of x) ;;
  user <- new_user salt now un em "dummy" ro ;;
  i <- (x <- dget_or data "id" PNone ;; as_opt_str x) ;;
  ca <- (x <- dget data "created_at" ;; from_iso x) ;;
  perms <- (x <- dget_or data "permissions" (PList []) ;; as_str_list x) ;;
  prof <- dget_or data "profile" (PDict []) ;;
  fn <- (x <- dget_or prof "first_name" (PStr "") ;; as_str x) ;;
  ln <- (x <- dget_or prof "last_name" (PStr "") ;; as_str x) ;;
  bi <- (x <- dget_or prof "bio" (PStr "") ;; as_str x) ;;
  Ok (mkUser i (u_username user) (u_email user) (u_password_hash user) (u_role user)
        (mkProfile fn ln bi) ca perms).

End WithCodec.

End Serial.

Import Serial.

(* ================================================================== *)
(** * Helper definitions used by the statements *)

(** [list.remove] on team members by user id. *)
Fixpoint remove_first_member (uid : string) (ms : list TeamMember) : list TeamMember :=
  match ms with
  | [] => []
  | m :: r => if String.eqb (tm_user_id m) uid then r else m :: remove_first_member uid r
  end.

(** Number of Admins in the user repository. *)
Definition count_admins (s : Store) : nat :=
  length (filter (fun u => UserRole_eqb (u_role u) ADMIN) (values (users s))).

(** A user repository as [UserRepository.save] builds it: the user found
    under a key has that key, non-empty, as its id. *)
Definition users_wf (s : Store) : Prop :=
  forall k u, dict_get k (users s) = Some u -> u_id u = Some k /\ truthy k = true.

(** Tasks as [TaskRepository.save] stores them: under a non-empty id. *)
Definition tasks_wf (s : Store) : Prop :=
  forall k t, dict_get k (tasks s) = Some t -> truthy (t_id t) = true.

(** A task whose title is stored as [_validate_title] leaves it. *)
Definition task_wf (t : Task) : Prop := _validate_title (t_title t) = Ok (t_title t).

Definition project_wf (p : Project) : Prop :=
  _validate_name (p_name p) = Ok (p_name p) /\ Forall task_wf (p_tasks p).

Definition team_wf (t : Team) : Prop := _validate_team_name (team_name t) = Ok (team_name t).

(** [n] tasks of which the first [n_done] are [DONE]. *)
Definition tasks_with_done (n_done n : nat) : list Task :=
  map (fun i => mkTask ("task_" ++ str_of_nat i) "Task" "" (if (i <? n_done)%nat then DONE else TODO)
                  MEDIUM None None 0 0 [] [])
      (seq 0 n).

Definition project_with (ts : list Task) : Project :=
  mkProject "project_001" "Project" "" PLANNING None 0 0 ts [] [].

(** The team of the model tests: a leader id, no member enrolled. *)
Definition team_leader_not_member : Team :=
  mkTeam "team_001" "Test Team" "A test team" (Some "user_001") 0 0 [] [].

(** The users and task of the spec's end-to-end scenario: A is an Admin,
    B a standard user, and task T is assigned to B. *)
Definition user_A : User :=
  mkUser (Some "userrepository_1") "alice" "alice@example.com" "s1:h1" ADMIN
    (mkProfile "" "" "") 0 (_get_permissions ADMIN).
Definition user_B : User :=
  mkUser (Some "userrepository_2") "bob" "bob@example.com" "s2:h2" USER
    (mkProfile "" "" "") 0 (_get_permissions USER).
Definition task_T : Task :=
  mkTask "task_T" "Write report" "" TODO MEDIUM (Some "userrepository_2") None 0 0 [] [].
Definition scenario_store : Store :=
  mkStore [("userrepository_1", user_A); ("userrepository_2", user_B)] 3
          [("task_T", task_T)] 0 [] 0.

(** A stand-in for the PBKDF2 digest, to run concrete calls; no statement
    below depends on which function it is. *)
#[local] Instance demo_hasher : Hasher := { pbkdf2_hex := fun salt pw => salt ++ "/" ++ pw }.

Definition empty_store : Store := mkStore [] 1 [] 1 [] 1.

(** Two [create_user] calls in a row on [empty_store]. *)
Definition create_twice (u1 e1 u2 e2 : string) : res User * Store :=
  UserService.create_user "salt2" 0 u2 e2 "password123" USER
    (snd (UserService.create_user "salt1" 0 u1 e1 "password123" USER empty_store)).

(** A concrete date codec: a datetime as its microsecond count written in
    binary, read back by [BinaryString.to_Z]. *)
#[local] Instance bin_codec : DateCodec :=
  { isoformat := BinaryString.of_Z; fromisoformat := fun s => Some (BinaryString.to_Z s) }.

(** [user._password_hash = h] *)
Definition set_password_hash (u : User) (h : string) : User :=
  mkUser (u_id u) (u_username u) (u_email u) h (u_role u) (u_profile u)
    (u_created_at u) (u_permissions u).

(** [task_T] once completed, and the scenario's stores holding it. *)
Definition task_T_done : Task := set_status task_T DONE 5.
Definition done_store : Store := with_tasks scenario_store [("task_T", task_T_done)].

(** A team whose leader is also enrolled as a member. *)
Definition team_leader_member : Team :=
  mkTeam "team_001" "Test Team" "A test team" (Some "user_001") 0 0
    [mkMember "user_001" LEADER 0 []; mkMember "user_002" MEMBER 0 []] [].
Definition team_store : Store := with_teams scenario_store [("team_001", team_leader_member)].

(** The scenario with B promoted to Admin: two admins. *)
Definition two_admins_store : Store :=
  with_users scenario_store
    [("userrepository_1", user_A); ("userrepository_2", set_role user_B ADMIN)] 3.

(* ================================================================== *)
(** * The rest of the models, repositories and services *)

(** [x in l] and [l.remove(x)] on a [List[str]]. *)
Definition str_in (x : string) (l : list string) : bool := existsb (String.eqb x) l.

Fixpoint str_remove (x : string) (l : list string) : list string :=
  match l with
  | [] => []
  | y :: r => if String.eqb y x then r else y :: str_remove x r
  end.

(** [needle in hay] on two [str]s: [needle] is a substring of [hay]. *)
Fixpoint prefixb (p s : string) : bool :=
  match p, s with
  | EmptyString, _ => true
  | String a p', String b s' => Ascii.eqb a b && prefixb p' s'
  | String _ _, EmptyString => false
  end.

Fixpoint str_contains (hay needle : string) : bool :=
  prefixb needle hay
  || match hay with
     | EmptyString => false
     | String _ hay' => str_contains hay' needle
     end.

(** [sum(...)] of a list of counts. *)
Definition sum_counts (l : list (string * nat)) : nat := list_sum (map snd l).

(* ------------------------------------------------------------------ *)
(** ** models/task.py: tags, overdue *)

Module TaskMore.

Definition set_tags (t : Task) (tags : list string) (now : Z) : Task :=
  mkTask (t_id t) (t_title t) (t_description t) (t_status t) (t_priority t) (t_assignee_id t)
    (t_due_date t) (t_created_at t) now (t_comments t) tags.

(** [Task.add_tag] *)
Definition add_tag (t : Task) (tag : string) (now : Z) : Task :=
  let tag := lower (strip tag) in
  if truthy tag && negb (str_in tag (t_tags t)) then set_tags t (t_tags t ++ [tag]) now else t.

(** [Task.remove_tag] *)
Definition remove_tag (t : Task) (tag : string) (now : Z) : Task :=
  let tag := lower (strip tag) in
  if str_in tag (t_tags t) then set_tags t (str_remove tag (t_tags t)) now else t.

(** [Task.is_overdue]; [now] is [utcnow()]. *)
Definition is_overdue (t : Task) (now : Z) : bool :=
  match t_due_date t with
  | None => false
  | Some due => if TaskStatus_eqb (t_status t) DONE then false else due <? now
  end.

Definition all_statuses : list TaskStatus := [TODO; IN_PROGRESS; REVIEW; DONE; CANCELLED].
Definition all_priorities : list TaskPriority := [LOW; MEDIUM; HIGH; URGENT].

(** [TaskPriority.name] *)
Definition TaskPriority_name (p : TaskPriority) : string :=
  match p with LOW => "LOW" | MEDIUM => "MEDIUM" | HIGH => "HIGH" | URGENT => "URGENT" end.

End TaskMore.

(* ------------------------------------------------------------------ *)
(** ** models/project.py: milestones, team members, statistics *)

Module ProjectMore.

Definition set_milestones (p : Project) (ms : list ProjectMilestone) (now : Z) : Project :=
  mkProject (p_id p) (p_name p) (p_description p) (p_status p) (p_owner_id p)
    (p_created_at p) now (p_tasks p) ms (p_team_members p).

Definition set_team_members (p : Project) (tm : list string) (now : Z) : Project :=
  mkProject (p_id p) (p_name p) (p_description p) (p_status p) (p_owner_id p)
    (p_created_at p) now (p_tasks p) (p_milestones p) tm.

(** [Project.add_milestone]; [mid] is the fresh [uuid4]. *)
Definition add_milestone (p : Project) (mid title description : string) (due_date now : Z)
    : ProjectMilestone * Project :=
  let m := mkMilestone mid (strip title) (strip description) due_date false None in
  (m, set_milestones p (p_milestones p ++ [m]) now).

(** The loop of [Project.complete_milestone]: the first milestone with the id
    is marked completed at [now]. *)
Fixpoint complete_loop (mid : string) (now : Z) (ms : list ProjectMilestone)
    : option (list ProjectMilestone) :=
  match ms with
  | [] => None
  | m :: r =>
      if String.eqb (m_id m) mid
      then Some (mkMilestone (m_id m) (m_title m) (m_description m) (m_due_date m) true (Some now) :: r)
      else option_map (cons m) (complete_loop mid now r)
  end.

(** [Project.complete_milestone] *)
Definition complete_milestone (p : Project) (mid : string) (now : Z) : bool * Project :=
  match complete_loop mid now (p_milestones p) with
  | Some ms => (true, set_milestones p ms now)
  | None => (false, p)
  end.

(** [Project.add_team_member] *)
Definition add_team_member (p : Project) (uid : string) (now : Z) : Project :=
  if negb (str_in uid (p_team_members p))
  then set_team_members p (p_team_members p ++ [uid]) now else p.

(** [Project.remove_team_member] *)
Definition remove_team_member (p : Project) (uid : string) (now : Z) : Project :=
  if str_in uid (p_team_members p)
  then set_team_members p (str_remove uid (p_team_members p)) now else p.

(** [Project.get_overdue_tasks] and [Project.get_urgent_tasks] *)
Definition get_overdue_tasks (p : Project) (now : Z) : list Task :=
  filter (fun t => TaskMore.is_overdue t now) (p_tasks p).
Definition get_urgent_tasks (p : Project) (now : Z) : list Task :=
  filter (fun t => is_urgent t now) (p_tasks p).

Record TaskStatistics := mkTaskStatistics {
  st_total : nat; st_todo : nat; st_in_progress : nat; st_review : nat;
  st_done : nat; st_cancelled : nat; st_overdue : nat; st_urgent : nat
}.

(** [Project.get_task_statistics] *)
Definition get_task_statistics (p : Project) (now : Z) : TaskStatistics :=
  mkTaskStatistics (length (p_tasks p))
    (length (get_tasks_by_status p TODO)) (length (get_tasks_by_status p IN_PROGRESS))
    (length (get_tasks_by_status p REVIEW)) (length (get_tasks_by_status p DONE))
    (length (get_tasks_by_status p CANCELLED))
    (length (get_overdue_tasks p now)) (length (get_urgent_tasks p now)).

End ProjectMore.

(* ------------------------------------------------------------------ *)
(** ** models/team.py: members, permissions, projects, statistics *)

Module TeamMore.

(** [Team._get_default_permissions] *)
Definition _get_default_permissions (r : TeamRole) : list string :=
  match r with
  | LEADER => ["team.manage"; "project.create"; "project.assign";
               "member.add"; "member.remove"; "member.promote"]
  | MEMBER => ["project.view"; "task.create"; "task.assign"; "comment.add"; "milestone.view"]
  | CONTRIBUTOR => ["project.view"; "task.view"; "comment.add"]
  end.

(** [Team.add_member] *)
Definition add_member (t : Team) (uid : string) (role : TeamRole) (now : Z)
    : res (TeamMember * Team) :=
  if is_member t uid then Raise (ValueError "User is already a member of this team")
  else
    let m := mkMember uid role now (_get_default_permissions role) in
    Ok (m, set_members t (team_members t ++ [m]) now).

(** The loop of [Team.promote_member]: the first member with the id gets the
    role and its default permissions. *)
Fixpoint promote_loop (uid : string) (r : TeamRole) (ms : list TeamMember)
    : option (list TeamMember) :=
  match ms with
  | [] => None
  | m :: rest =>
      if String.eqb (tm_user_id m) uid
      then Some (mkMember (tm_user_id m) r (tm_joined_at m) (_get_default_permissions r) :: rest)
      else option_map (cons m) (promote_loop uid r rest)
  end.

(** [Team.promote_member] *)
Definition promote_member (t : Team) (uid : string) (r : TeamRole) (now : Z) : bool * Team :=
  match promote_loop uid r (team_members t) with
  | Some ms => (true, set_members t ms now)
  | None => (false, t)
  end.

(** [Team.has_permission] *)
Definition has_permission (t : Team) (uid perm : string) : bool :=
  match find (fun m => String.eqb (tm_user_id m) uid) (team_members t) with
  | Some m => str_in perm (tm_permissions m)
  | None => false
  end.

Definition set_projects (t : Team) (ps : list string) (now : Z) : Team :=
  mkTeam (team_id t) (team_name t) (team_description t) (team_leader_id t)
    (team_created_at t) now (team_members t) ps.

(** [Team.add_project] *)
Definition add_project (t : Team) (pid : string) (now : Z) : Team :=
  if negb (str_in pid (team_projects t)) then set_projects t (team_projects t ++ [pid]) now else t.

(** [Team.remove_project] *)
Definition remove_project (t : Team) (pid : string) (now : Z) : Team :=
  if str_in pid (team_projects t) then set_projects t (str_remove pid (team_projects t)) now else t.

(** [Team.get_member_count] and [Team.get_members_by_role] *)
Definition get_member_count (t : Team) : nat := length (team_members t).
Definition get_members_by_role (t : Team) (r : TeamRole) : list TeamMember :=
  filter (fun m => TeamRole_eqb (tm_role m) r) (team_members t).

Record TeamStatistics := mkTeamStatistics {
  ts_total_members : nat;
  ts_total_projects : nat;
  ts_role_distribution : list (string * nat);
  ts_created_at : string;
  ts_last_updated : string
}.

Section WithCodec.
Context `{DateCodec}.

(** [Team.get_team_statistics] *)
Definition get_team_statistics (t : Team) : TeamStatistics :=
  mkTeamStatistics (get_member_count t) (length (team_projects t))
    (map (fun r => (TeamRole_value r, length (get_members_by_role t r))) [LEADER; MEMBER; CONTRIBUTOR])
    (isoformat (team_created_at t)) (isoformat (team_updated_at t)).

End WithCodec.

End TeamMore.

(* ------------------------------------------------------------------ *)
(** ** models/user.py: permissions, promotion *)

Module UserMore.

(** [User.has_permission] *)
Definition has_permission (u : User) (perm : string) : bool := str_in perm (u_permissions u).

(** [User.promote_to_admin] *)
Definition promote_to_admin (u admin_user : User) : res User :=
  if negb (is_admin admin_user) then Raise (ValidationError "Only admins can promote users")
  else Ok (set_role u ADMIN).

(** [UserProfile.full_name] *)
Definition full_name (p : UserProfile) : string := strip (first_name p ++ " " ++ last_name p).

(** No ':' in a string: [str.split(':')] gives one part. *)
Definition colon_free (s : string) : bool :=
  negb (existsb (Ascii.eqb ":") (list_ascii_of_string s)).

End UserMore.

(* ------------------------------------------------------------------ *)
(** ** repositories: delete, exists, count, queries, statistics *)

Module Repositories.

(** [del d[k]] *)
Fixpoint dict_del {V} (k : string) (d : list (string * V)) : list (string * V) :=
  match d with
  | [] => []
  | (k', v) :: r => if String.eqb k k' then r else (k', v) :: dict_del k r
  end.

(** [k in d] *)
Definition dict_has {V} (k : string) (d : list (string * V)) : bool :=
  existsb (fun kv => String.eqb k (fst kv)) d.

(** [UserRepository.delete] *)
Definition user_delete (i : string) : M bool :=
  fun s =>
    if dict_has i (users s) then (Ok true, with_users s (dict_del i (users s)) (user_next s))
    else (Ok false, s).

(** [BaseRepository.exists] and [BaseRepository.count] on the user repository. *)
Definition user_exists (i : string) : M bool := fun s => (Ok (dict_has i (users s)), s).
Definition user_count : M nat := fun s => (Ok (length (users s)), s).

(** [TaskRepository.get_by_status], [get_by_priority], [get_overdue_tasks],
    [get_urgent_tasks] *)
Definition task_get_by_status (st : TaskStatus) : M (list Task) :=
  fun s => (Ok (filter (fun t => TaskStatus_eqb (t_status t) st) (values (tasks s))), s).
Definition task_get_by_priority (p : TaskPriority) : M (list Task) :=
  fun s => (Ok (filter (fun t => TaskPriority_eqb (t_priority t) p) (values (tasks s))), s).
Definition task_get_overdue_tasks (now : Z) : M (list Task) :=
  fun s => (Ok (filter (fun t => TaskMore.is_overdue t now) (values (tasks s))), s).
Definition task_get_urgent_tasks (now : Z) : M (list Task) :=
  fun s => (Ok (filter (fun t => is_urgent t now) (values (tasks s))), s).

(** [TaskRepository.search_by_title] *)
Definition task_search_by_title (title_query : string) : M (list Task) :=
  fun s =>
    let query_lower := lower title_query in
    (Ok (filter (fun t => str_contains (lower (t_title t)) query_lower) (values (tasks s))), s).

(** [TaskRepository.get_tasks_with_tag] *)
Definition task_get_tasks_with_tag (tag : string) : M (list Task) :=
  fun s =>
    let tag_lower := lower tag in
    (Ok (filter (fun t => str_in tag_lower (map lower (t_tags t))) (values (tasks s))), s).

Record TaskStats := mkTaskStats {
  ts_total : nat;
  ts_by_status : list (string * nat);
  ts_by_priority : list (string * nat);
  ts_overdue : nat;
  ts_urgent : nat
}.

(** [TaskRepository.get_task_statistics]; [self.get_by_status(status)] and the
    other queries are the filters above, read off the same store. *)
Definition task_get_task_statistics (now : Z) : M TaskStats :=
  fun s =>
    let all_tasks := values (tasks s) in
    (Ok (mkTaskStats (length all_tasks)
           (map (fun st => (TaskStatus_value st,
                            length (filter (fun t => TaskStatus_eqb (t_status t) st) all_tasks)))
                TaskMore.all_statuses)
           (map (fun p => (TaskMore.TaskPriority_name p,
                           length (filter (fun t => TaskPriority_eqb (t_priority t) p) all_tasks)))
                TaskMore.all_priorities)
           (length (filter (fun t => TaskMore.is_overdue t now) all_tasks))
           (length (filter (fun t => is_urgent t now) all_tasks))), s).

Record TeamRepoStats := mkTeamRepoStats {
  trs_total : nat;
  trs_total_members : nat;
  trs_total_projects : nat;
  trs_largest_team_size : nat;
  trs_smallest_team_size : nat
}.

(** The loop of [TeamRepository.get_team_statistics]: totals, [max] from 0 and
    [min] from [float('inf')] (here [None]). *)
Fixpoint team_stats_loop (ts : list Team) (members projects largest : nat) (smallest : option nat)
    : nat * nat * nat * option nat :=
  match ts with
  | [] => (members, projects, largest, smallest)
  | t :: r =>
      let c := TeamMore.get_member_count t in
      team_stats_loop r (members + c) (projects + length (team_projects t)) (Nat.max largest c)
        (Some (match smallest with None => c | Some m => Nat.min m c end))
  end.

(** [TeamRepository.get_team_statistics], without the float
    [average_team_size]; a [smallest_team_size] still at [inf] becomes 0. *)
Definition team_get_team_statistics : M TeamRepoStats :=
  fun s =>
    let all_teams := values (teams s) in
    match team_stats_loop all_teams 0 0 0 None with
    | (members, projects, largest, smallest) =>
        (Ok (mkTeamRepoStats (length all_teams) members projects largest
               (match smallest with Some m => m | None => 0 end)), s)
    end.

End Repositories.

(* ------------------------------------------------------------------ *)
(** ** services: the remaining [TaskService] and [UserService] methods *)

Module ServiceMore.

(** [TaskService.search_tasks]; an empty [assignee_id] is falsy and filters nothing. *)
Definition search_tasks (query : string) (status : option TaskStatus)
    (priority : option TaskPriority) (assignee_id : option string) : M (list Task) :=
  fun s =>
    let query_lower := lower query in
    (Ok (filter (fun t =>
           (str_contains (lower (t_title t)) query_lower
            || str_contains (lower (t_description t)) query_lower)
           && match status with Some st => TaskStatus_eqb (t_status t) st | None => true end
           && match priority with Some p => TaskPriority_eqb (t_priority t) p | None => true end
           && match assignee_id with
              | Some a => if truthy a then TaskService.opt_str_eqb (t_assignee_id t) a else true
              | None => true
              end)
         (values (tasks s))), s).

(** [TaskService.get_task_statistics] *)
Definition get_task_statistics (user_id : option string) (now : Z) : M Repositories.TaskStats :=
  fun s =>
    let all_tasks := values (tasks s) in
    let all_tasks :=
      match user_id with
      | Some u => if truthy u
                  then filter (fun t => TaskService.opt_str_eqb (t_assignee_id t) u) all_tasks
                  else all_tasks
      | None => all_tasks
      end in
    (Ok (Repositories.mkTaskStats (length all_tasks)
           (map (fun st => (TaskStatus_value st,
                            length (filter (fun t => TaskStatus_eqb (t_status t) st) all_tasks)))
                TaskMore.all_statuses)
           (map (fun p => (TaskMore.TaskPriority_name p,
                           length (filter (fun t => TaskPriority_eqb (t_priority t) p) all_tasks)))
                TaskMore.all_priorities)
           (length (filter (fun t => TaskMore.is_overdue t now) all_tasks))
           (length (filter (fun t => is_urgent t now) all_tasks))), s).

Record UserStats := mkUserStats {
  us_total : nat;
  us_by_role : list (string * nat);
  us_recent_registrations : nat
}.

(** [UserService.get_user_statistics]; [now] is [utcnow()]. *)
Definition get_user_statistics (now : Z) : M UserStats :=
  fun s =>
    let all_users := values (users s) in
    let thirty_days_ago := now - 30 * DAY in
    (Ok (mkUserStats (length all_users)
           (map (fun r => (UserRole_value r,
                           length (filter (fun u => UserRole_eqb (u_role u) r) all_users)))
                [ADMIN; USER; GUEST])
           (length (filter (fun u => thirty_days_ago <=? u_created_at u) all_users))), s).

Section WithHasher.
Context `{Hasher}.

(** [UserService.authenticate_user] *)
Definition authenticate_user (username password : string) : M (option User) :=
  let! user := user_get_by_username username in
  match user with
  | Some u => if verify_password u password then retM (Some u) else retM None
  | None => retM None
  end.

End WithHasher.

(** The validation loop of [UserService.update_user_profile] over the
    keyword arguments, in order. *)
Fixpoint check_profile_data (kv : list (string * pyval)) : res unit :=
  match kv with
  | [] => Ok tt
  | (k, v) :: r =>
      if negb (str_in k ["first_name"; "last_name"; "bio"])
      then Raise (ValueError ("Invalid profile field: " ++ k))
      else match v with
           | PStr _ => check_profile_data r
           | _ => Raise (ValueError ("Profile field " ++ k ++ " must be a string"))
           end
  end.

(** [setattr(self._profile, key, value)] for one of the three fields. *)
Definition set_profile_field (p : UserProfile) (k : string) (v : pyval) : UserProfile :=
  match v with
  | PStr x =>
      if String.eqb k "first_name" then mkProfile x (last_name p) (bio p)
      else if String.eqb k "last_name" then mkProfile (first_name p) x (bio p)
      else if String.eqb k "bio" then mkProfile (first_name p) (last_name p) x
      else p
  | _ => p
  end.

(** [User.update_profile] on keyword arguments that [check_profile_data] admitted. *)
Definition update_profile (u : User) (kv : list (string * pyval)) : User :=
  mkUser (u_id u) (u_username u) (u_email u) (u_password_hash u) (u_role u)
    (fold_left (fun p kv => set_profile_field p (fst kv) (snd kv)) kv (u_profile u))
    (u_created_at u) (u_permissions u).

(** [UserService.update_user_profile] *)
Definition update_user_profile (user_id : string) (profile_data : list (string * pyval)) : M User :=
  let! user := user_get_by_id user_id in
  match user with
  | None => raiseM (ValueError ("User with ID " ++ user_id ++ " not found"))
  | Some u =>
      match check_profile_data profile_data with
      | Raise e => raiseM e
      | Ok _ => user_save (update_profile u profile_data)
      end
  end.

(** [EMAIL_REGEX.match(s)]: [$] also matches before a final newline. *)
Definition email_regex_match_raw (s : string) : bool :=
  email_regex_match s
  || match rev_str s EmptyString with
     | String c r => Ascii.eqb c "010"%char && email_regex_match (rev_str r EmptyString)
     | EmptyString => false
     end.

(** [UserService.validate_user_data]; the result keeps the non-empty lists,
    in the order username, email, password. *)
Definition validate_user_data (username email password : option string)
    : M (list (string * list string)) :=
  fun s =>
    let username_errors :=
      match username with
      | None => []
      | Some un =>
          if negb (truthy un) || (String.length un <? 3)%nat
          then ["Username must be at least 3 characters"]
          else match find (fun u => String.eqb (u_username u) un) (values (users s)) with
               | Some _ => ["Username already exists"]
               | None => []
               end
      end in
    let email_errors :=
      match email with
      | None => []
      | Some em =>
          if negb (truthy em) || negb (email_regex_match_raw em)
          then ["Invalid email format"]
          else match find (fun u => String.eqb (u_email u) em) (values (users s)) with
               | Some _ => ["Email already exists"]
               | None => []
               end
      end in
    let password_errors :=
      match password with
      | None => []
      | Some pw =>
          if negb (truthy pw) || (String.length pw <? 6)%nat
          then ["Password must be at least 6 characters"] else []
      end in
    (Ok (filter (fun kv => match snd kv with [] => false | _ => true end)
           [("username", username_errors); ("email", email_errors);
            ("password", password_errors)]), s).

End ServiceMore.

(* ================================================================== *)
(** * Lemmas and claims *)

(** ** C1: Done is terminal for [Task.update_status] *)

Lemma TaskStatus_eqb_true (a b : TaskStatus) : TaskStatus_eqb a b = true <-> a = b.
Proof. destruct a, b; simpl; split; congruence. Qed.

Lemma TaskStatus_eqb_refl (a : TaskStatus) : TaskStatus_eqb a a = true.
Proof. destruct a; reflexivity. Qed.

Lemma TaskStatus_eqb_false (a b : TaskStatus) : a <> b -> TaskStatus_eqb a b = false.
Proof. intro H. destruct (TaskStatus_eqb a b) eqn:E; [|reflexivity].
  apply TaskStatus_eqb_true in E. contradiction. Qed.

(** C1. A task whose status is [DONE] refuses every other status with the
    [ValueError] of [update_status] (InvalidTransition); through
    [TaskService.update_task_status] the call fails and leaves the stores,
    and so the stored task's [DONE], unchanged. A task not [DONE] accepts
    every new status and its [updated_at] becomes the evaluation time, the
    other fields unchanged. *)
Theorem update_status_done_terminal :
  (forall (t : Task) (new_status : TaskStatus) (now : Z),
      t_status t = DONE -> new_status <> DONE ->
      update_status t new_status now
      = Raise (ValueError "Cannot change status of completed task")) /\
  (forall (s : Store) (tid : string) (t : Task) (new_status : TaskStatus)
          (uid : option string) (now : Z),
      dict_get tid (tasks s) = Some t -> t_status t = DONE -> new_status <> DONE ->
      exists e, TaskService.update_task_status tid new_status uid now s = (Raise e, s)) /\
  (forall (t : Task) (new_status : TaskStatus) (now : Z),
      t_status t <> DONE ->
      exists t', update_status t new_status now = Ok t' /\
        t_status t' = new_status /\ t_updated_at t' = now /\
        t' = set_status t new_status now).
Proof.
  split; [|split].
  - intros t ns now Hd Hn. unfold update_status. rewrite Hd.
    rewrite (TaskStatus_eqb_false ns DONE Hn). reflexivity.
  - intros s tid t ns uid now Hget Hd Hn.
    unfold TaskService.update_task_status, bindM, task_get_by_id. rewrite Hget.
    assert (Hu : update_status t ns now = Raise (ValueError "Cannot change status of completed task")).
    { unfold update_status. rewrite Hd, (TaskStatus_eqb_false ns DONE Hn). reflexivity. }
    destruct uid as [uid|]; [destruct (truthy uid)|];
      [unfold TaskService._can_modify_task, bindM, user_get_by_id;
       destruct (dict_get uid (users s)) as [u|];
       [destruct (is_admin u || TaskService.opt_str_eqb (t_assignee_id t) uid)|] | |];
      cbn -[update_status]; unfold liftM, raiseM; try rewrite Hu; eauto.
  - intros t ns now Hd. exists (set_status t ns now). unfold update_status.
    rewrite (TaskStatus_eqb_false _ DONE Hd). simpl. auto.
Qed.

(** ** C6: [Task.is_urgent] *)

Lemma TaskPriority_eqb_true (a b : TaskPriority) : TaskPriority_eqb a b = true <-> a = b.
Proof. destruct a, b; simpl; split; congruence. Qed.

(** [(x // DAY) <= 1] exactly when [x] is less than two days. *)
Lemma days_le_1_iff (x : Z) : (x / DAY <=? 1) = (x <? 2 * DAY).
Proof.
  assert (HD : 0 < DAY) by (unfold DAY; lia).
  destruct (Z.ltb_spec x (2 * DAY)) as [Hx|Hx]; apply Z.leb_le || apply Z.leb_gt.
  - assert (x / DAY < 2) by (apply Z.div_lt_upper_bound; lia). lia.
  - assert (2 <= x / DAY) by (apply Z.div_le_lower_bound; lia). lia.
Qed.

Definition task_hi_1 : Task :=
  mkTask "t1" "Ship" "" TODO HIGH None (Some (3 * DAY / 2)) 0 0 [] [].

(** C6, as stated, fails: a High task due one and a half days after the
    evaluation time is urgent for the code, though not due within one day. *)
Lemma is_urgent_counterexample :
  is_urgent task_hi_1 0 = true /\ is_urgent_spec task_hi_1 0 = false.
Proof. split; vm_compute; reflexivity. Qed.

(** C6, amended. [is_urgent] is true for every Urgent task whatever its due
    date; otherwise it is true exactly when a due date exists, the priority is
    High, and the due date is less than two whole days after the evaluation
    time ([(due - now).days <= 1] with floor division, which includes every
    past due date). *)
Theorem is_urgent_iff :
  forall (t : Task) (now : Z),
    is_urgent t now = true <->
    t_priority t = URGENT \/
    (t_priority t = HIGH /\ exists due, t_due_date t = Some due /\ due - now < 2 * DAY).
Proof.
  intros t now. unfold is_urgent.
  destruct (t_priority t) eqn:Hp; simpl.
  1,2: destruct (t_due_date t) as [due|]; simpl; rewrite ?andb_false_r;
       (split; [discriminate| intros [H|[H _]]; discriminate]).
  - destruct (t_due_date t) as [due|] eqn:Hdd; simpl.
    + rewrite days_le_1_iff, andb_true_r. split.
      * intro H. right. split; [reflexivity|]. exists due. split; [reflexivity|].
        now apply Z.ltb_lt.
      * intros [H|[_ [d [Hd Hlt]]]]; [discriminate|]. injection Hd as ->.
        now apply Z.ltb_lt.
    + split; [discriminate|]. intros [H|[_ [d [Hd _]]]]; discriminate.
  - split; [intros _; now left | reflexivity].
Qed.

(** ** C10: [Project.add_task] compares tasks by id *)

Lemma task_in_iff (t : Task) (ts : list Task) :
  task_in t ts = true <-> In (t_id t) (map t_id ts).
Proof.
  unfold task_in, task_eq. rewrite existsb_exists. split.
  - intros [x [Hx He]]. apply String.eqb_eq in He. rewrite He. now apply in_map.
  - intros Hin. apply in_map_iff in Hin. destruct Hin as [x [He Hx]].
    exists x. split; [assumption|]. apply String.eqb_eq. now symmetry.
Qed.

Lemma map_id_list_remove (t : Task) (ts : list Task) :
  incl (map t_id (list_remove t ts)) (map t_id ts).
Proof.
  induction ts as [|x r IH]; simpl; [apply incl_refl|].
  destruct (task_eq x t).
  - apply incl_tl, incl_refl.
  - apply incl_cons; [now left|]. now apply incl_tl.
Qed.

Lemma NoDup_list_remove (t : Task) (ts : list Task) :
  NoDup (map t_id ts) -> NoDup (map t_id (list_remove t ts)).
Proof.
  induction ts as [|x r IH]; simpl; intro H; [constructor|].
  inversion H as [|? ? Hn Hd]; subst.
  destruct (task_eq x t); [assumption|]. simpl. constructor.
  - intro Hin. apply Hn. now apply map_id_list_remove in Hin.
  - now apply IH.
Qed.

(** C10. Adding a task whose id is already in the project leaves the project
    unchanged (task list and timestamp), and [add_task] and [remove_task]
    both keep the ids of the task list distinct; a new project starts with
    no tasks, so its task list never holds two tasks with one id. *)
Theorem add_task_idempotent_by_id :
  (forall (p : Project) (t : Task) (now : Z),
      In (t_id t) (map t_id (p_tasks p)) -> add_task p t now = p) /\
  (forall (p : Project) (t : Task) (now : Z),
      NoDup (map t_id (p_tasks p)) -> NoDup (map t_id (p_tasks (add_task p t now)))) /\
  (forall (p : Project) (t : Task) (now : Z),
      NoDup (map t_id (p_tasks p)) -> NoDup (map t_id (p_tasks (remove_task p t now)))).
Proof.
  split; [|split].
  - intros p t now Hin. unfold add_task. apply task_in_iff in Hin. now rewrite Hin.
  - intros p t now Hnd. unfold add_task.
    destruct (task_in t (p_tasks p)) eqn:E; simpl; [assumption|].
    rewrite map_app. simpl. apply NoDup_app; auto using NoDup_cons, NoDup_nil.
    intros x Hx Hy. destruct Hy as [Hy|[]]. subst x.
    assert (task_in t (p_tasks p) = true) by now apply task_in_iff. congruence.
  - intros p t now Hnd. unfold remove_task.
    destruct (task_in t (p_tasks p)); simpl; [|assumption].
    now apply NoDup_list_remove.
Qed.

(** ** C2: [Project.get_progress_percentage] *)

(** C2 (code_bug). With 29 of 50 tasks [DONE] the float expression
    [int((29 / 50) * 100)] is [int(57.99999999999999)] = 57, while
    [floor(100 * 29 / 50)] = 58; the 1-of-3 example gives 33 as stated. *)
Theorem progress_percentage_float_error :
  get_progress_percentage (project_with (tasks_with_done 29 50)) = 57 /\
  progress_spec (project_with (tasks_with_done 29 50)) = 58 /\
  get_progress_percentage (project_with (tasks_with_done 1 3)) = 33 /\
  get_progress_percentage (project_with []) = 0.
Proof. repeat split; vm_compute; reflexivity. Qed.

(** ** C3: [Team.remove_member] and the team leader *)

Definition member_present (uid : string) (ms : list TeamMember) : bool :=
  existsb (fun m => String.eqb (tm_user_id m) uid) ms.

Lemma remove_loop_absent (t : Team) (uid : string) (ms : list TeamMember) :
  member_present uid ms = false -> remove_member_loop t uid ms = None.
Proof.
  induction ms as [|m r IH]; simpl; [reflexivity|].
  destruct (String.eqb (tm_user_id m) uid); simpl; [discriminate|].
  intro H. now rewrite IH.
Qed.

Lemma remove_loop_leader (t : Team) (uid : string) (ms : list TeamMember) :
  is_leader_id t uid = true -> member_present uid ms = true ->
  remove_member_loop t uid ms = Some (Raise (ValueError "Cannot remove team leader")).
Proof.
  intro Hl. induction ms as [|m r IH]; simpl; [discriminate|].
  destruct (String.eqb (tm_user_id m) uid); simpl.
  - now rewrite Hl.
  - intro H. now rewrite IH.
Qed.

Lemma remove_loop_other (t : Team) (uid : string) (ms : list TeamMember) :
  is_leader_id t uid = false -> member_present uid ms = true ->
  remove_member_loop t uid ms = Some (Ok (remove_first_member uid ms)).
Proof.
  intro Hl. induction ms as [|m r IH]; simpl; [discriminate|].
  destruct (String.eqb (tm_user_id m) uid); simpl.
  - now rewrite Hl.
  - intro H. now rewrite IH.
Qed.

(** C3, as stated, fails: a team created with a leader id that is not in its
    member list (as [Team(name, leader_id=...)] does) answers [False] to the
    removal of its leader instead of failing. *)
Lemma remove_leader_counterexample :
  remove_member team_leader_not_member "user_001" 0 = Ok (false, team_leader_not_member).
Proof. reflexivity. Qed.

(** C3, amended. Removing the id equal to [leader_id] fails with the
    [ValueError] "Cannot remove team leader" (CannotRemoveLeader) when the
    leader is in the member list, and returns [False] with the team unchanged
    when it is not. Removing any other id returns whether a member with that
    id was found, and then drops the first such member. Through
    [TeamService.remove_team_member], a remover who is an Admin is refused the
    leader's removal in the same way, and the team store is unchanged. *)
Theorem remove_member_leader :
  (forall (t : Team) (uid : string) (now : Z),
      is_leader_id t uid = true -> is_member t uid = true ->
      remove_member t uid now = Raise (ValueError "Cannot remove team leader")) /\
  (forall (t : Team) (uid : string) (now : Z),
      is_leader_id t uid = true -> is_member t uid = false ->
      remove_member t uid now = Ok (false, t)) /\
  (forall (t : Team) (uid : string) (now : Z),
      is_leader_id t uid = false ->
      remove_member t uid now
      = Ok (is_member t uid,
            if is_member t uid
            then set_members t (remove_first_member uid (team_members t)) now else t)) /\
  (forall (s : Store) (tid uid rid : string) (t : Team) (u : User) (now : Z),
      dict_get tid (teams s) = Some t -> dict_get rid (users s) = Some u ->
      is_admin u = true -> is_leader_id t uid = true -> is_member t uid = true ->
      TeamService.remove_team_member tid uid rid now s
      = (Raise (ValueError "Cannot remove team leader"), s)).
Proof.
  assert (Hlead : forall (t : Team) (uid : string) (now : Z),
      is_leader_id t uid = true -> is_member t uid = true ->
      remove_member t uid now = Raise (ValueError "Cannot remove team leader")).
  { intros t uid now Hl Hm. unfold remove_member.
    now rewrite (remove_loop_leader t uid (team_members t) Hl Hm). }
  split; [exact Hlead|split; [|split]].
  - intros t uid now Hl Hm. unfold remove_member.
    now rewrite (remove_loop_absent t uid (team_members t) Hm).
  - intros t uid now Hl. unfold remove_member.
    destruct (is_member t uid) eqn:Hm.
    + now rewrite (remove_loop_other t uid (team_members t) Hl Hm).
    + now rewrite (remove_loop_absent t uid (team_members t) Hm).
  - intros s tid uid rid t u now Ht Hu Ha Hl Hm.
    unfold TeamService.remove_team_member, TeamService._can_manage_team, bindM,
      team_get_by_id, user_get_by_id.
    rewrite Ht. simpl. rewrite Hu. simpl. rewrite Ha. simpl.
    unfold liftM. now rewrite (Hlead t uid now Hl Hm).
Qed.

(** ** C4: the last Admin cannot be demoted or deactivated *)

Definition admin_bit (u : User) : nat := if is_admin u then 1 else 0.

Lemma count_values_dict_set (d : list (string * User)) (k : string) (u u' : User) :
  dict_get k d = Some u ->
  (length (filter (fun x => UserRole_eqb (u_role x) ADMIN) (values (dict_set k u' d)))
   + admin_bit u
   = length (filter (fun x => UserRole_eqb (u_role x) ADMIN) (values d)) + admin_bit u')%nat.
Proof.
  unfold admin_bit, is_admin.
  induction d as [|[k' v] r IH]; simpl; [discriminate|].
  destruct (String.eqb k k') eqn:Ek.
  - intro H. injection H as ->. simpl.
    destruct (UserRole_eqb (u_role u) ADMIN), (UserRole_eqb (u_role u') ADMIN); simpl; lia.
  - intro H. simpl. specialize (IH H).
    destruct (UserRole_eqb (u_role v) ADMIN); simpl; lia.
Qed.

Lemma user_save_existing (s : Store) (u : User) (k : string) :
  u_id u = Some k -> truthy k = true ->
  user_save u s = (Ok u, with_users s (dict_set k u (users s)) (user_next s)).
Proof. intros Hi Ht. unfold user_save. now rewrite Hi, Ht. Qed.

Lemma count_after_save (s : Store) (k : string) (u u' : User) :
  dict_get k (users s) = Some u ->
  (count_admins (with_users s (dict_set k u' (users s)) (user_next s)) + admin_bit u
   = count_admins s + admin_bit u')%nat.
Proof. intro H. unfold count_admins. simpl. now apply count_values_dict_set. Qed.

Lemma admins_length (s : Store) :
  fst (UserService.get_users_by_role ADMIN s) = Ok (filter (fun u => UserRole_eqb (u_role u) ADMIN) (values (users s))).
Proof. reflexivity. Qed.

Lemma set_role_id (u : User) (r : UserRole) : u_id (set_role u r) = u_id u.
Proof. reflexivity. Qed.

Lemma UserRole_eqb_false (a b : UserRole) : a <> b -> UserRole_eqb a b = false.
Proof. destruct a, b; simpl; congruence. Qed.

(** The outcome of [promote_user] once both users are found. *)
Lemma promote_user_found (s : Store) (uid pid : string) (r : UserRole) (u p : User) :
  dict_get uid (users s) = Some u -> dict_get pid (users s) = Some p ->
  UserService.promote_user uid r pid s =
  if negb (is_admin p) then (Raise (PermissionError "Only admins can promote users"), s)
  else if is_admin u && negb (UserRole_eqb r ADMIN) then
         if (count_admins s <=? 1)%nat
         then (Raise (ValueError "Cannot demote the last admin user"), s)
         else user_save (set_role u r) s
       else user_save (set_role u r) s.
Proof.
  intros Hu Hp. unfold UserService.promote_user, bindM, user_get_by_id.
  rewrite Hu. simpl. rewrite Hp. simpl.
  destruct (is_admin p); simpl; [|reflexivity].
  destruct (is_admin u && negb (UserRole_eqb r ADMIN)); [|reflexivity].
  unfold count_admins, bindM, UserService.get_users_by_role. simpl.
  destruct (length _ <=? 1)%nat; reflexivity.
Qed.

(** The outcome of [deactivate_user] once both users are found. *)
Lemma deactivate_user_found (s : Store) (uid did : string) (u d : User) :
  dict_get uid (users s) = Some u -> dict_get did (users s) = Some d ->
  UserService.deactivate_user uid did s =
  if negb (is_admin d) then (Raise (PermissionError "Only admins can deactivate users"), s)
  else if is_admin u then
         if (count_admins s <=? 1)%nat
         then (Raise (ValueError "Cannot deactivate the last admin user"), s)
         else user_save (set_role u GUEST) s
       else user_save (set_role u GUEST) s.
Proof.
  intros Hu Hd. unfold UserService.deactivate_user, bindM, user_get_by_id.
  rewrite Hu. simpl. rewrite Hd. simpl.
  destruct (is_admin d); simpl; [|reflexivity].
  destruct (is_admin u); [|reflexivity].
  unfold count_admins, bindM, UserService.get_users_by_role. simpl.
  destruct (length _ <=? 1)%nat; reflexivity.
Qed.

Lemma admin_bit_set_role (u : User) (r : UserRole) :
  admin_bit (set_role u r) = if UserRole_eqb r ADMIN then 1%nat else 0%nat.
Proof. reflexivity. Qed.

(** C4. With at most one Admin in the user repository (counted when the call
    is made), demoting that Admin through [promote_user] or deactivating it
    through [deactivate_user] fails and leaves the repository unchanged; no
    successful call of either operation takes a repository with an Admin to
    one without; with at least two Admins, an Admin demoting another Admin
    succeeds and leaves exactly one Admin fewer. *)
Theorem last_admin_protected :
  (forall (s : Store) (uid pid : string) (r : UserRole) (u : User),
      dict_get uid (users s) = Some u -> is_admin u = true -> r <> ADMIN ->
      (count_admins s <= 1)%nat ->
      exists e, UserService.promote_user uid r pid s = (Raise e, s)) /\
  (forall (s : Store) (uid did : string) (u : User),
      dict_get uid (users s) = Some u -> is_admin u = true ->
      (count_admins s <= 1)%nat ->
      exists e, UserService.deactivate_user uid did s = (Raise e, s)) /\
  (forall (s s' : Store) (uid pid : string) (r : UserRole) (v : User),
      users_wf s -> (1 <= count_admins s)%nat ->
      UserService.promote_user uid r pid s = (Ok v, s') -> (1 <= count_admins s')%nat) /\
  (forall (s s' : Store) (uid did : string) (v : User),
      users_wf s -> (1 <= count_admins s)%nat ->
      UserService.deactivate_user uid did s = (Ok v, s') -> (1 <= count_admins s')%nat) /\
  (forall (s : Store) (uid pid : string) (r : UserRole) (u p : User),
      users_wf s ->
      dict_get uid (users s) = Some u -> is_admin u = true ->
      dict_get pid (users s) = Some p -> is_admin p = true ->
      r <> ADMIN -> (2 <= count_admins s)%nat ->
      exists v s', UserService.promote_user uid r pid s = (Ok v, s') /\
        u_role v = r /\ count_admins s' = (count_admins s - 1)%nat).
Proof.
  split; [|split; [|split; [|split]]].
  - intros s uid pid r u Hu Ha Hr Hc.
    destruct (dict_get pid (users s)) as [p|] eqn:Hp.
    + rewrite (promote_user_found s uid pid r u p Hu Hp), Ha, (UserRole_eqb_false _ _ Hr).
      destruct (is_admin p); simpl; [|eauto].
      replace (count_admins s <=? 1)%nat with true by (symmetry; now apply Nat.leb_le).
      eauto.
    + unfold UserService.promote_user, bindM, user_get_by_id. rewrite Hu. simpl.
      rewrite Hp. simpl. unfold raiseM. eauto.
  - intros s uid did u Hu Ha Hc.
    destruct (dict_get did (users s)) as [d|] eqn:Hd.
    + rewrite (deactivate_user_found s uid did u d Hu Hd), Ha.
      destruct (is_admin d); simpl; [|eauto].
      replace (count_admins s <=? 1)%nat with true by (symmetry; now apply Nat.leb_le).
      eauto.
    + unfold UserService.deactivate_user, bindM, user_get_by_id. rewrite Hu. simpl.
      rewrite Hd. simpl. unfold raiseM. eauto.
  - intros s s' uid pid r v Hwf Hc Hcall.
    destruct (dict_get uid (users s)) as [u|] eqn:Hu;
      [|unfold UserService.promote_user, bindM, user_get_by_id in Hcall;
        rewrite Hu in Hcall; discriminate].
    destruct (dict_get pid (users s)) as [p|] eqn:Hp;
      [|unfold UserService.promote_user, bindM, user_get_by_id in Hcall;
        rewrite Hu in Hcall; simpl in Hcall; rewrite Hp in Hcall; discriminate].
    rewrite (promote_user_found s uid pid r u p Hu Hp) in Hcall.
    destruct (Hwf uid u Hu) as [Hid Ht].
    assert (Hsave : user_save (set_role u r) s
                    = (Ok (set_role u r),
                       with_users s (dict_set uid (set_role u r) (users s)) (user_next s)))
      by (apply user_save_existing; assumption).
    pose proof (count_after_save s uid u (set_role u r) Hu) as Hcnt.
    rewrite admin_bit_set_role in Hcnt. unfold admin_bit in Hcnt.
    destruct (is_admin p); simpl in Hcall; [|discriminate].
    destruct (is_admin u) eqn:Ha; destruct (UserRole_eqb r ADMIN) eqn:Hr; simpl in Hcall.
    + rewrite Hsave in Hcall. injection Hcall as _ <-. lia.
    + destruct (count_admins s <=? 1)%nat eqn:Hle; [discriminate|].
      apply Nat.leb_gt in Hle. rewrite Hsave in Hcall. injection Hcall as _ <-. lia.
    + rewrite Hsave in Hcall. injection Hcall as _ <-. lia.
    + rewrite Hsave in Hcall. injection Hcall as _ <-. lia.
  - intros s s' uid did v Hwf Hc Hcall.
    destruct (dict_get uid (users s)) as [u|] eqn:Hu;
      [|unfold UserService.deactivate_user, bindM, user_get_by_id in Hcall;
        rewrite Hu in Hcall; discriminate].
    destruct (dict_get did (users s)) as [d|] eqn:Hd;
      [|unfold UserService.deactivate_user, bindM, user_get_by_id in Hcall;
        rewrite Hu in Hcall; simpl in Hcall; rewrite Hd in Hcall; discriminate].
    rewrite (deactivate_user_found s uid did u d Hu Hd) in Hcall.
    destruct (Hwf uid u Hu) as [Hid Ht].
    assert (Hsave : user_save (set_role u GUEST) s
                    = (Ok (set_role u GUEST),
                       with_users s (dict_set uid (set_role u GUEST) (users s)) (user_next s)))
      by (apply user_save_existing; assumption).
    pose proof (count_after_save s uid u (set_role u GUEST) Hu) as Hcnt.
    rewrite admin_bit_set_role in Hcnt. unfold admin_bit in Hcnt. simpl in Hcnt.
    destruct (is_admin d); simpl in Hcall; [|discriminate].
    destruct (is_admin u) eqn:Ha; simpl in Hcall.
    + destruct (count_admins s <=? 1)%nat eqn:Hle; [discriminate|].
      apply Nat.leb_gt in Hle. rewrite Hsave in Hcall. injection Hcall as _ <-. lia.
    + rewrite Hsave in Hcall. injection Hcall as _ <-. lia.
  - intros s uid pid r u p Hwf Hu Ha Hp Hpa Hr Hc.
    destruct (Hwf uid u Hu) as [Hid Ht].
    exists (set_role u r), (with_users s (dict_set uid (set_role u r) (users s)) (user_next s)).
    rewrite (promote_user_found s uid pid r u p Hu Hp), Hpa, Ha, (UserRole_eqb_false _ _ Hr).
    simpl.
    replace (count_admins s <=? 1)%nat with false by (symmetry; apply Nat.leb_gt; lia).
    rewrite (user_save_existing s (set_role u r) uid Hid Ht).
    split; [reflexivity|split; [reflexivity|]].
    pose proof (count_after_save s uid u (set_role u r) Hu) as Hcnt.
    rewrite admin_bit_set_role, (UserRole_eqb_false _ _ Hr) in Hcnt.
    unfold admin_bit in Hcnt. rewrite Ha in Hcnt. lia.
Qed.

(** ** C5: who may modify, comment on and assign a task *)

(** C5, as stated, fails: [assign_task] resolves the new assignee before it
    checks the assigner, so a non-Admin's call naming an unknown assignee
    fails with the not-found [ValueError], not [PermissionError], and the
    same call by an Admin fails too. *)
Lemma assign_task_counterexample :
  TaskService.assign_task "task_T" "user_9" "userrepository_2" 0 scenario_store
  = (Raise (ValueError "Assignee with ID user_9 not found"), scenario_store) /\
  TaskService.assign_task "task_T" "user_9" "userrepository_1" 0 scenario_store
  = (Raise (ValueError "Assignee with ID user_9 not found"), scenario_store).
Proof. split; reflexivity. Qed.

(** C5, amended. An acting user found in the user repository may modify a
    task, and comment on it, iff they are an Admin or its assignee; an id not
    in the repository may do neither; assigning needs the Admin role. When
    the task and the new assignee exist, [assign_task] by a non-Admin fails
    with [PermissionError] and leaves the stores unchanged, while by an Admin
    it sets the assignee; a non-Admin assignee's status update of a task not
    [DONE] succeeds. [assign_task] resolves the task, then the new assignee,
    and raises [ValueError] when either is missing, whoever the assigner is;
    with both present, an assigner not in the repository gets
    [PermissionError]. *)
Theorem task_permissions :
  (forall (s : Store) (uid : string) (t : Task) (u : User),
      dict_get uid (users s) = Some u ->
      TaskService._can_modify_task uid t s
        = (Ok (is_admin u || TaskService.opt_str_eqb (t_assignee_id t) uid), s) /\
      TaskService._can_comment_on_task uid t s
        = (Ok (is_admin u || TaskService.opt_str_eqb (t_assignee_id t) uid), s) /\
      TaskService._can_assign_task uid t s = (Ok (is_admin u), s)) /\
  (forall (s : Store) (uid : string) (t : Task),
      dict_get uid (users s) = None ->
      TaskService._can_modify_task uid t s = (Ok false, s) /\
      TaskService._can_comment_on_task uid t s = (Ok false, s) /\
      TaskService._can_assign_task uid t s = (Ok false, s)) /\
  (forall (s : Store) (tid aid gid : string) (t : Task) (a g : User) (now : Z),
      dict_get tid (tasks s) = Some t -> dict_get aid (users s) = Some a ->
      dict_get gid (users s) = Some g -> is_admin g = false ->
      TaskService.assign_task tid aid gid now s
      = (Raise (PermissionError "User does not have permission to assign this task"), s)) /\
  (forall (s : Store) (tid aid gid : string) (t : Task) (a g : User) (now : Z),
      dict_get tid (tasks s) = Some t -> dict_get aid (users s) = Some a ->
      dict_get gid (users s) = Some g -> is_admin g = true -> truthy (t_id t) = true ->
      TaskService.assign_task tid aid gid now s
      = (Ok (set_assignee t (Some aid) now),
         with_tasks s (dict_set (t_id t) (set_assignee t (Some aid) now) (tasks s)))) /\
  (forall (s : Store) (tid uid : string) (t : Task) (u : User) (ns : TaskStatus) (now : Z),
      dict_get tid (tasks s) = Some t -> dict_get uid (users s) = Some u ->
      t_assignee_id t = Some uid -> truthy uid = true -> t_status t <> DONE ->
      truthy (t_id t) = true ->
      TaskService.update_task_status tid ns (Some uid) now s
      = (Ok (set_status t ns now),
         with_tasks s (dict_set (t_id t) (set_status t ns now) (tasks s)))) /\
  (forall (s : Store) (tid aid gid : string) (now : Z),
      dict_get tid (tasks s) = None ->
      TaskService.assign_task tid aid gid now s
      = (Raise (ValueError ("Task with ID " ++ tid ++ " not found")), s)) /\
  (forall (s : Store) (tid aid gid : string) (t : Task) (now : Z),
      dict_get tid (tasks s) = Some t -> dict_get aid (users s) = None ->
      TaskService.assign_task tid aid gid now s
      = (Raise (ValueError ("Assignee with ID " ++ aid ++ " not found")), s)) /\
  (forall (s : Store) (tid aid gid : string) (t : Task) (a : User) (now : Z),
      dict_get tid (tasks s) = Some t -> dict_get aid (users s) = Some a ->
      dict_get gid (users s) = None ->
      TaskService.assign_task tid aid gid now s
      = (Raise (PermissionError "User does not have permission to assign this task"), s)).
Proof.
  split; [|split; [|split; [|split; [|split; [|split; [|split]]]]]].
  - intros s uid t u Hu.
    unfold TaskService._can_modify_task, TaskService._can_comment_on_task,
      TaskService._can_assign_task, bindM, user_get_by_id.
    rewrite Hu. repeat split.
  - intros s uid t Hu.
    unfold TaskService._can_modify_task, TaskService._can_comment_on_task,
      TaskService._can_assign_task, bindM, user_get_by_id.
    rewrite Hu. repeat split.
  - intros s tid aid gid t a g now Ht Ha Hg Hng.
    unfold TaskService.assign_task, TaskService._can_assign_task, bindM,
      task_get_by_id, user_get_by_id.
    rewrite Ht. simpl. rewrite Ha. simpl. rewrite Hg. simpl. now rewrite Hng.
  - intros s tid aid gid t a g now Ht Ha Hg Hadm Hid.
    unfold TaskService.assign_task, TaskService._can_assign_task, bindM,
      task_get_by_id, user_get_by_id.
    rewrite Ht. simpl. rewrite Ha. simpl. rewrite Hg. simpl. rewrite Hadm. simpl.
    unfold task_save. simpl. now rewrite Hid.
  - intros s tid uid t u ns now Ht Hu Ha Huid Hd Hid.
    unfold TaskService.update_task_status, TaskService._can_modify_task, bindM,
      task_get_by_id, user_get_by_id.
    rewrite Ht. simpl. rewrite Huid, Hu. simpl. rewrite Ha. simpl.
    rewrite String.eqb_refl, orb_true_r. simpl.
    unfold liftM, update_status. rewrite (TaskStatus_eqb_false _ DONE Hd). simpl.
    unfold task_save. simpl. now rewrite Hid.
  - intros s tid aid gid now Ht.
    unfold TaskService.assign_task, bindM, task_get_by_id. now rewrite Ht.
  - intros s tid aid gid t now Ht Ha.
    unfold TaskService.assign_task, bindM, task_get_by_id, user_get_by_id.
    rewrite Ht. simpl. now rewrite Ha.
  - intros s tid aid gid t a now Ht Ha Hg.
    unfold TaskService.assign_task, TaskService._can_assign_task, bindM,
      task_get_by_id, user_get_by_id.
    rewrite Ht. simpl. rewrite Ha. simpl. now rewrite Hg.
Qed.

(** ** C7: user creation *)

(** C7 (code_bug). [create_user] looks a username and an email up as given,
    while the repository holds them lower-cased: creating "Alice" twice
    succeeds and stores two users named "alice". The length check runs
    before [strip], so " ab" is accepted and stored as the two-character
    "ab". A name shorter than three characters is refused. *)
Theorem create_user_duplicates_and_short_names :
  map u_username (values (users (snd (create_twice "Alice" "alice@example.com"
                                                   "Alice" "alice2@example.com"))))
    = ["alice"; "alice"] /\
  (exists u, fst (create_twice "Alice" "alice@example.com"
                               "Alice" "alice2@example.com") = Ok u) /\
  map u_username (values (users (snd (UserService.create_user "salt1" 0 " ab"
                                        "ab@example.com" "password123" USER empty_store))))
    = ["ab"] /\
  new_user "salt1" 0 "ab" "ab@example.com" "password123" USER
    = Raise (ValidationError "Username must be at least 3 characters").
Proof.
  split; [vm_compute; reflexivity|].
  split; [eexists; vm_compute; reflexivity|].
  split; vm_compute; reflexivity.
Qed.

(** ** C9: how service failures surface *)

(** C9, as stated, fails: [create_user] re-raises the model's
    [ValidationError] as [ValueError], the class it also uses for a
    duplicate username, so the two failures are not told apart by kind. *)
Lemma error_kind_counterexample :
  fst (UserService.create_user "salt1" 0 "ab" "ab@example.com" "password123" USER empty_store)
    = Raise (ValueError "Username must be at least 3 characters") /\
  fst (create_twice "alice" "alice@example.com" "alice" "alice2@example.com")
    = Raise (ValueError "Username 'alice' already exists").
Proof. split; vm_compute; reflexivity. Qed.

Lemma new_user_raise `{Hasher} (salt : string) (now : Z) (un em pw : string) (r : UserRole) (e : exn) :
  new_user salt now un em pw r = Raise e -> exists m, e = ValidationError m.
Proof.
  unfold new_user, _validate_username, _validate_email, _hash_password.
  destruct (negb (truthy un) || (String.length un <? 3)%nat); simpl;
    [intro Hr; injection Hr as <-; eauto|].
  destruct (email_regex_match (lower (strip em))); simpl;
    [|intro Hr; injection Hr as <-; eauto].
  destruct (String.length pw <? 6)%nat; simpl; [intro Hr; injection Hr as <-; eauto|discriminate].
Qed.

Lemma change_password_raise `{Hasher} (u : User) (salt o n : string) (e : exn) :
  change_password u salt o n = Raise e -> exists m, e = ValidationError m.
Proof.
  unfold change_password, _hash_password.
  destruct (negb (verify_password u o)); simpl; [intro Hr; injection Hr as <-; eauto|].
  destruct (String.length n <? 6)%nat; simpl; [intro Hr; injection Hr as <-; eauto|discriminate].
Qed.

Lemma user_save_ok (u : User) (s : Store) : exists v s', user_save u s = (Ok v, s').
Proof.
  unfold user_save. destruct (u_id u) as [i|]; [destruct (truthy i)|]; eauto.
Qed.

Lemma update_status_raise (t : Task) (ns : TaskStatus) (now : Z) (e : exn) :
  update_status t ns now = Raise e -> exists m, e = ValueError m.
Proof.
  unfold update_status. destruct (_ && _); [intro Hr; injection Hr as <-; eauto|discriminate].
Qed.

(** C9, amended. The services report an authorization refusal as
    [PermissionError] and every other failure as [ValueError]: [create_user]
    and [change_user_password] re-raise the model's [ValidationError] as a
    [ValueError] with the same message, the class also used for duplicates
    and missing ids, so these kinds are not told apart by class. No failure
    is dropped: a [ValidationError] of [change_password] on a stored user
    makes [change_user_password] raise [ValueError] with its message, and an
    invalid transition [update_status] refuses, on a stored task the caller
    may modify, makes [update_task_status] raise that same error. A call that
    fails leaves the stores as they were. *)
Theorem service_failures_surface :
  (forall `{Hasher} (salt : string) (now : Z) (un em pw : string) (r : UserRole)
          (s s' : Store) (e : exn),
      UserService.create_user salt now un em pw r s = (Raise e, s') ->
      s' = s /\ exists m, e = ValueError m) /\
  (forall `{Hasher} (salt : string) (now : Z) (un em pw : string) (r : UserRole)
          (s : Store) (m : string),
      find (fun u => String.eqb (u_username u) un) (values (users s)) = None ->
      find (fun u => String.eqb (u_email u) em) (values (users s)) = None ->
      new_user salt now un em pw r = Raise (ValidationError m) ->
      UserService.create_user salt now un em pw r s = (Raise (ValueError m), s)) /\
  (forall `{Hasher} (salt uid o n : string) (s s' : Store) (e : exn),
      UserService.change_user_password salt uid o n s = (Raise e, s') ->
      s' = s /\ exists m, e = ValueError m) /\
  (forall (tid : string) (ns : TaskStatus) (uid : option string) (now : Z)
          (s s' : Store) (e : exn),
      tasks_wf s ->
      TaskService.update_task_status tid ns uid now s = (Raise e, s') ->
      s' = s /\ ((exists m, e = ValueError m) \/ (exists m, e = PermissionError m))) /\
  (forall `{Hasher} (salt uid o n : string) (s : Store) (u : User) (m : string),
      dict_get uid (users s) = Some u ->
      change_password u salt o n = Raise (ValidationError m) ->
      UserService.change_user_password salt uid o n s = (Raise (ValueError m), s)) /\
  (forall (tid : string) (ns : TaskStatus) (uid : option string) (now : Z)
          (s : Store) (t : Task) (e : exn),
      dict_get tid (tasks s) = Some t ->
      (forall u, uid = Some u -> truthy u = true ->
         exists v, dict_get u (users s) = Some v /\
                   (is_admin v || TaskService.opt_str_eqb (t_assignee_id t) u) = true) ->
      update_status t ns now = Raise e ->
      TaskService.update_task_status tid ns uid now s = (Raise e, s)).
Proof.
  split; [|split; [|split; [|split; [|split]]]].
  - intros H salt now un em pw r s s' e Hc.
    unfold UserService.create_user, bindM, user_get_by_username, user_get_by_email in Hc.
    destruct (find _ (values (users s))); simpl in Hc;
      [injection Hc as <- <-; eauto|].
    destruct (find _ (values (users s))); simpl in Hc;
      [injection Hc as <- <-; eauto|].
    destruct (new_user salt now un em pw r) as [u|ex] eqn:En.
    + destruct (user_save_ok u s) as [v [s2 Hs]]. rewrite Hs in Hc. discriminate.
    + destruct (new_user_raise _ _ _ _ _ _ _ En) as [m ->].
      unfold raiseM in Hc. injection Hc as <- <-. eauto.
  - intros H salt now un em pw r s m Hn He Hv.
    unfold UserService.create_user, bindM, user_get_by_username, user_get_by_email.
    rewrite Hn. simpl. rewrite He. simpl. now rewrite Hv.
  - intros H salt uid o n s s' e Hc.
    unfold UserService.change_user_password, bindM, user_get_by_id in Hc.
    destruct (dict_get uid (users s)) as [u|]; simpl in Hc;
      [|unfold raiseM in Hc; injection Hc as <- <-; eauto].
    destruct (change_password u salt o n) as [u'|ex] eqn:Ec.
    + destruct (user_save_ok u' s) as [v [s2 Hs]]. rewrite Hs in Hc. discriminate.
    + destruct (change_password_raise _ _ _ _ _ Ec) as [m ->].
      unfold raiseM in Hc. injection Hc as <- <-. eauto.
  - intros tid ns uid now s s' e Hwf Hc.
    unfold TaskService.update_task_status, bindM, task_get_by_id in Hc.
    destruct (dict_get tid (tasks s)) as [t|] eqn:Ht; simpl in Hc;
      [|unfold raiseM in Hc; injection Hc as <- <-; eauto].
    assert (Hperm : exists b, (match uid with
                    | Some u => if truthy u then TaskService._can_modify_task u t else retM true
                    | None => retM true end) s = (Ok b, s)).
    { unfold TaskService._can_modify_task, bindM, user_get_by_id, retM.
      destruct uid as [u|]; [destruct (truthy u); [destruct (dict_get u (users s))|]|];
        simpl; eauto. }
    destruct Hperm as [b Hb]. rewrite Hb in Hc. destruct b; simpl in Hc;
      [|unfold raiseM in Hc; injection Hc as <- <-; eauto].
    unfold liftM in Hc. destruct (update_status t ns now) as [t'|ex] eqn:Eu.
    + unfold task_save in Hc.
      assert (Hid : t_id t' = t_id t).
      { unfold update_status in Eu. destruct (_ && _); [discriminate|].
        injection Eu as <-. reflexivity. }
      rewrite Hid, (Hwf tid t Ht) in Hc. discriminate.
    + destruct (update_status_raise _ _ _ _ Eu) as [m ->].
      injection Hc as <- <-. eauto.
  - intros H salt uid o n s u m Hu Hc.
    unfold UserService.change_user_password, bindM, user_get_by_id.
    rewrite Hu. simpl. now rewrite Hc.
  - intros tid ns uid now s t e Ht Hp Hu.
    unfold TaskService.update_task_status, bindM, task_get_by_id.
    rewrite Ht. simpl.
    assert (Hperm : (match uid with
                    | Some u => if truthy u then TaskService._can_modify_task u t else retM true
                    | None => retM true end) s = (Ok true, s)).
    { destruct uid as [u|]; [|reflexivity].
      destruct (truthy u) eqn:Hu'; [|reflexivity].
      destruct (Hp u eq_refl Hu') as [v [Hv Hok]].
      unfold TaskService._can_modify_task, bindM, user_get_by_id.
      rewrite Hv. simpl. now rewrite Hok. }
    rewrite Hperm. simpl. unfold liftM. now rewrite Hu.
Qed.

(** ** C8: serialization round trips *)

Section RoundTrip.
Context `{DateCodec}.
Hypothesis iso_inverse : forall d, fromisoformat (isoformat d) = Some d.
Hypothesis iso_truthy : forall d, truthy (isoformat d) = true.

Lemma from_iso_val (d : Z) : from_iso (iso_val d) = Ok d.
Proof. unfold from_iso, iso_val. simpl. now rewrite iso_inverse. Qed.

Lemma mapR_map {A} (f : A -> pyval) (g : pyval -> res A) (l : list A) :
  (forall x, In x l -> g (f x) = Ok x) -> mapR g (map f l) = Ok l.
Proof.
  induction l as [|x r IH]; intro Hg; simpl; [reflexivity|].
  rewrite (Hg x (or_introl eq_refl)). simpl.
  rewrite IH; [reflexivity|]. intros y Hy. apply Hg. now right.
Qed.

Lemma as_str_list_map (l : list string) : as_str_list (PList (map PStr l)) = Ok l.
Proof. unfold as_str_list. simpl. now apply mapR_map. Qed.

Lemma opt_str_roundtrip (o : option string) : as_opt_str (opt_str_val o) = Ok o.
Proof. now destruct o. Qed.

Lemma opt_date_roundtrip (o : option Z) :
  (if pytruthy (match o with Some d => iso_val d | None => PNone end)
   then (d <- from_iso (match o with Some d => iso_val d | None => PNone end) ;; Ok (Some d))
   else Ok None) = Ok o.
Proof.
  destruct o as [d|]; [|reflexivity].
  simpl. rewrite iso_truthy, from_iso_val. reflexivity.
Qed.

Lemma comment_roundtrip (c : TaskComment) : comment_from_dict (comment_to_dict c) = Ok c.
Proof. destruct c. unfold comment_from_dict. simpl. now rewrite from_iso_val. Qed.

Lemma task_roundtrip (tid : string) (now : Z) (t : Task) :
  task_wf t -> task_from_dict tid now (task_to_dict t) = Ok t.
Proof.
  destruct t as [i ti de st pr a du ca ua cs tg]. unfold task_wf. simpl. intro Ht.
  unfold task_from_dict, new_task. simpl.
  rewrite opt_str_roundtrip. simpl.
  destruct pr; simpl; rewrite opt_date_roundtrip; simpl; rewrite Ht; simpl;
    destruct st; simpl; rewrite !from_iso_val; simpl; rewrite as_str_list_map; simpl;
    rewrite (mapR_map _ _ cs (fun c _ => comment_roundtrip c)); reflexivity.
Qed.

Lemma milestone_roundtrip (m : ProjectMilestone) :
  milestone_from_dict (milestone_to_dict m) = Ok m.
Proof.
  destruct m as [i ti de du co ca]. unfold milestone_from_dict. simpl.
  rewrite from_iso_val. simpl. rewrite opt_date_roundtrip. reflexivity.
Qed.

Lemma project_roundtrip (tid : string) (now : Z) (p : Project) :
  project_wf p -> project_from_dict tid now (project_to_dict p) = Ok p.
Proof.
  destruct p as [i nm de st ow ca ua ts ms tm]. unfold project_wf. simpl.
  intros [Hn Hts]. unfold project_from_dict. simpl.
  rewrite opt_str_roundtrip. simpl. rewrite Hn. simpl.
  destruct st; simpl; rewrite !from_iso_val; simpl; rewrite as_str_list_map; simpl;
    rewrite (mapR_map _ _ ts); try (intros x Hx; apply task_roundtrip;
                                    apply (proj1 (Forall_forall _ _) Hts x Hx));
    simpl; rewrite (mapR_map _ _ ms (fun m _ => milestone_roundtrip m)); reflexivity.
Qed.

Lemma member_roundtrip (m : TeamMember) : member_from_dict (member_to_dict m) = Ok m.
Proof.
  destruct m as [u r j ps]. unfold member_from_dict. simpl.
  destruct r; simpl; rewrite from_iso_val; simpl; rewrite as_str_list_map; reflexivity.
Qed.

Lemma team_roundtrip (t : Team) : team_wf t -> team_from_dict (team_to_dict t) = Ok t.
Proof.
  destruct t as [i nm de l ca ua ms ps]. unfold team_wf. simpl. intro Hn.
  unfold team_from_dict. simpl.
  rewrite opt_str_roundtrip. simpl. rewrite Hn. simpl.
  rewrite !from_iso_val. simpl. rewrite as_str_list_map. simpl.
  rewrite (mapR_map _ _ ms (fun m _ => member_roundtrip m)). reflexivity.
Qed.

End RoundTrip.

(** C8, as stated, fails for [User]: [User.to_dict] leaves out the password
    digest, so two users that differ only in it have the same record, and
    [User.from_dict] cannot give either back. (It does not give any user
    back: it builds the user with the five-character password "dummy",
    which the constructor refuses.) *)
Lemma user_roundtrip_counterexample :
  user_to_dict user_A = user_to_dict (set_password_hash user_A "s9:h9") /\
  user_A <> set_password_hash user_A "s9:h9" /\
  user_from_dict "salt1" 0 (user_to_dict user_A)
    = Raise (ValidationError "Password too short").
Proof.
  split; [reflexivity|]. split; [|vm_compute; reflexivity].
  intro He. injection He. discriminate.
Qed.

(** C8, amended. With a date codec whose [fromisoformat] inverts
    [isoformat] (and whose strings are non-empty, as ISO dates are), a
    [Task], a [Project] and a [Team] come back from [from_dict (to_dict x)]
    with every field equal, status, priority, comments, milestones and
    members included, whatever id and clock [from_dict] draws meanwhile.
    Names are taken as the validators leave them (stripped, non-empty). The
    [User] record does not carry the password digest: users that differ
    only in it serialize to the same record. *)
Theorem to_dict_from_dict_roundtrip `{DateCodec} :
  (forall d, fromisoformat (isoformat d) = Some d) ->
  (forall d, truthy (isoformat d) = true) ->
  (forall (tid : string) (now : Z) (t : Task),
      task_wf t -> task_from_dict tid now (task_to_dict t) = Ok t) /\
  (forall (tid : string) (now : Z) (p : Project),
      project_wf p -> project_from_dict tid now (project_to_dict p) = Ok p) /\
  (forall t : Team, team_wf t -> team_from_dict (team_to_dict t) = Ok t) /\
  (forall (u : User) (h : string),
      user_to_dict (set_password_hash u h) = user_to_dict u).
Proof.
  intros Hinv Htr. split; [|split; [|split]].
  - intros tid now t. now apply task_roundtrip.
  - intros tid now p. now apply project_roundtrip.
  - intros t. now apply team_roundtrip.
  - intros u h. reflexivity.
Qed.

Lemma to_dict_from_dict_roundtrip_witness :
  task_from_dict "fresh" 7 (task_to_dict task_T) = Ok task_T /\
  project_from_dict "fresh" 7 (project_to_dict (project_with [task_T]))
    = Ok (project_with [task_T]) /\
  team_from_dict (team_to_dict team_leader_not_member) = Ok team_leader_not_member.
Proof.
  assert (Hinv : forall d, fromisoformat (isoformat d) = Some d).
  { intro d. simpl. f_equal. apply BinaryString.Z_of_of_Z. }
  assert (Htr : forall d, truthy (isoformat d) = true).
  { intro d. destruct d; reflexivity. }
  destruct (to_dict_from_dict_roundtrip Hinv Htr) as [Ht [Hp [Hm _]]].
  split; [apply Ht; vm_compute; reflexivity|].
  split; [apply Hp; split; [vm_compute; reflexivity|repeat constructor]|].
  apply Hm. vm_compute. reflexivity.
Defined.

(** ** Witnesses *)

Lemma update_status_done_terminal_witness :
  update_status task_T_done TODO 9
    = Raise (ValueError "Cannot change status of completed task") /\
  (exists e, TaskService.update_task_status "task_T" REVIEW (Some "userrepository_1") 9 done_store
             = (Raise e, done_store)) /\
  (exists t', update_status task_T IN_PROGRESS 9 = Ok t' /\
     t_status t' = IN_PROGRESS /\ t_updated_at t' = 9 /\ t' = set_status task_T IN_PROGRESS 9).
Proof.
  destruct update_status_done_terminal as [P1 [P2 P3]].
  split; [apply P1; [reflexivity|discriminate]|].
  split; [apply (P2 done_store "task_T" task_T_done); [reflexivity|reflexivity|discriminate]|].
  apply P3. discriminate.
Defined.

Lemma add_task_idempotent_by_id_witness :
  add_task (project_with [task_T]) task_T 9 = project_with [task_T] /\
  NoDup (map t_id (p_tasks (add_task (project_with []) task_T 9))) /\
  NoDup (map t_id (p_tasks (remove_task (project_with [task_T]) task_T 9))).
Proof.
  destruct add_task_idempotent_by_id as [P1 [P2 P3]].
  split; [apply P1; simpl; now left|].
  split; [apply P2; constructor|].
  apply P3. simpl. constructor; [intros []|constructor].
Defined.

Lemma remove_member_leader_witness :
  remove_member team_leader_member "user_001" 9
    = Raise (ValueError "Cannot remove team leader") /\
  remove_member team_leader_not_member "user_001" 9 = Ok (false, team_leader_not_member) /\
  remove_member team_leader_member "user_002" 9
    = Ok (true, set_members team_leader_member
                  (remove_first_member "user_002" (team_members team_leader_member)) 9) /\
  TeamService.remove_team_member "team_001" "user_001" "userrepository_1" 9 team_store
    = (Raise (ValueError "Cannot remove team leader"), team_store).
Proof.
  destruct remove_member_leader as [P1 [P2 [P3 P4]]].
  split; [apply P1; reflexivity|].
  split; [apply P2; reflexivity|].
  split; [apply P3; reflexivity|].
  apply (P4 team_store "team_001" "user_001" "userrepository_1" team_leader_member user_A 9);
    reflexivity.
Defined.

Lemma last_admin_protected_witness :
  (exists e, UserService.promote_user "userrepository_1" USER "userrepository_1" scenario_store
             = (Raise e, scenario_store)) /\
  (exists e, UserService.deactivate_user "userrepository_1" "userrepository_1" scenario_store
             = (Raise e, scenario_store)) /\
  (1 <= count_admins (snd (UserService.promote_user "userrepository_2" GUEST "userrepository_1"
                             scenario_store)))%nat /\
  (1 <= count_admins (snd (UserService.deactivate_user "userrepository_2" "userrepository_1"
                             scenario_store)))%nat /\
  (exists v s', UserService.promote_user "userrepository_2" USER "userrepository_1" two_admins_store
                = (Ok v, s') /\ u_role v = USER /\
                count_admins s' = (count_admins two_admins_store - 1)%nat).
Proof.
  assert (Wf1 : users_wf scenario_store).
  { intros k u Hk. simpl in Hk.
    destruct (String.eqb k "userrepository_1") eqn:E1;
      [injection Hk as <-; apply String.eqb_eq in E1; subst; split; reflexivity|].
    destruct (String.eqb k "userrepository_2") eqn:E2;
      [injection Hk as <-; apply String.eqb_eq in E2; subst; split; reflexivity|discriminate]. }
  assert (Wf2 : users_wf two_admins_store).
  { intros k u Hk. simpl in Hk.
    destruct (String.eqb k "userrepository_1") eqn:E1;
      [injection Hk as <-; apply String.eqb_eq in E1; subst; split; reflexivity|].
    destruct (String.eqb k "userrepository_2") eqn:E2;
      [injection Hk as <-; apply String.eqb_eq in E2; subst; split; reflexivity|discriminate]. }
  destruct last_admin_protected as [P1 [P2 [P3 [P4 P5]]]].
  split; [apply (P1 scenario_store "userrepository_1" "userrepository_1" USER user_A);
          [reflexivity|reflexivity|discriminate|vm_compute; lia]|].
  split; [apply (P2 scenario_store "userrepository_1" "userrepository_1" user_A);
          [reflexivity|reflexivity|vm_compute; lia]|].
  split; [apply (P3 scenario_store _ "userrepository_2" "userrepository_1" GUEST
                  (set_role user_B GUEST)); [exact Wf1|vm_compute; lia|vm_compute; reflexivity]|].
  split; [apply (P4 scenario_store _ "userrepository_2" "userrepository_1"
                  (set_role user_B GUEST)); [exact Wf1|vm_compute; lia|vm_compute; reflexivity]|].
  apply (P5 two_admins_store "userrepository_2" "userrepository_1" USER (set_role user_B ADMIN) user_A);
    [exact Wf2|reflexivity|reflexivity|reflexivity|reflexivity|discriminate|vm_compute; lia].
Defined.

Lemma task_permissions_witness :
  TaskService._can_modify_task "userrepository_2" task_T scenario_store
    = (Ok (is_admin user_B || TaskService.opt_str_eqb (t_assignee_id task_T) "userrepository_2"),
       scenario_store) /\
  TaskService._can_assign_task "user_9" task_T scenario_store = (Ok false, scenario_store) /\
  TaskService.assign_task "task_T" "userrepository_1" "userrepository_2" 9 scenario_store
    = (Raise (PermissionError "User does not have permission to assign this task"),
       scenario_store) /\
  TaskService.assign_task "task_T" "userrepository_1" "userrepository_1" 9 scenario_store
    = (Ok (set_assignee task_T (Some "userrepository_1") 9),
       with_tasks scenario_store (dict_set "task_T" (set_assignee task_T (Some "userrepository_1") 9)
                                   (tasks scenario_store))) /\
  TaskService.update_task_status "task_T" DONE (Some "userrepository_2") 9 scenario_store
    = (Ok (set_status task_T DONE 9),
       with_tasks scenario_store (dict_set "task_T" (set_status task_T DONE 9) (tasks scenario_store))) /\
  TaskService.assign_task "task_9" "userrepository_1" "userrepository_1" 9 scenario_store
    = (Raise (ValueError "Task with ID task_9 not found"), scenario_store) /\
  TaskService.assign_task "task_T" "user_9" "userrepository_1" 9 scenario_store
    = (Raise (ValueError "Assignee with ID user_9 not found"), scenario_store) /\
  TaskService.assign_task "task_T" "userrepository_1" "user_9" 9 scenario_store
    = (Raise (PermissionError "User does not have permission to assign this task"),
       scenario_store).
Proof.
  destruct task_permissions as [P1 [P2 [P3 [P4 [P5 [P6 [P7 P8]]]]]]].
  split; [apply (P1 scenario_store "userrepository_2" task_T user_B); reflexivity|].
  split; [apply (P2 scenario_store "user_9" task_T); reflexivity|].
  split; [apply (P3 scenario_store "task_T" "userrepository_1" "userrepository_2" task_T user_A user_B);
          reflexivity|].
  split; [apply (P4 scenario_store "task_T" "userrepository_1" "userrepository_1" task_T user_A user_A);
          reflexivity|].
  split; [apply (P5 scenario_store "task_T" "userrepository_2" task_T user_B);
          [reflexivity..|discriminate|reflexivity]|].
  split; [apply P6; reflexivity|].
  split; [apply (P7 scenario_store "task_T" "user_9" "userrepository_1" task_T); reflexivity|].
  apply (P8 scenario_store "task_T" "userrepository_1" "user_9" task_T user_A); reflexivity.
Defined.

Lemma service_failures_surface_witness :
  (exists m, ValueError "Username must be at least 3 characters" = ValueError m) /\
  UserService.create_user "salt1" 0 "ab" "ab@example.com" "password123" USER empty_store
    = (Raise (ValueError "Username must be at least 3 characters"), empty_store) /\
  (exists m, ValueError "Current password incorrect" = ValueError m) /\
  ((exists m, ValueError "Cannot change status of completed task" = ValueError m) \/
   (exists m, ValueError "Cannot change status of completed task" = PermissionError m)) /\
  UserService.change_user_password "salt1" "userrepository_1" "wrong" "password456" scenario_store
    = (Raise (ValueError "Current password incorrect"), scenario_store) /\
  TaskService.update_task_status "task_T" TODO (Some "userrepository_1") 9 done_store
    = (Raise (ValueError "Cannot change status of completed task"), done_store).
Proof.
  destruct service_failures_surface as [P1 [P2 [P3 [P4 [P5 P6]]]]].
  split; [apply (P1 _ "salt1" 0 "ab" "ab@example.com" "password123" USER empty_store empty_store);
          vm_compute; reflexivity|].
  split; [apply P2; vm_compute; reflexivity|].
  split; [apply (P3 _ "salt1" "userrepository_1" "wrong" "password456" scenario_store scenario_store);
          vm_compute; reflexivity|].
  split; [apply (P4 "task_T" TODO None 9 done_store done_store);
    [ intros k t Hk; simpl in Hk;
      destruct (String.eqb k "task_T"); [injection Hk as <-; reflexivity|discriminate]
    | vm_compute; reflexivity ]|].
  split; [apply (P5 _ "salt1" "userrepository_1" "wrong" "password456" scenario_store user_A);
          vm_compute; reflexivity|].
  apply (P6 "task_T" TODO (Some "userrepository_1") 9 done_store task_T_done).
  - reflexivity.
  - intros u Hu _. injection Hu as <-. exists user_A. split; reflexivity.
  - vm_compute. reflexivity.
Defined.

(* ================================================================== *)
(** * The rest of the code *)

(** ** Lists of strings *)

Lemma str_in_iff (x : string) (l : list string) : str_in x l = true <-> In x l.
Proof.
  unfold str_in. rewrite existsb_exists. split.
  - intros [y [Hy Hxy]]. apply String.eqb_eq in Hxy. now subst.
  - intros Hx. exists x. split; [exact Hx|apply String.eqb_refl].
Qed.

Lemma str_in_false (x : string) (l : list string) : str_in x l = false <-> ~ In x l.
Proof.
  rewrite <- str_in_iff. destruct (str_in x l); split; congruence.
Qed.

Lemma NoDup_snoc {A} (l : list A) (x : A) : NoDup l -> ~ In x l -> NoDup (l ++ [x]).
Proof.
  intros Hl Hx. apply NoDup_app; [exact Hl|constructor; [intros []|constructor]|].
  intros y Hy [<-|[]]. exact (Hx Hy).
Qed.

Lemma str_remove_in (x y : string) (l : list string) : In y (str_remove x l) -> In y l.
Proof.
  induction l as [|z r IH]; simpl; [auto|].
  destruct (String.eqb z x); [auto|]. intros [H|H]; [now left|right; auto].
Qed.

Lemma str_remove_NoDup (x : string) (l : list string) : NoDup l -> NoDup (str_remove x l).
Proof.
  induction l as [|z r IH]; simpl; intro Hl; [constructor|].
  inversion Hl as [|? ? Hz Hr]; subst.
  destruct (String.eqb z x); [exact Hr|].
  constructor; [|auto]. intro Hin. apply Hz. eapply str_remove_in; eauto.
Qed.

Lemma str_remove_absent (x : string) (l : list string) :
  NoDup l -> ~ In x (str_remove x l).
Proof.
  induction l as [|z r IH]; simpl; intro Hl; [auto|].
  inversion Hl as [|? ? Hz Hr]; subst.
  destruct (String.eqb z x) eqn:E.
  - apply String.eqb_eq in E. now subst.
  - intros [H|H]; [subst; now rewrite String.eqb_refl in E|exact (IH Hr H)].
Qed.

Lemma str_remove_snoc (x : string) (l : list string) :
  ~ In x l -> str_remove x (l ++ [x]) = l.
Proof.
  induction l as [|z r IH]; simpl; intro Hx.
  - now rewrite String.eqb_refl.
  - destruct (String.eqb z x) eqn:E.
    + apply String.eqb_eq in E. subst. exfalso. now apply Hx; left.
    + f_equal. apply IH. auto.
Qed.

Lemma str_remove_not_in (x : string) (l : list string) : ~ In x l -> str_remove x l = l.
Proof.
  induction l as [|z r IH]; simpl; intro Hx; [reflexivity|].
  destruct (String.eqb z x) eqn:E.
  - apply String.eqb_eq in E. subst. exfalso. now apply Hx; left.
  - f_equal. auto.
Qed.

(** ** [str.lower] *)

Lemma lower_char_idem (c : ascii) : lower_char (lower_char c) = lower_char c.
Proof.
  destruct c as [b0 b1 b2 b3 b4 b5 b6 b7].
  destruct b0, b1, b2, b3, b4, b5, b6, b7; vm_compute; reflexivity.
Qed.

Lemma lower_idem (s : string) : lower (lower s) = lower s.
Proof. induction s as [|c s IH]; simpl; [reflexivity|now rewrite lower_char_idem, IH]. Qed.

Lemma str_contains_empty (h : string) : str_contains h "" = true.
Proof. destruct h; reflexivity. Qed.

(** ** Tags, project members and team projects *)

(** [Task.add_tag] and [Task.remove_tag] normalise the tag with
    [strip().lower()]; the tag list never gets a duplicate or an empty tag,
    adding twice is adding once, removing the tag leaves no copy of it, and
    removing a tag just added gives the old list back. *)
Theorem task_tags_set_like :
  (forall (t : Task) (tag : string) (now : Z),
      NoDup (t_tags t) /\ Forall (fun x => truthy x = true) (t_tags t) ->
      NoDup (t_tags (TaskMore.add_tag t tag now))
      /\ Forall (fun x => truthy x = true) (t_tags (TaskMore.add_tag t tag now))) /\
  (forall (t : Task) (tag : string) (now : Z),
      NoDup (t_tags t) ->
      NoDup (t_tags (TaskMore.remove_tag t tag now))
      /\ ~ In (lower (strip tag)) (t_tags (TaskMore.remove_tag t tag now))) /\
  (forall (t : Task) (tag : string) (n1 n2 : Z),
      TaskMore.add_tag (TaskMore.add_tag t tag n1) tag n2 = TaskMore.add_tag t tag n1) /\
  (forall (t : Task) (tag : string) (now : Z),
      truthy (lower (strip tag)) = true ->
      In (lower (strip tag)) (t_tags (TaskMore.add_tag t tag now))) /\
  (forall (t : Task) (tag : string) (n1 n2 : Z),
      ~ In (lower (strip tag)) (t_tags t) ->
      t_tags (TaskMore.remove_tag (TaskMore.add_tag t tag n1) tag n2) = t_tags t).
Proof.
  unfold TaskMore.add_tag, TaskMore.remove_tag.
  split; [|split; [|split; [|split]]].
  - intros t tag now [Hd Ht].
    destruct (truthy (lower (strip tag))) eqn:Et; simpl; [|auto].
    destruct (str_in (lower (strip tag)) (t_tags t)) eqn:Ei; simpl; [auto|].
    apply str_in_false in Ei. split; [now apply NoDup_snoc|].
    apply Forall_app. split; [exact Ht|constructor; [exact Et|constructor]].
  - intros t tag now Hd.
    destruct (str_in (lower (strip tag)) (t_tags t)) eqn:Ei; simpl.
    + split; [now apply str_remove_NoDup|now apply str_remove_absent].
    + split; [exact Hd|now apply str_in_false].
  - intros t tag n1 n2.
    destruct (truthy (lower (strip tag))) eqn:Et; simpl; [|reflexivity].
    destruct (str_in (lower (strip tag)) (t_tags t)) eqn:Ei; simpl.
    + now rewrite Ei.
    + assert (Hin : str_in (lower (strip tag)) (t_tags t ++ [lower (strip tag)]) = true).
      { apply str_in_iff. apply in_or_app. right. now left. }
      now rewrite Hin.
  - intros t tag now Et. rewrite Et. simpl.
    destruct (str_in (lower (strip tag)) (t_tags t)) eqn:Ei; simpl.
    + now apply str_in_iff.
    + apply in_or_app. right. now left.
  - intros t tag n1 n2 Hn.
    assert (Ei : str_in (lower (strip tag)) (t_tags t) = false) by now apply str_in_false.
    destruct (truthy (lower (strip tag))); simpl; rewrite Ei; simpl; [|reflexivity].
    assert (Hin : str_in (lower (strip tag)) (t_tags t ++ [lower (strip tag)]) = true).
    { apply str_in_iff. apply in_or_app. right. now left. }
    rewrite Hin. simpl. now apply str_remove_snoc.
Qed.

(** [Project.add_team_member] and [Project.remove_team_member] keep the
    member ids free of duplicates; adding is idempotent, removing leaves no
    copy, and removing an id just added gives the old list back. *)
Theorem project_team_members_set_like :
  (forall (p : Project) (uid : string) (now : Z),
      NoDup (p_team_members p) -> NoDup (p_team_members (ProjectMore.add_team_member p uid now))) /\
  (forall (p : Project) (uid : string) (now : Z),
      In uid (p_team_members (ProjectMore.add_team_member p uid now))) /\
  (forall (p : Project) (uid : string) (n1 n2 : Z),
      ProjectMore.add_team_member (ProjectMore.add_team_member p uid n1) uid n2
      = ProjectMore.add_team_member p uid n1) /\
  (forall (p : Project) (uid : string) (now : Z),
      NoDup (p_team_members p) ->
      NoDup (p_team_members (ProjectMore.remove_team_member p uid now))
      /\ ~ In uid (p_team_members (ProjectMore.remove_team_member p uid now))) /\
  (forall (p : Project) (uid : string) (n1 n2 : Z),
      ~ In uid (p_team_members p) ->
      p_team_members (ProjectMore.remove_team_member (ProjectMore.add_team_member p uid n1) uid n2)
      = p_team_members p).
Proof.
  unfold ProjectMore.add_team_member, ProjectMore.remove_team_member.
  assert (Hsnoc : forall l x, str_in x (l ++ [x]) = true).
  { intros l x. apply str_in_iff. apply in_or_app. right. now left. }
  split; [|split; [|split; [|split]]].
  - intros p uid now Hd. destruct (str_in uid (p_team_members p)) eqn:Ei; simpl; [exact Hd|].
    apply NoDup_snoc; [exact Hd|now apply str_in_false].
  - intros p uid now. destruct (str_in uid (p_team_members p)) eqn:Ei; simpl.
    + now apply str_in_iff.
    + apply in_or_app. right. now left.
  - intros p uid n1 n2. destruct (str_in uid (p_team_members p)) eqn:Ei; simpl.
    + now rewrite Ei.
    + now rewrite Hsnoc.
  - intros p uid now Hd. destruct (str_in uid (p_team_members p)) eqn:Ei; simpl.
    + split; [now apply str_remove_NoDup|now apply str_remove_absent].
    + split; [exact Hd|now apply str_in_false].
  - intros p uid n1 n2 Hn.
    assert (Ei : str_in uid (p_team_members p) = false) by now apply str_in_false.
    rewrite Ei. simpl. rewrite Hsnoc. simpl. now apply str_remove_snoc.
Qed.

(** [Team.add_project] and [Team.remove_project] keep the project ids free
    of duplicates; adding is idempotent, removing leaves no copy, and
    removing an id just added gives the old list back. *)
Theorem team_projects_set_like :
  (forall (t : Team) (pid : string) (now : Z),
      NoDup (team_projects t) -> NoDup (team_projects (TeamMore.add_project t pid now))) /\
  (forall (t : Team) (pid : string) (now : Z),
      In pid (team_projects (TeamMore.add_project t pid now))) /\
  (forall (t : Team) (pid : string) (n1 n2 : Z),
      TeamMore.add_project (TeamMore.add_project t pid n1) pid n2 = TeamMore.add_project t pid n1) /\
  (forall (t : Team) (pid : string) (now : Z),
      NoDup (team_projects t) ->
      NoDup (team_projects (TeamMore.remove_project t pid now))
      /\ ~ In pid (team_projects (TeamMore.remove_project t pid now))) /\
  (forall (t : Team) (pid : string) (n1 n2 : Z),
      ~ In pid (team_projects t) ->
      team_projects (TeamMore.remove_project (TeamMore.add_project t pid n1) pid n2)
      = team_projects t).
Proof.
  unfold TeamMore.add_project, TeamMore.remove_project.
  assert (Hsnoc : forall l x, str_in x (l ++ [x]) = true).
  { intros l x. apply str_in_iff. apply in_or_app. right. now left. }
  split; [|split; [|split; [|split]]].
  - intros t pid now Hd. destruct (str_in pid (team_projects t)) eqn:Ei; simpl; [exact Hd|].
    apply NoDup_snoc; [exact Hd|now apply str_in_false].
  - intros t pid now. destruct (str_in pid (team_projects t)) eqn:Ei; simpl.
    + now apply str_in_iff.
    + apply in_or_app. right. now left.
  - intros t pid n1 n2. destruct (str_in pid (team_projects t)) eqn:Ei; simpl.
    + now rewrite Ei.
    + now rewrite Hsnoc.
  - intros t pid now Hd. destruct (str_in pid (team_projects t)) eqn:Ei; simpl.
    + split; [now apply str_remove_NoDup|now apply str_remove_absent].
    + split; [exact Hd|now apply str_in_false].
  - intros t pid n1 n2 Hn.
    assert (Ei : str_in pid (team_projects t) = false) by now apply str_in_false.
    rewrite Ei. simpl. rewrite Hsnoc. simpl. now apply str_remove_snoc.
Qed.

(** ** Searching *)

(** The searches lower-case the query, so they ignore its case: a query and
    its lower-cased form give the same result. An empty query with no filter
    returns every stored task, and an empty [assignee_id] filters nothing. *)
Theorem task_search_case_insensitive :
  (forall (q : string) (st : option TaskStatus) (pr : option TaskPriority)
          (a : option string) (s : Store),
      ServiceMore.search_tasks q st pr a s = ServiceMore.search_tasks (lower q) st pr a s) /\
  (forall (q : string) (s : Store),
      Repositories.task_search_by_title q s = Repositories.task_search_by_title (lower q) s) /\
  (forall (tag : string) (s : Store),
      Repositories.task_get_tasks_with_tag tag s
      = Repositories.task_get_tasks_with_tag (lower tag) s) /\
  (forall s : Store, ServiceMore.search_tasks "" None None None s = (Ok (values (tasks s)), s)) /\
  (forall (q : string) (st : option TaskStatus) (pr : option TaskPriority) (s : Store),
      ServiceMore.search_tasks q st pr (Some "") s = ServiceMore.search_tasks q st pr None s).
Proof.
  split; [|split; [|split; [|split]]].
  - intros. unfold ServiceMore.search_tasks. now rewrite lower_idem.
  - intros. unfold Repositories.task_search_by_title. now rewrite lower_idem.
  - intros. unfold Repositories.task_get_tasks_with_tag. now rewrite lower_idem.
  - intros s. unfold ServiceMore.search_tasks. simpl. f_equal. f_equal.
    induction (values (tasks s)) as [|t r IH]; simpl; [reflexivity|].
    rewrite str_contains_empty. simpl. now rewrite IH.
  - reflexivity.
Qed.

(** ** Statistics *)

Lemma filter_length_le' {A} (f : A -> bool) (l : list A) : (length (filter f l) <= length l)%nat.
Proof. induction l as [|x r IH]; simpl; [lia|destruct (f x); simpl; lia]. Qed.

Lemma status_counts {A} (st : A -> TaskStatus) (l : list A) :
  (length (filter (fun x => TaskStatus_eqb (st x) TODO) l)
   + length (filter (fun x => TaskStatus_eqb (st x) IN_PROGRESS) l)
   + length (filter (fun x => TaskStatus_eqb (st x) REVIEW) l)
   + length (filter (fun x => TaskStatus_eqb (st x) DONE) l)
   + length (filter (fun x => TaskStatus_eqb (st x) CANCELLED) l))%nat = length l.
Proof. induction l as [|x r IH]; simpl; [reflexivity|destruct (st x); simpl; lia]. Qed.

Lemma priority_counts {A} (pr : A -> TaskPriority) (l : list A) :
  (length (filter (fun x => TaskPriority_eqb (pr x) LOW) l)
   + length (filter (fun x => TaskPriority_eqb (pr x) MEDIUM) l)
   + length (filter (fun x => TaskPriority_eqb (pr x) HIGH) l)
   + length (filter (fun x => TaskPriority_eqb (pr x) URGENT) l))%nat = length l.
Proof. induction l as [|x r IH]; simpl; [reflexivity|destruct (pr x); simpl; lia]. Qed.

Lemma user_role_counts {A} (ro : A -> UserRole) (l : list A) :
  (length (filter (fun x => UserRole_eqb (ro x) ADMIN) l)
   + length (filter (fun x => UserRole_eqb (ro x) USER) l)
   + length (filter (fun x => UserRole_eqb (ro x) GUEST) l))%nat = length l.
Proof. induction l as [|x r IH]; simpl; [reflexivity|destruct (ro x); simpl; lia]. Qed.

Lemma team_role_counts {A} (ro : A -> TeamRole) (l : list A) :
  (length (filter (fun x => TeamRole_eqb (ro x) LEADER) l)
   + length (filter (fun x => TeamRole_eqb (ro x) MEMBER) l)
   + length (filter (fun x => TeamRole_eqb (ro x) CONTRIBUTOR) l))%nat = length l.
Proof. induction l as [|x r IH]; simpl; [reflexivity|destruct (ro x); simpl; lia]. Qed.

(** A task counted as overdue is never [DONE]. *)
Lemma overdue_done_le (l : list Task) (now : Z) :
  (length (filter (fun t => TaskMore.is_overdue t now) l)
   + length (filter (fun t => TaskStatus_eqb (t_status t) DONE) l) <= length l)%nat.
Proof.
  induction l as [|t r IH]; simpl; [lia|].
  unfold TaskMore.is_overdue at 1.
  destruct (t_due_date t) as [d|]; destruct (t_status t); simpl;
    try destruct (d <? now); simpl; lia.
Qed.

(** [Project.get_task_statistics]: the five status counts add up to the
    total, a [DONE] task is never counted as overdue (so overdue plus done
    is at most the total), and the urgent count is at most the total. *)
Theorem project_task_statistics_consistent :
  forall (p : Project) (now : Z),
    let st := ProjectMore.get_task_statistics p now in
    (ProjectMore.st_todo st + ProjectMore.st_in_progress st + ProjectMore.st_review st
     + ProjectMore.st_done st + ProjectMore.st_cancelled st = ProjectMore.st_total st)%nat /\
    (ProjectMore.st_overdue st + ProjectMore.st_done st <= ProjectMore.st_total st)%nat /\
    (ProjectMore.st_urgent st <= ProjectMore.st_total st)%nat.
Proof.
  intros p now. simpl. unfold get_tasks_by_status, ProjectMore.get_overdue_tasks,
    ProjectMore.get_urgent_tasks.
  split; [apply (status_counts t_status)|split; [apply overdue_done_le|apply filter_length_le']].
Qed.

(** [TaskService.get_task_statistics] (for all tasks or one assignee's) and
    [TaskRepository.get_task_statistics]: the counts by status and the
    counts by priority each add up to the total, overdue plus done is at
    most the total, urgent is at most the total, and the store is untouched. *)
Theorem task_statistics_consistent :
  forall (uid : option string) (now : Z) (s : Store),
    (exists st, ServiceMore.get_task_statistics uid now s = (Ok st, s) /\
      sum_counts (Repositories.ts_by_status st) = Repositories.ts_total st /\
      sum_counts (Repositories.ts_by_priority st) = Repositories.ts_total st /\
      (Repositories.ts_overdue st
       + length (filter (fun t => TaskStatus_eqb (t_status t) DONE)
                   (match uid with
                    | Some u => if truthy u
                                then filter (fun t => TaskService.opt_str_eqb (t_assignee_id t) u)
                                       (values (tasks s))
                                else values (tasks s)
                    | None => values (tasks s) end))
       <= Repositories.ts_total st)%nat /\
      (Repositories.ts_urgent st <= Repositories.ts_total st)%nat) /\
    (exists st, Repositories.task_get_task_statistics now s = (Ok st, s) /\
      sum_counts (Repositories.ts_by_status st) = Repositories.ts_total st /\
      sum_counts (Repositories.ts_by_priority st) = Repositories.ts_total st /\
      (Repositories.ts_overdue st <= Repositories.ts_total st)%nat /\
      (Repositories.ts_urgent st <= Repositories.ts_total st)%nat).
Proof.
  intros uid now s. split.
  - eexists. split; [reflexivity|]. cbn [Repositories.ts_by_status Repositories.ts_total
      Repositories.ts_by_priority Repositories.ts_overdue Repositories.ts_urgent].
    set (l := match uid with
              | Some u => if truthy u
                          then filter (fun t => TaskService.opt_str_eqb (t_assignee_id t) u)
                                 (values (tasks s))
                          else values (tasks s)
              | None => values (tasks s) end).
    unfold sum_counts. simpl.
    pose proof (status_counts t_status l). pose proof (priority_counts t_priority l).
    pose proof (overdue_done_le l now). pose proof (filter_length_le' (fun t => is_urgent t now) l).
    repeat split; lia.
  - eexists. split; [reflexivity|]. cbn [Repositories.ts_by_status Repositories.ts_total
      Repositories.ts_by_priority Repositories.ts_overdue Repositories.ts_urgent].
    set (l := values (tasks s)). unfold sum_counts. simpl.
    pose proof (status_counts t_status l). pose proof (priority_counts t_priority l).
    pose proof (filter_length_le' (fun t => TaskMore.is_overdue t now) l).
    pose proof (filter_length_le' (fun t => is_urgent t now) l).
    repeat split; lia.
Qed.

(** [UserService.get_user_statistics]: the counts by role add up to the
    total, the recent registrations are at most the total, and the store is
    untouched. *)
Theorem user_statistics_consistent :
  forall (now : Z) (s : Store),
    exists st, ServiceMore.get_user_statistics now s = (Ok st, s) /\
      sum_counts (ServiceMore.us_by_role st) = ServiceMore.us_total st /\
      (ServiceMore.us_recent_registrations st <= ServiceMore.us_total st)%nat.
Proof.
  intros now s. eexists. split; [reflexivity|].
  cbn [ServiceMore.us_by_role ServiceMore.us_total ServiceMore.us_recent_registrations].
  unfold sum_counts, list_sum. cbn [map fold_right snd].
  pose proof (user_role_counts u_role (values (users s))).
  pose proof (filter_length_le' (fun u => now - 30 * DAY <=? u_created_at u) (values (users s))).
  split; lia.
Qed.

(** [Team.get_team_statistics]: the role distribution adds up to the member
    count. *)
Theorem team_statistics_consistent `{DateCodec} :
  forall t : Team,
    sum_counts (TeamMore.ts_role_distribution (TeamMore.get_team_statistics t))
    = TeamMore.ts_total_members (TeamMore.get_team_statistics t).
Proof.
  intro t. unfold sum_counts. simpl. unfold TeamMore.get_members_by_role, TeamMore.get_member_count.
  pose proof (team_role_counts tm_role (team_members t)). lia.
Qed.

Lemma team_stats_loop_spec (ts : list Team) :
  forall m p l sm,
    let '(m', p', l', sm') := Repositories.team_stats_loop ts m p l sm in
    m' = (m + list_sum (map TeamMore.get_member_count ts))%nat /\
    p' = (p + list_sum (map (fun t => length (team_projects t)) ts))%nat /\
    (l <= l')%nat /\
    (forall t, In t ts -> (TeamMore.get_member_count t <= l')%nat) /\
    (l' = l \/ exists t, In t ts /\ TeamMore.get_member_count t = l') /\
    (forall x, sm = Some x -> exists y, sm' = Some y /\ (y <= x)%nat) /\
    (forall t, In t ts -> exists y, sm' = Some y /\ (y <= TeamMore.get_member_count t)%nat) /\
    (sm' = sm \/ exists t, In t ts /\ sm' = Some (TeamMore.get_member_count t)).
Proof.
  induction ts as [|t r IH]; intros m p l sm; simpl.
  - split; [lia|]. split; [lia|]. split; [lia|]. split; [intros _ []|].
    split; [left; reflexivity|]. split.
    + intros x Hx; exists x; split; [assumption|lia].
    + split; [intros _ []|left; reflexivity].
  - specialize (IH (m + TeamMore.get_member_count t)%nat (p + length (team_projects t))%nat
                   (Nat.max l (TeamMore.get_member_count t))
                   (Some match sm with None => TeamMore.get_member_count t
                                  | Some x => Nat.min x (TeamMore.get_member_count t) end)).
    destruct (Repositories.team_stats_loop r _ _ _ _) as [[[m' p'] l'] sm'].
    destruct IH as (Hm & Hp & Hl & Hle & Hatt & Hsm & Hin & Hsatt).
    split; [lia|]. split; [lia|]. split; [lia|]. split.
    { intros u [<-|Hu]; [lia|auto]. }
    split.
    { destruct Hatt as [E|(u & Hu & E)]; [|right; eauto].
      destruct (Nat.max_spec l (TeamMore.get_member_count t)) as [[_ E2]|[_ E2]];
        rewrite E2 in E; [right; exists t; auto|left; lia]. }
    split.
    { intros x ->. destruct (Hsm _ eq_refl) as (y & Hy & Hyx). exists y; split; [assumption|lia]. }
    split.
    { intros u [<-|Hu]; [|auto].
      destruct (Hsm _ eq_refl) as (y & Hy & Hyx). exists y; split; [assumption|].
      destruct sm; lia. }
    destruct Hsatt as [E|(u & Hu & E)]; [|right; eauto].
    subst sm'. destruct sm as [x|].
    + destruct (Nat.min_spec x (TeamMore.get_member_count t)) as [[_ E2]|[_ E2]];
        rewrite E2; [left; reflexivity|right; exists t; auto].
    + right; exists t; auto.
Qed.

(** [TeamRepository.get_team_statistics]: the totals are the sums over the
    stored teams, every stored team's size lies between the smallest and the
    largest size reported, both of which are sizes of stored teams, and
    with no team at all every figure is 0. The store is untouched. *)
Theorem team_repository_statistics_bounds :
  forall s : Store,
    exists st, Repositories.team_get_team_statistics s = (Ok st, s) /\
    Repositories.trs_total st = length (values (teams s)) /\
    Repositories.trs_total_members st = list_sum (map TeamMore.get_member_count (values (teams s))) /\
    Repositories.trs_total_projects st
      = list_sum (map (fun t => length (team_projects t)) (values (teams s))) /\
    (forall t, In t (values (teams s)) ->
       (Repositories.trs_smallest_team_size st <= TeamMore.get_member_count t
        <= Repositories.trs_largest_team_size st)%nat) /\
    (values (teams s) <> [] ->
       (exists t, In t (values (teams s)) /\
                  TeamMore.get_member_count t = Repositories.trs_largest_team_size st) /\
       (exists t, In t (values (teams s)) /\
                  TeamMore.get_member_count t = Repositories.trs_smallest_team_size st)) /\
    (values (teams s) = [] ->
       st = Repositories.mkTeamRepoStats 0 0 0 0 0).
Proof.
  intro s. unfold Repositories.team_get_team_statistics.
  pose proof (team_stats_loop_spec (values (teams s)) 0 0 0 None) as Hs.
  destruct (Repositories.team_stats_loop (values (teams s)) 0 0 0 None)
    as [[[m p] l] sm] eqn:E.
  destruct Hs as (Hm & Hp & Hl & Hle & Hatt & _ & Hin & Hsatt).
  eexists. split; [reflexivity|]. cbn.
  split; [reflexivity|]. split; [assumption|]. split; [assumption|]. split.
  { intros t Ht. destruct (Hin t Ht) as (y & -> & Hy). split; [assumption|auto]. }
  split.
  { intros Hne. destruct (values (teams s)) as [|t0 r] eqn:Ev; [congruence|].
    split.
    - destruct Hatt as [->|H]; [|exact H].
      exists t0. split; [left; reflexivity|]. specialize (Hle t0 (or_introl eq_refl)). lia.
    - destruct Hsatt as [->|(u & Hu & ->)].
      + destruct (Hin t0 (or_introl eq_refl)) as (y & Hy & _). discriminate.
      + exists u; split; [assumption|reflexivity]. }
  intros Hnil. rewrite Hnil in Hm, Hp, Hatt, Hsatt. simpl in Hm, Hp. rewrite Hnil.
  destruct Hatt as [->|(u & [] & _)]. destruct Hsatt as [->|(u & [] & _)].
  subst m p. reflexivity.
Qed.

(** ** Team membership *)

Lemma find_app_none {A} (f : A -> bool) (l : list A) (x : A) :
  existsb f l = false -> find f (l ++ [x]) = find f [x].
Proof.
  induction l as [|y r IH]; simpl; [reflexivity|].
  destruct (f y) eqn:E; simpl; [discriminate|exact IH].
Qed.

Lemma find_app_some {A} (f : A -> bool) (l : list A) (x : A) :
  existsb f l = true -> find f (l ++ [x]) = find f l.
Proof.
  induction l as [|y r IH]; simpl; [discriminate|].
  destruct (f y) eqn:E; simpl; [reflexivity|exact IH].
Qed.

Lemma existsb_find_none {A} (f : A -> bool) (l : list A) :
  existsb f l = false -> find f l = None.
Proof.
  induction l as [|y r IH]; simpl; [reflexivity|].
  destruct (f y); simpl; [discriminate|exact IH].
Qed.

Lemma remove_member_loop_snoc (t : Team) (uid : string) (ms : list TeamMember) (m : TeamMember) :
  existsb (fun m => String.eqb (tm_user_id m) uid) ms = false ->
  tm_user_id m = uid -> is_leader_id t uid = false ->
  remove_member_loop t uid (ms ++ [m]) = Some (Ok ms).
Proof.
  intros Hn Hm Hl. induction ms as [|y r IH]; simpl in *.
  - rewrite Hm, String.eqb_refl, Hl. reflexivity.
  - destruct (String.eqb (tm_user_id y) uid); [discriminate|]. rewrite IH by exact Hn. reflexivity.
Qed.

Lemma NoDup_map_snoc {A B} (f : A -> B) (l : list A) (x : A) :
  NoDup (map f l) -> ~ In (f x) (map f l) -> NoDup (map f (l ++ [x])).
Proof.
  intros Hd Hn. rewrite map_app. simpl.
  induction (map f l) as [|y r IH]; simpl in *.
  - constructor; [intros []|constructor].
  - inversion Hd; subst. constructor.
    + rewrite in_app_iff. intros [Hy|[Hy|[]]]; [contradiction|apply Hn; left; auto].
    + apply IH; [assumption|intros Hr; apply Hn; right; exact Hr].
Qed.

Lemma is_member_false_not_in (t : Team) (uid : string) :
  is_member t uid = false -> ~ In uid (map tm_user_id (team_members t)).
Proof.
  unfold is_member. induction (team_members t) as [|m r IH]; simpl; [auto|].
  destruct (String.eqb (tm_user_id m) uid) eqn:E; simpl; [discriminate|].
  apply String.eqb_neq in E. intros Hr [H|H]; [contradiction|exact (IH Hr H)].
Qed.

(** [Team.add_member]: a user who is already a member is refused with a
    [ValueError]; otherwise the user becomes a member with the role asked
    for and exactly that role's default permissions, the member count grows
    by one, every other user's role and permissions are unchanged, the
    member ids stay free of duplicates, and removing the new member again
    (when it is not the leader) gives back the original member list. *)
Theorem team_add_member_spec :
  forall (t : Team) (uid : string) (r : TeamRole) (now : Z),
    (is_member t uid = true ->
       TeamMore.add_member t uid r now
       = Raise (ValueError "User is already a member of this team")) /\
    (is_member t uid = false ->
       exists m t', TeamMore.add_member t uid r now = Ok (m, t') /\
         is_member t' uid = true /\
         get_member_role t' uid = Some r /\
         (forall perm, TeamMore.has_permission t' uid perm
                       = str_in perm (TeamMore._get_default_permissions r)) /\
         TeamMore.get_member_count t' = S (TeamMore.get_member_count t) /\
         (forall uid', uid' <> uid ->
            get_member_role t' uid' = get_member_role t uid' /\
            forall perm, TeamMore.has_permission t' uid' perm
                         = TeamMore.has_permission t uid' perm) /\
         (NoDup (map tm_user_id (team_members t)) -> NoDup (map tm_user_id (team_members t'))) /\
         (is_leader_id t uid = false ->
            exists t'', remove_member t' uid now = Ok (true, t'') /\
                        team_members t'' = team_members t)).
Proof.
  intros t uid r now. split.
  - intros Hm. unfold TeamMore.add_member. rewrite Hm. reflexivity.
  - intros Hm. unfold TeamMore.add_member. rewrite Hm.
    do 2 eexists. split; [reflexivity|].
    unfold is_member, get_member_role, TeamMore.has_permission, TeamMore.get_member_count.
    cbn [set_members team_members]. unfold is_member in Hm.
    split; [rewrite existsb_app, Hm; simpl; rewrite String.eqb_refl; reflexivity|].
    split; [rewrite find_app_none by exact Hm; simpl; rewrite String.eqb_refl; reflexivity|].
    split; [intro perm; rewrite find_app_none by exact Hm; simpl; rewrite String.eqb_refl; reflexivity|].
    split; [rewrite length_app; simpl; lia|].
    split.
    { intros uid' Hne.
      assert (Hn : String.eqb uid uid' = false) by (apply String.eqb_neq; congruence).
      destruct (existsb (fun m => String.eqb (tm_user_id m) uid') (team_members t)) eqn:Ex.
      - split; [|intro perm]; rewrite find_app_some by exact Ex; reflexivity.
      - split; [|intro perm]; rewrite find_app_none by exact Ex; simpl; rewrite Hn;
          rewrite existsb_find_none by exact Ex; reflexivity. }
    split.
    { intros Hd. apply NoDup_map_snoc; [exact Hd|]. simpl.
      apply is_member_false_not_in. exact Hm. }
    intros Hl. unfold remove_member. cbn [set_members team_members].
    rewrite remove_member_loop_snoc; [|exact Hm|reflexivity|exact Hl].
    eexists. split; reflexivity.
Qed.

Lemma promote_loop_none (uid : string) (r : TeamRole) (ms : list TeamMember) :
  TeamMore.promote_loop uid r ms = None <-> existsb (fun m => String.eqb (tm_user_id m) uid) ms = false.
Proof.
  induction ms as [|m rest IH]; simpl; [tauto|].
  destruct (String.eqb (tm_user_id m) uid); simpl; [split; discriminate|].
  destruct (TeamMore.promote_loop uid r rest); simpl; rewrite <- IH; split; congruence.
Qed.

Lemma promote_loop_some (uid : string) (r : TeamRole) (ms ms' : list TeamMember) :
  TeamMore.promote_loop uid r ms = Some ms' ->
  map tm_user_id ms' = map tm_user_id ms /\
  find (fun m => String.eqb (tm_user_id m) uid) ms'
    = Some (mkMember uid r
              (match find (fun m => String.eqb (tm_user_id m) uid) ms with
               | Some m => tm_joined_at m | None => 0 end)
              (TeamMore._get_default_permissions r)) /\
  (forall uid', uid' <> uid ->
     find (fun m => String.eqb (tm_user_id m) uid') ms'
     = find (fun m => String.eqb (tm_user_id m) uid') ms).
Proof.
  revert ms'. induction ms as [|m rest IH]; intros ms' E; simpl in E; [discriminate|].
  destruct (String.eqb (tm_user_id m) uid) eqn:Em.
  - injection E as <-. apply String.eqb_eq in Em. simpl. rewrite Em, String.eqb_refl.
    split; [reflexivity|]. split; [reflexivity|].
    intros uid' Hne. assert (String.eqb uid uid' = false) as -> by (apply String.eqb_neq; congruence).
    reflexivity.
  - destruct (TeamMore.promote_loop uid r rest) as [l|] eqn:El; [|discriminate].
    injection E as <-. destruct (IH l eq_refl) as (H1 & H2 & H3). simpl.
    rewrite H1, Em, H2. split; [reflexivity|]. split; [reflexivity|].
    intros uid' Hne. rewrite H3 by exact Hne. reflexivity.
Qed.

(** [Team.promote_member]: it reports whether the user is a member; the
    list of member ids, the leader and the projects never change; a member
    promoted gets the new role and exactly that role's default
    permissions, keeping the join date; no other user's role or permissions
    change; a non-member leaves the team as it was. *)
Theorem team_promote_member_spec :
  forall (t : Team) (uid : string) (r : TeamRole) (now : Z),
    let '(ok, t') := TeamMore.promote_member t uid r now in
    ok = is_member t uid /\
    map tm_user_id (team_members t') = map tm_user_id (team_members t) /\
    team_leader_id t' = team_leader_id t /\
    team_projects t' = team_projects t /\
    (ok = true ->
       get_member_role t' uid = Some r /\
       forall perm, TeamMore.has_permission t' uid perm
                    = str_in perm (TeamMore._get_default_permissions r)) /\
    (ok = false -> t' = t) /\
    (forall uid', uid' <> uid ->
       get_member_role t' uid' = get_member_role t uid' /\
       forall perm, TeamMore.has_permission t' uid' perm
                    = TeamMore.has_permission t uid' perm).
Proof.
  intros t uid r now. unfold TeamMore.promote_member.
  destruct (TeamMore.promote_loop uid r (team_members t)) as [ms'|] eqn:E.
  - destruct (promote_loop_some _ _ _ _ E) as (H1 & H2 & H3).
    assert (Hm : is_member t uid = true).
    { unfold is_member. destruct (existsb _ (team_members t)) eqn:Ex; [reflexivity|].
      apply (proj2 (promote_loop_none uid r _)) in Ex. congruence. }
    rewrite Hm. cbn [set_members team_members team_leader_id team_projects].
    unfold get_member_role, TeamMore.has_permission. cbn [set_members team_members].
    split; [reflexivity|]. split; [exact H1|]. split; [reflexivity|]. split; [reflexivity|].
    split; [intros _; rewrite H2; split; [reflexivity|intro; reflexivity]|].
    split; [discriminate|].
    intros uid' Hne. rewrite H3 by exact Hne. split; [reflexivity|intro; reflexivity].
  - apply promote_loop_none in E. unfold is_member. rewrite E.
    repeat split; intros; try discriminate; reflexivity.
Qed.

(** ** Project milestones *)

Lemma complete_loop_none (mid : string) (now : Z) (ms : list ProjectMilestone) :
  ProjectMore.complete_loop mid now ms = None <-> existsb (fun m => String.eqb (m_id m) mid) ms = false.
Proof.
  induction ms as [|m rest IH]; simpl; [tauto|].
  destruct (String.eqb (m_id m) mid); simpl; [split; discriminate|].
  destruct (ProjectMore.complete_loop mid now rest); simpl; rewrite <- IH; split; congruence.
Qed.

Lemma complete_loop_some (mid : string) (now : Z) (ms ms' : list ProjectMilestone) :
  ProjectMore.complete_loop mid now ms = Some ms' ->
  map m_id ms' = map m_id ms /\
  (forall m, find (fun m => String.eqb (m_id m) mid) ms = Some m ->
     find (fun m => String.eqb (m_id m) mid) ms'
     = Some (mkMilestone mid (m_title m) (m_description m) (m_due_date m) true (Some now))) /\
  (forall mid', mid' <> mid ->
     find (fun m => String.eqb (m_id m) mid') ms'
     = find (fun m => String.eqb (m_id m) mid') ms).
Proof.
  revert ms'. induction ms as [|m rest IH]; intros ms' E; simpl in E; [discriminate|].
  destruct (String.eqb (m_id m) mid) eqn:Em.
  - injection E as <-. apply String.eqb_eq in Em. simpl. rewrite Em, String.eqb_refl.
    split; [reflexivity|]. split; [intros m' [= <-]; reflexivity|].
    intros mid' Hne. assert (String.eqb mid mid' = false) as -> by (apply String.eqb_neq; congruence).
    reflexivity.
  - destruct (ProjectMore.complete_loop mid now rest) as [l|] eqn:El; [|discriminate].
    injection E as <-. destruct (IH l eq_refl) as (H1 & H2 & H3). simpl.
    rewrite H1, Em. split; [reflexivity|]. split; [exact H2|].
    intros mid' Hne. rewrite H3 by exact Hne. reflexivity.
Qed.

(** [Project.complete_milestone]: it reports whether a milestone with the
    id exists; the milestone ids, tasks and team members never change; the
    first milestone with the id is marked completed at the current time,
    keeping its title, description and due date (a milestone already
    completed is stamped again); other milestones are unchanged; and an
    unknown id leaves the project as it was. *)
Theorem complete_milestone_spec :
  forall (p : Project) (mid : string) (now : Z),
    let '(ok, p') := ProjectMore.complete_milestone p mid now in
    ok = existsb (fun m => String.eqb (m_id m) mid) (p_milestones p) /\
    map m_id (p_milestones p') = map m_id (p_milestones p) /\
    p_tasks p' = p_tasks p /\ p_team_members p' = p_team_members p /\
    (forall m, find (fun m => String.eqb (m_id m) mid) (p_milestones p) = Some m ->
       find (fun m => String.eqb (m_id m) mid) (p_milestones p')
       = Some (mkMilestone mid (m_title m) (m_description m) (m_due_date m) true (Some now))) /\
    (forall mid', mid' <> mid ->
       find (fun m => String.eqb (m_id m) mid') (p_milestones p')
       = find (fun m => String.eqb (m_id m) mid') (p_milestones p)) /\
    (ok = false -> p' = p).
Proof.
  intros p mid now. unfold ProjectMore.complete_milestone.
  destruct (ProjectMore.complete_loop mid now (p_milestones p)) as [ms'|] eqn:E.
  - destruct (complete_loop_some _ _ _ _ E) as (H1 & H2 & H3).
    assert (Hm : existsb (fun m => String.eqb (m_id m) mid) (p_milestones p) = true).
    { destruct (existsb _ (p_milestones p)) eqn:Ex; [reflexivity|].
      apply (proj2 (complete_loop_none mid now _)) in Ex. congruence. }
    cbn [ProjectMore.set_milestones p_milestones p_tasks p_team_members].
    split; [symmetry; exact Hm|]. split; [exact H1|]. split; [reflexivity|]. split; [reflexivity|].
    split; [exact H2|]. split; [exact H3|]. discriminate.
  - apply complete_loop_none in E. rewrite E.
    split; [reflexivity|]. split; [reflexivity|]. split; [reflexivity|]. split; [reflexivity|].
    split; [intros m Hf; rewrite existsb_find_none in Hf by exact E; discriminate|].
    split; [intros; reflexivity|]. reflexivity.
Qed.

(** [Project.add_milestone] then [Project.complete_milestone]: a milestone
    added under a fresh id is appended, not completed, with its title and
    description stripped; completing it afterwards succeeds, and gives the
    old milestones followed by the new one marked completed at that time. *)
Theorem add_then_complete_milestone :
  forall (p : Project) (mid title description : string) (due now now' : Z),
    existsb (fun m => String.eqb (m_id m) mid) (p_milestones p) = false ->
    let '(m, p1) := ProjectMore.add_milestone p mid title description due now in
    m = mkMilestone mid (strip title) (strip description) due false None /\
    p_milestones p1 = (p_milestones p ++ [m])%list /\
    exists p2, ProjectMore.complete_milestone p1 mid now' = (true, p2) /\
      p_milestones p2
      = (p_milestones p ++ [mkMilestone mid (strip title) (strip description) due true (Some now')])%list.
Proof.
  intros p mid title description due now now' Hfresh. simpl.
  split; [reflexivity|]. split; [reflexivity|].
  unfold ProjectMore.complete_milestone. cbn [p_milestones].
  assert (Hl : forall ms, existsb (fun m => String.eqb (m_id m) mid) ms = false ->
            ProjectMore.complete_loop mid now' (ms ++ [mkMilestone mid (strip title) (strip description) due false None])%list
            = Some (ms ++ [mkMilestone mid (strip title) (strip description) due true (Some now')])%list).
  { induction ms as [|x r IH]; simpl; intros Hx.
    - rewrite String.eqb_refl. reflexivity.
    - destruct (String.eqb (m_id x) mid); [discriminate|]. rewrite IH by exact Hx. reflexivity. }
  unfold ProjectMore.set_milestones. cbn [p_milestones].
  rewrite Hl by exact Hfresh. eexists. split; reflexivity.
Qed.

(** ** Dictionaries *)

Lemma dict_get_set_eq {V} (k : string) (v : V) (d : list (string * V)) :
  dict_get k (dict_set k v d) = Some v.
Proof.
  induction d as [|[k' v'] r IH]; simpl; [rewrite String.eqb_refl; reflexivity|].
  destruct (String.eqb k k') eqn:E; simpl; [rewrite String.eqb_refl; reflexivity|].
  rewrite E. exact IH.
Qed.

Lemma dict_get_set_ne {V} (k k' : string) (v : V) (d : list (string * V)) :
  k' <> k -> dict_get k' (dict_set k v d) = dict_get k' d.
Proof.
  intros Hne. assert (Hn : String.eqb k' k = false) by (apply String.eqb_neq; exact Hne).
  induction d as [|[k0 v0] r IH]; simpl; [rewrite Hn; reflexivity|].
  destruct (String.eqb k k0) eqn:E; simpl.
  - apply String.eqb_eq in E. subst k0. rewrite Hn. reflexivity.
  - destruct (String.eqb k' k0); [reflexivity|exact IH].
Qed.

(** ** Comments on tasks *)

(** [TaskService.add_task_comment], for a stored task and a stored author:
    without the right to comment (neither an admin nor the assignee) it
    raises [PermissionError]; with it, a blank comment raises [ValueError];
    in both cases no task is touched. Otherwise the comment, stripped and
    stamped with the author and the time, is appended to the task's
    comments, nothing else of the task but its update time changes, and the
    task is stored back under its id. *)
Theorem add_task_comment_spec :
  forall (task_id author_id content cid : string) (now : Z) (s : Store) (t : Task) (a : User),
    dict_get task_id (tasks s) = Some t ->
    dict_get author_id (users s) = Some a ->
    (is_admin a || TaskService.opt_str_eqb (t_assignee_id t) author_id = false ->
       TaskService.add_task_comment task_id author_id content cid now s
       = (Raise (PermissionError "User does not have permission to comment on this task"), s)) /\
    (is_admin a || TaskService.opt_str_eqb (t_assignee_id t) author_id = true ->
     truthy (strip content) = false ->
       TaskService.add_task_comment task_id author_id content cid now s
       = (Raise (ValueError "Comment content cannot be empty"), s)) /\
    (is_admin a || TaskService.opt_str_eqb (t_assignee_id t) author_id = true ->
     truthy (strip content) = true -> truthy (t_id t) = true ->
       exists t', TaskService.add_task_comment task_id author_id content cid now s
                  = (Ok t', with_tasks s (dict_set (t_id t) t' (tasks s))) /\
         t_comments t' = (t_comments t ++ [mkComment cid author_id (strip content) now])%list /\
         t' = mkTask (t_id t) (t_title t) (t_description t) (t_status t) (t_priority t)
                (t_assignee_id t) (t_due_date t) (t_created_at t) now (t_comments t') (t_tags t)).
Proof.
  intros task_id author_id content cid now s t a Ht Ha.
  unfold TaskService.add_task_comment, TaskService._can_comment_on_task, bindM,
    task_get_by_id, user_get_by_id, retM, raiseM, liftM.
  rewrite Ht, Ha. cbv beta iota. rewrite Ha.
  split; [intros Hp; rewrite Hp; reflexivity|].
  split; [intros Hp Hc; rewrite Hp; unfold add_comment; rewrite Hc; reflexivity|].
  intros Hp Hc Hi. rewrite Hp. unfold add_comment. rewrite Hc. simpl.
  unfold task_save. cbn [t_id]. rewrite Hi.
  eexists. split; [reflexivity|]. split; reflexivity.
Qed.

(** ** Password hashes *)

Lemma list_ascii_of_string_app (a b : string) :
  list_ascii_of_string (a ++ b) = (list_ascii_of_string a ++ list_ascii_of_string b)%list.
Proof. induction a as [|c r IH]; simpl; [reflexivity|now rewrite IH]. Qed.

Lemma split_last_absent (c : ascii) (l : list ascii) :
  existsb (Ascii.eqb c) l = false -> split_last c l = None.
Proof.
  induction l as [|x r IH]; simpl; [reflexivity|].
  intros Hx. apply orb_false_iff in Hx as [Hx Hr]. rewrite IH by exact Hr.
  rewrite Ascii.eqb_sym, Hx. reflexivity.
Qed.

Lemma split_last_app (c : ascii) (a b : list ascii) :
  existsb (Ascii.eqb c) b = false -> split_last c (a ++ c :: b)%list = Some (a, b).
Proof.
  intros Hb. induction a as [|x r IH]; simpl.
  - rewrite split_last_absent by exact Hb. rewrite Ascii.eqb_refl. reflexivity.
  - rewrite IH. reflexivity.
Qed.

Lemma split_colon_join (salt h : string) :
  UserMore.colon_free salt = true -> UserMore.colon_free h = true ->
  split_colon (salt ++ ":" ++ h) = Some (salt, h).
Proof.
  unfold UserMore.colon_free, split_colon. intros Hs Hh.
  apply negb_true_iff in Hs, Hh.
  rewrite list_ascii_of_string_app. simpl.
  rewrite split_last_app by exact Hh. rewrite Hs.
  rewrite !string_of_list_ascii_of_string. reflexivity.
Qed.

Lemma split_colon_colon_free (h : string) :
  UserMore.colon_free h = true -> split_colon h = None.
Proof.
  unfold UserMore.colon_free, split_colon. intros Hh. apply negb_true_iff in Hh.
  rewrite split_last_absent by exact Hh. reflexivity.
Qed.

Section PasswordHashes.
Context `{Hasher}.

(** [User._hash_password] and [User.verify_password]: for a salt and a
    digest without [':'] (as [token_hex] and [hex()] produce), a user built
    by [User(...)] or given a new password by [change_password] accepts
    exactly the passwords whose digest under the salt equals that of the
    password set, and in particular the password set; [change_password]
    keeps every other field. A stored hash with no [':'] accepts no password. *)
Theorem password_hash_verify_roundtrip :
  forall (salt : string),
    UserMore.colon_free salt = true ->
    (forall (now : Z) (un em pw : string) (r : UserRole) (u : User),
       UserMore.colon_free (pbkdf2_hex salt pw) = true ->
       new_user salt now un em pw r = Ok u ->
       (forall p, verify_password u p = String.eqb (pbkdf2_hex salt p) (pbkdf2_hex salt pw)) /\
       verify_password u pw = true) /\
    (forall (u u' : User) (old new : string),
       UserMore.colon_free (pbkdf2_hex salt new) = true ->
       change_password u salt old new = Ok u' ->
       (forall p, verify_password u' p = String.eqb (pbkdf2_hex salt p) (pbkdf2_hex salt new)) /\
       verify_password u' new = true /\
       u' = mkUser (u_id u) (u_username u) (u_email u) (u_password_hash u') (u_role u)
              (u_profile u) (u_created_at u) (u_permissions u)) /\
    (forall (u : User) (p : string),
       UserMore.colon_free (u_password_hash u) = true -> verify_password u p = false).
Proof.
  intros salt Hs. split; [|split].
  - intros now un em pw r u Hd Hu.
    unfold new_user in Hu.
    destruct (_validate_username un) as [un'|e]; [|discriminate]. simpl in Hu.
    destruct (_validate_email em) as [em'|e]; [|discriminate]. simpl in Hu.
    unfold _hash_password in Hu.
    destruct (String.length pw <? 6)%nat; [discriminate|]. simpl in Hu.
    injection Hu as <-.
    assert (Hv : forall p, verify_password
                   (mkUser None un' em' (salt ++ ":" ++ pbkdf2_hex salt pw) r
                      (mkProfile "" "" "") now (_get_permissions r)) p
                 = String.eqb (pbkdf2_hex salt p) (pbkdf2_hex salt pw)).
    { intro p. unfold verify_password. cbn [u_password_hash].
      rewrite split_colon_join by assumption. reflexivity. }
    split; [exact Hv|]. rewrite Hv. apply String.eqb_refl.
  - intros u u' old new Hd Hu.
    unfold change_password in Hu.
    destruct (verify_password u old); [|discriminate]. simpl in Hu.
    unfold _hash_password in Hu.
    destruct (String.length new <? 6)%nat; [discriminate|]. simpl in Hu.
    injection Hu as <-.
    assert (Hv : forall p, verify_password
                   (mkUser (u_id u) (u_username u) (u_email u) (salt ++ ":" ++ pbkdf2_hex salt new)
                      (u_role u) (u_profile u) (u_created_at u) (u_permissions u)) p
                 = String.eqb (pbkdf2_hex salt p) (pbkdf2_hex salt new)).
    { intro p. unfold verify_password. cbn [u_password_hash].
      rewrite split_colon_join by assumption. reflexivity. }
    split; [exact Hv|]. split; [rewrite Hv; apply String.eqb_refl|reflexivity].
  - intros u p Hc. unfold verify_password. rewrite split_colon_colon_free by exact Hc. reflexivity.
Qed.

End PasswordHashes.

(** ** Registration and login *)

Lemma find_values_dict_set {V} (f : V -> bool) (k : string) (v : V) (d : list (string * V)) :
  find f (values d) = None -> f v = true -> find f (values (dict_set k v d)) = Some v.
Proof.
  intros Hn Hv. induction d as [|[k' v'] r IH]; simpl in *; [rewrite Hv; reflexivity|].
  destruct (f v') eqn:E; [discriminate|].
  destruct (String.eqb k k'); simpl; [rewrite Hv; reflexivity|rewrite E; exact (IH Hn)].
Qed.

Lemma find_values_dict_set_none {V} (f : V -> bool) (k : string) (v : V) (d : list (string * V)) :
  find f (values d) = None -> f v = false -> find f (values (dict_set k v d)) = None.
Proof.
  intros Hn Hv. induction d as [|[k' v'] r IH]; simpl in *; [rewrite Hv; reflexivity|].
  destruct (f v') eqn:E; [discriminate|].
  destruct (String.eqb k k'); simpl; [rewrite Hv; exact Hn|rewrite E; exact (IH Hn)].
Qed.

Section Registration.
Context `{Hasher}.

Lemma new_user_ok (salt : string) (now : Z) (un em pw : string) (r : UserRole) (u : User) :
  new_user salt now un em pw r = Ok u ->
  u_id u = None /\ u_username u = strip (lower un) /\
  u_password_hash u = (salt ++ ":" ++ pbkdf2_hex salt pw)%string.
Proof.
  unfold new_user, _validate_username.
  destruct (negb (truthy un) || (String.length un <? 3)%nat); [discriminate|]. simpl.
  destruct (_validate_email em) as [em'|e]; [|discriminate]. simpl.
  unfold _hash_password. destruct (String.length pw <? 6)%nat; [discriminate|]. simpl.
  intros [= <-]. simpl. auto.
Qed.

(** [UserService.create_user] then [UserService.authenticate_user]: when
    the salt and digest have no [':'] and no user was stored under the
    username as normalised by [User] (lower case, stripped), logging in
    with that normalised name returns the new user, with its repository id,
    for exactly the passwords whose digest matches, in particular the one
    registered; logging in with the name as typed, when normalisation
    changed it, finds nobody. *)
Theorem create_user_then_authenticate :
  forall (salt : string) (now : Z) (username email password : string) (role : UserRole)
         (s s' : Store) (u : User),
    UserMore.colon_free salt = true ->
    UserMore.colon_free (pbkdf2_hex salt password) = true ->
    find (fun v => String.eqb (u_username v) (strip (lower username))) (values (users s)) = None ->
    UserService.create_user salt now username email password role s = (Ok u, s') ->
    u_username u = strip (lower username) /\
    u_id u = Some ("userrepository_" ++ str_of_nat (user_next s))%string /\
    (forall p, ServiceMore.authenticate_user (u_username u) p s'
               = (Ok (if String.eqb (pbkdf2_hex salt p) (pbkdf2_hex salt password)
                      then Some u else None), s')) /\
    ServiceMore.authenticate_user (u_username u) password s' = (Ok (Some u), s') /\
    (strip (lower username) <> username ->
       forall p, ServiceMore.authenticate_user username p s' = (Ok None, s')).
Proof.
  intros salt now username email password role s s' u Hs Hd Hfree Hc.
  unfold UserService.create_user, bindM, user_get_by_username, user_get_by_email, raiseM in Hc.
  destruct (find (fun u => String.eqb (u_username u) username) (values (users s))) eqn:E1;
    [discriminate|].
  destruct (find (fun u => String.eqb (u_email u) email) (values (users s))) eqn:E2;
    [discriminate|].
  destruct (new_user salt now username email password role) as [u0|e] eqn:En;
    [|destruct e; discriminate].
  destruct (new_user_ok _ _ _ _ _ _ _ En) as (Hid & Hun & Hph).
  unfold user_save in Hc. rewrite Hid in Hc. injection Hc as <- <-.
  set (i' := ("userrepository_" ++ str_of_nat (user_next s))%string).
  cbn [u_username u_id set_id]. rewrite Hun.
  assert (Hv : forall p, verify_password (set_id u0 i') p
                         = String.eqb (pbkdf2_hex salt p) (pbkdf2_hex salt password)).
  { intro p. unfold verify_password. cbn [set_id u_password_hash]. rewrite Hph.
    rewrite split_colon_join by assumption. reflexivity. }
  assert (Hf : find (fun v => String.eqb (u_username v) (strip (lower username)))
                 (values (users (with_users s (dict_set i' (set_id u0 i') (users s)) (S (user_next s)))))
               = Some (set_id u0 i')).
  { apply find_values_dict_set; [exact Hfree|]. cbn [set_id u_username]. rewrite Hun.
    apply String.eqb_refl. }
  assert (Ha : forall p, ServiceMore.authenticate_user (strip (lower username)) p
                 (with_users s (dict_set i' (set_id u0 i') (users s)) (S (user_next s)))
               = (Ok (if String.eqb (pbkdf2_hex salt p) (pbkdf2_hex salt password)
                      then Some (set_id u0 i') else None),
                  with_users s (dict_set i' (set_id u0 i') (users s)) (S (user_next s)))).
  { intro p. unfold ServiceMore.authenticate_user, bindM, user_get_by_username, retM.
    rewrite Hf, Hv. destruct (String.eqb _ _); reflexivity. }
  split; [reflexivity|]. split; [reflexivity|]. split; [exact Ha|].
  split; [rewrite Ha, String.eqb_refl; reflexivity|].
  intros Hne p. unfold ServiceMore.authenticate_user, bindM, user_get_by_username, retM.
  unfold with_users at 1. cbn [users].
  rewrite find_values_dict_set_none; [reflexivity|exact E1|].
  cbn [set_id u_username]. rewrite Hun. apply String.eqb_neq. exact Hne.
Qed.

End Registration.

(** ** Profiles and input validation *)

Definition profile_fields : list string := ["first_name"; "last_name"; "bio"].

Lemma check_profile_data_ok (kv : list (string * pyval)) :
  ServiceMore.check_profile_data kv = Ok tt <->
  Forall (fun kv => In (fst kv) profile_fields /\ exists x, snd kv = PStr x) kv.
Proof.
  unfold profile_fields.
  induction kv as [|[k v] r IH]; cbn [ServiceMore.check_profile_data]; [split; auto|].
  rewrite Forall_cons_iff. cbn [fst snd].
  destruct (str_in k ["first_name"; "last_name"; "bio"]) eqn:Ek; cbn [negb].
  - apply str_in_iff in Ek.
    destruct v as [| | |x| |];
      try (split; [discriminate|intros [[_ [y Hy]] _]; discriminate]).
    rewrite IH. split.
    + intros Hr. split; [split; [exact Ek|exists x; reflexivity]|exact Hr].
    + intros [_ Hr]; exact Hr.
  - apply str_in_false in Ek. split; [discriminate|].
    intros [[Hk _] _]. contradiction.
Qed.

Lemma fold_profile_keep (kv : list (string * pyval)) (p : UserProfile) (fld : UserProfile -> string)
    (name : string) :
  (forall q k v, k <> name -> fld (ServiceMore.set_profile_field q k v) = fld q) ->
  ~ In name (map fst kv) ->
  fld (fold_left (fun p kv => ServiceMore.set_profile_field p (fst kv) (snd kv)) kv p) = fld p.
Proof.
  intros Hs. revert p. induction kv as [|[k v] r IH]; intros p Hn; simpl in *; [reflexivity|].
  rewrite IH by tauto. apply Hs. intro E; apply Hn; left; congruence.
Qed.

(** [UserService.update_user_profile]: an unknown user raises
    [ValueError]; keyword arguments are admitted exactly when every key is
    [first_name], [last_name] or [bio] and every value a [str], and any other
    input raises [ValueError] before any field is set, leaving the store as
    it was; admitted arguments are applied to the stored user, which is
    saved back under the same id with nothing but the profile changed. A
    field no argument names keeps its value, and a field named last gets
    that value. *)
Theorem update_user_profile_spec :
  forall (uid : string) (kv : list (string * pyval)) (s : Store),
    (dict_get uid (users s) = None ->
       ServiceMore.update_user_profile uid kv s
       = (Raise (ValueError ("User with ID " ++ uid ++ " not found")), s)) /\
    (ServiceMore.check_profile_data kv = Ok tt <->
     Forall (fun kv => In (fst kv) profile_fields /\ exists x, snd kv = PStr x) kv) /\
    (forall u e, dict_get uid (users s) = Some u -> ServiceMore.check_profile_data kv = Raise e ->
       (exists k, In k (map fst kv) /\
          (e = ValueError ("Invalid profile field: " ++ k) \/
           e = ValueError ("Profile field " ++ k ++ " must be a string"))) /\
       ServiceMore.update_user_profile uid kv s = (Raise e, s)) /\
    (users_wf s -> forall u, dict_get uid (users s) = Some u ->
       ServiceMore.check_profile_data kv = Ok tt ->
       let u' := ServiceMore.update_profile u kv in
       ServiceMore.update_user_profile uid kv s
       = (Ok u', with_users s (dict_set uid u' (users s)) (user_next s)) /\
       u' = mkUser (u_id u) (u_username u) (u_email u) (u_password_hash u) (u_role u)
              (u_profile u') (u_created_at u) (u_permissions u)) /\
    (forall u, ~ In "first_name" (map fst kv) ->
       first_name (u_profile (ServiceMore.update_profile u kv)) = first_name (u_profile u)) /\
    (forall u, ~ In "last_name" (map fst kv) ->
       last_name (u_profile (ServiceMore.update_profile u kv)) = last_name (u_profile u)) /\
    (forall u, ~ In "bio" (map fst kv) ->
       bio (u_profile (ServiceMore.update_profile u kv)) = bio (u_profile u)) /\
    (forall u x,
       first_name (u_profile (ServiceMore.update_profile u (kv ++ [("first_name", PStr x)])%list)) = x /\
       last_name (u_profile (ServiceMore.update_profile u (kv ++ [("last_name", PStr x)])%list)) = x /\
       bio (u_profile (ServiceMore.update_profile u (kv ++ [("bio", PStr x)])%list)) = x).
Proof.
  intros uid kv s.
  assert (Hset : forall q k v,
            (k <> "first_name" -> first_name (ServiceMore.set_profile_field q k v) = first_name q) /\
            (k <> "last_name" -> last_name (ServiceMore.set_profile_field q k v) = last_name q) /\
            (k <> "bio" -> bio (ServiceMore.set_profile_field q k v) = bio q)).
  { intros q k v. unfold ServiceMore.set_profile_field.
    destruct v; try (repeat split; reflexivity).
    destruct (String.eqb k "first_name") eqn:E1;
      [apply String.eqb_eq in E1; subst; repeat split; intros; try reflexivity; congruence|].
    destruct (String.eqb k "last_name") eqn:E2;
      [apply String.eqb_eq in E2; subst; repeat split; intros; try reflexivity; congruence|].
    destruct (String.eqb k "bio") eqn:E3;
      [apply String.eqb_eq in E3; subst; repeat split; intros; try reflexivity; congruence|].
    repeat split; reflexivity. }
  split.
  { intros Hn. unfold ServiceMore.update_user_profile, bindM, user_get_by_id, raiseM.
    rewrite Hn. reflexivity. }
  split; [apply check_profile_data_ok|].
  split.
  { intros u e Hu He. split.
    - clear Hu. induction kv as [|[k v] r IH]; cbn [ServiceMore.check_profile_data] in He;
        [discriminate|].
      destruct (negb (str_in k ["first_name"; "last_name"; "bio"])).
      + injection He as <-. exists k. split; [left; reflexivity|left; reflexivity].
      + destruct v; try (injection He as <-; exists k; split; [left; reflexivity|right; reflexivity]).
        destruct (IH He) as (k' & Hk' & He'). exists k'. split; [right; exact Hk'|exact He'].
    - unfold ServiceMore.update_user_profile, bindM, user_get_by_id, raiseM.
      rewrite Hu, He. reflexivity. }
  split.
  { intros Hwf u Hu Hc. cbv zeta.
    destruct (Hwf uid u Hu) as [Hid Ht].
    unfold ServiceMore.update_user_profile, bindM, user_get_by_id.
    rewrite Hu, Hc. split; [|reflexivity].
    unfold user_save. cbn [ServiceMore.update_profile u_id].
    rewrite Hid, Ht. reflexivity. }
  split; [intros u Hn; apply (fold_profile_keep kv (u_profile u) first_name "first_name");
           [intros q k v; apply (proj1 (Hset q k v))|exact Hn]|].
  split; [intros u Hn; apply (fold_profile_keep kv (u_profile u) last_name "last_name");
           [intros q k v; apply (proj1 (proj2 (Hset q k v)))|exact Hn]|].
  split; [intros u Hn; apply (fold_profile_keep kv (u_profile u) bio "bio");
           [intros q k v; apply (proj2 (proj2 (Hset q k v)))|exact Hn]|].
  intros u x. unfold ServiceMore.update_profile. cbn [u_profile].
  rewrite !fold_left_app. simpl. repeat split; reflexivity.
Qed.

Lemma find_none_iff {A} (f : A -> bool) (l : list A) :
  find f l = None <-> forall x, In x l -> f x = false.
Proof.
  split; [apply find_none|].
  induction l as [|y r IH]; intros Hx; simpl; [reflexivity|].
  rewrite (Hx y (or_introl eq_refl)). apply IH. intros x Hr. apply Hx. right. exact Hr.
Qed.

Lemma find_some_iff {A} (f : A -> bool) (l : list A) :
  (exists v, find f l = Some v) <-> exists x, In x l /\ f x = true.
Proof.
  split.
  - intros [v Hv]. exists v. apply find_some. exact Hv.
  - intros (x & Hx & Hf). destruct (find f l) as [v|] eqn:E; [eauto|].
    rewrite (find_none f l E x Hx) in Hf. discriminate.
Qed.

Lemma email_regex_match_raw_empty : ServiceMore.email_regex_match_raw "" = false.
Proof. reflexivity. Qed.

(** [UserService.validate_user_data]: it never fails and never touches the
    store; it reports each of [username], [email] and [password] at most
    once and never with an empty list of errors; [password] is reported
    exactly when a password shorter than 6 characters is given;
    [username] exactly when a username is given that is shorter than 3
    characters or equal, as typed, to a stored user's username; [email]
    exactly when an email is given that the pattern rejects or that equals,
    as typed, a stored user's email. Each reported list holds a single
    message. *)
Theorem validate_user_data_spec :
  forall (username email password : option string) (s : Store),
    exists r, ServiceMore.validate_user_data username email password s = (Ok r, s) /\
      NoDup (map fst r) /\
      (forall k l, In (k, l) r -> exists m, l = [m]) /\
      (In "password" (map fst r) <->
         exists pw, password = Some pw /\ (String.length pw < 6)%nat) /\
      (In "username" (map fst r) <->
         exists un, username = Some un /\
           ((String.length un < 3)%nat \/ exists u, In u (values (users s)) /\ u_username u = un)) /\
      (In "email" (map fst r) <->
         exists em, email = Some em /\
           (ServiceMore.email_regex_match_raw em = false \/
            exists u, In u (values (users s)) /\ u_email u = em)).
Proof.
  intros username email password s. eexists. split; [reflexivity|].
  set (ue := match username with
             | None => []
             | Some un =>
                 if negb (truthy un) || (String.length un <? 3)%nat
                 then ["Username must be at least 3 characters"]
                 else match find (fun u => String.eqb (u_username u) un) (values (users s)) with
                      | Some _ => ["Username already exists"]
                      | None => []
                      end
             end).
  set (ee := match email with
             | None => []
             | Some em =>
                 if negb (truthy em) || negb (ServiceMore.email_regex_match_raw em)
                 then ["Invalid email format"]
                 else match find (fun u => String.eqb (u_email u) em) (values (users s)) with
                      | Some _ => ["Email already exists"]
                      | None => []
                      end
             end).
  set (pe := match password with
             | None => []
             | Some pw =>
                 if negb (truthy pw) || (String.length pw <? 6)%nat
                 then ["Password must be at least 6 characters"] else []
             end).
  assert (Hue : (ue = [] \/ exists m, ue = [m]) /\
                (ue <> [] <-> exists un, username = Some un /\
                   ((String.length un < 3)%nat \/
                    exists u, In u (values (users s)) /\ u_username u = un))).
  { subst ue. destruct username as [un|].
    2:{ split; [left; reflexivity|]. split; [congruence|intros (? & [=] & _)]. }
    destruct (truthy un) eqn:Et; cbn [negb orb].
    2:{ destruct un; [|discriminate]. split; [eauto|]. split; [intros _; exists ""%string; simpl; split; [reflexivity|left; lia]|congruence]. }
    destruct (String.length un <? 3)%nat eqn:El.
    - apply Nat.ltb_lt in El. split; [eauto|]. split; [intros _; eauto|congruence].
    - apply Nat.ltb_ge in El.
      destruct (find (fun u => String.eqb (u_username u) un) (values (users s))) as [v|] eqn:Ef.
      + split; [eauto|]. split; [|congruence]. intros _. exists un. split; [reflexivity|right].
        apply find_some in Ef as [Hv Hn]. apply String.eqb_eq in Hn. eauto.
      + split; [left; reflexivity|]. split; [congruence|].
        intros (un' & [= <-] & [Hl|(u & Hu & Hn)]); [lia|].
        pose proof (find_none _ _ Ef u Hu) as Hx. cbv beta in Hx.
        rewrite Hn, String.eqb_refl in Hx. discriminate. }
  assert (Hee : (ee = [] \/ exists m, ee = [m]) /\
                (ee <> [] <-> exists em, email = Some em /\
                   (ServiceMore.email_regex_match_raw em = false \/
                    exists u, In u (values (users s)) /\ u_email u = em))).
  { subst ee. destruct email as [em|].
    2:{ split; [left; reflexivity|]. split; [congruence|intros (? & [=] & _)]. }
    destruct (truthy em) eqn:Et; cbn [negb orb].
    2:{ destruct em; [|discriminate]. split; [eauto|]. split; [intros _; exists ""%string; split; [reflexivity|left; reflexivity]|congruence]. }
    destruct (ServiceMore.email_regex_match_raw em) eqn:Er; cbn [negb].
    - destruct (find (fun u => String.eqb (u_email u) em) (values (users s))) as [v|] eqn:Ef.
      + split; [eauto|]. split; [|congruence]. intros _. exists em. split; [reflexivity|right].
        apply find_some in Ef as [Hv Hn]. apply String.eqb_eq in Hn. eauto.
      + split; [left; reflexivity|]. split; [congruence|].
        intros (em' & [= <-] & [Hr|(u & Hu & Hn)]); [congruence|].
        pose proof (find_none _ _ Ef u Hu) as Hx. cbv beta in Hx.
        rewrite Hn, String.eqb_refl in Hx. discriminate.
    - split; [eauto|]. split; [intros _; eauto|congruence]. }
  assert (Hpe : (pe = [] \/ exists m, pe = [m]) /\
                (pe <> [] <-> exists pw, password = Some pw /\ (String.length pw < 6)%nat)).
  { subst pe. destruct password as [pw|].
    2:{ split; [left; reflexivity|]. split; [congruence|intros (? & [=] & _)]. }
    destruct (truthy pw) eqn:Et; cbn [negb orb].
    2:{ destruct pw; [|discriminate]. split; [eauto|]. split; [intros _; exists ""%string; simpl; split; [reflexivity|lia]|congruence]. }
    destruct (String.length pw <? 6)%nat eqn:El.
    - apply Nat.ltb_lt in El. split; [eauto|]. split; [intros _; eauto|congruence].
    - apply Nat.ltb_ge in El. split; [left; reflexivity|]. split; [congruence|].
      intros (pw' & [= <-] & Hl). lia. }
  clearbody ue ee pe.
  destruct Hue as [Hue1 Hue2], Hee as [Hee1 Hee2], Hpe as [Hpe1 Hpe2].
  rewrite <- Hue2, <- Hee2, <- Hpe2.
  destruct Hue1 as [->|[mu ->]], Hee1 as [->|[me ->]], Hpe1 as [->|[mp ->]]; cbn;
    (split; [repeat constructor; simpl; intuition discriminate|]);
    (split; [intros k l Hkl; repeat destruct Hkl as [Hkl|Hkl]; try injection Hkl as <- <-; eauto; contradiction|]);
    intuition (try discriminate; try congruence).
Qed.

(** ** The user repository *)

Lemma dict_keys_set {V} (k : string) (v : V) (d : list (string * V)) :
  map fst (dict_set k v d)
  = if Repositories.dict_has k d then map fst d else (map fst d ++ [k])%list.
Proof.
  unfold Repositories.dict_has.
  induction d as [|[k' v'] r IH]; simpl; [reflexivity|].
  destruct (String.eqb k k') eqn:E; simpl.
  - apply String.eqb_eq in E. subst. reflexivity.
  - rewrite IH. destruct (existsb _ r); reflexivity.
Qed.

Lemma dict_has_in {V} (k : string) (d : list (string * V)) :
  Repositories.dict_has k d = true <-> In k (map fst d).
Proof.
  unfold Repositories.dict_has. rewrite existsb_exists. split.
  - intros ([k' v] & Hin & E). apply String.eqb_eq in E. simpl in E.
    apply in_map_iff. exists (k', v). simpl. split; [congruence|exact Hin].
  - intros Hin. apply in_map_iff in Hin as ([k' v] & E & Hin). simpl in E.
    exists (k', v). split; [exact Hin|]. simpl. rewrite E. apply String.eqb_refl.
Qed.

Lemma dict_has_get {V} (k : string) (d : list (string * V)) :
  Repositories.dict_has k d = match dict_get k d with Some _ => true | None => false end.
Proof.
  unfold Repositories.dict_has.
  induction d as [|[k' v'] r IH]; simpl; [reflexivity|].
  destruct (String.eqb k k'); [reflexivity|exact IH].
Qed.

Lemma dict_set_NoDup {V} (k : string) (v : V) (d : list (string * V)) :
  NoDup (map fst d) -> NoDup (map fst (dict_set k v d)).
Proof.
  intros Hd. rewrite dict_keys_set.
  destruct (Repositories.dict_has k d) eqn:E; [exact Hd|].
  apply NoDup_snoc; [exact Hd|]. intros Hin. apply dict_has_in in Hin. congruence.
Qed.

Lemma dict_del_get_ne {V} (k j : string) (d : list (string * V)) :
  j <> k -> dict_get j (Repositories.dict_del k d) = dict_get j d.
Proof.
  intros Hne. induction d as [|[k' v'] r IH]; simpl; [reflexivity|].
  destruct (String.eqb k k') eqn:E; simpl.
  - apply String.eqb_eq in E. subst k'.
    assert (String.eqb j k = false) as -> by (apply String.eqb_neq; exact Hne). reflexivity.
  - destruct (String.eqb j k'); [reflexivity|exact IH].
Qed.

Lemma dict_del_keys {V} (k : string) (d : list (string * V)) :
  NoDup (map fst d) -> map fst (Repositories.dict_del k d) = str_remove k (map fst d).
Proof.
  intros _. induction d as [|[k' v'] r IH]; simpl; [reflexivity|].
  rewrite String.eqb_sym. destruct (String.eqb k' k); simpl; [reflexivity|]. rewrite IH. reflexivity.
Qed.

Lemma dict_get_none_iff {V} (k : string) (d : list (string * V)) :
  dict_get k d = None <-> ~ In k (map fst d).
Proof.
  rewrite <- dict_has_in, dict_has_get. destruct (dict_get k d); split; congruence.
Qed.

Lemma dict_del_get_eq {V} (k : string) (d : list (string * V)) :
  NoDup (map fst d) -> dict_get k (Repositories.dict_del k d) = None.
Proof.
  intros Hd. apply dict_get_none_iff. rewrite dict_del_keys by exact Hd.
  apply str_remove_absent. exact Hd.
Qed.

Lemma dict_del_length {V} (k : string) (d : list (string * V)) :
  length (Repositories.dict_del k d)
  = if Repositories.dict_has k d then Nat.pred (length d) else length d.
Proof.
  unfold Repositories.dict_has.
  induction d as [|[k' v'] r IH]; simpl; [reflexivity|].
  destruct (String.eqb k k'); simpl; [reflexivity|].
  rewrite IH. destruct (existsb _ r) eqn:Ex; [|reflexivity].
  destruct r; simpl in *; [discriminate|reflexivity].
Qed.

Lemma dict_del_set_fresh {V} (k : string) (v : V) (d : list (string * V)) :
  Repositories.dict_has k d = false -> Repositories.dict_del k (dict_set k v d) = d.
Proof.
  unfold Repositories.dict_has.
  induction d as [|[k' v'] r IH]; simpl; intros Hk; [rewrite String.eqb_refl; reflexivity|].
  apply orb_false_iff in Hk as [E Hr]. rewrite E. simpl. rewrite E, IH by exact Hr. reflexivity.
Qed.

Lemma dict_del_NoDup {V} (k : string) (d : list (string * V)) :
  NoDup (map fst d) -> NoDup (map fst (Repositories.dict_del k d)).
Proof.
  intros Hd. rewrite dict_del_keys by exact Hd. apply str_remove_NoDup. exact Hd.
Qed.

Lemma dict_set_length {V} (k : string) (v : V) (d : list (string * V)) :
  length (dict_set k v d) = if Repositories.dict_has k d then length d else S (length d).
Proof.
  rewrite <- (length_map fst (dict_set k v d)), dict_keys_set.
  destruct (Repositories.dict_has k d); rewrite ?length_app, length_map; simpl; lia.
Qed.

(** [UserRepository.save], [get_by_id], [exists], [count] and [delete], on
    a repository whose keys are distinct (a [dict]): a user saved with a
    non-empty id is found under that id, every other id is unaffected, the
    count grows by one exactly when the id was new, and the keys stay
    distinct; [delete] reports whether the id was there, after it the id is
    gone and every other id unaffected, the count drops by one exactly when
    the id was there; saving a user under a new id and deleting it again
    gives back the repository as it was. *)
Theorem user_repository_save_get_delete :
  forall (s : Store) (u : User) (i : string),
    NoDup (map fst (users s)) ->
    (u_id u = Some i -> truthy i = true ->
       exists s', user_save u s = (Ok u, s') /\
         user_get_by_id i s' = (Ok (Some u), s') /\
         (forall j, j <> i -> dict_get j (users s') = dict_get j (users s)) /\
         Repositories.user_exists i s' = (Ok true, s') /\
         Repositories.user_count s'
         = (Ok (if Repositories.dict_has i (users s) then length (users s)
                else S (length (users s))), s') /\
         NoDup (map fst (users s')) /\
         (Repositories.dict_has i (users s) = false ->
            Repositories.user_delete i s' = (Ok true, s))) /\
    (exists s', Repositories.user_delete i s = (Ok (Repositories.dict_has i (users s)), s') /\
       user_get_by_id i s' = (Ok None, s') /\
       (forall j, j <> i -> dict_get j (users s') = dict_get j (users s)) /\
       Repositories.user_exists i s' = (Ok false, s') /\
       Repositories.user_count s'
       = (Ok (if Repositories.dict_has i (users s) then Nat.pred (length (users s))
              else length (users s)), s') /\
       NoDup (map fst (users s'))).
Proof.
  intros s u i Hd. split.
  - intros Hi Ht. unfold user_save. rewrite Hi, Ht.
    eexists. split; [reflexivity|].
    unfold user_get_by_id, Repositories.user_exists, Repositories.user_count, with_users.
    cbn [users user_next].
    split; [rewrite dict_get_set_eq; reflexivity|].
    split; [intros j Hj; apply dict_get_set_ne; exact Hj|].
    split; [rewrite dict_has_get, dict_get_set_eq; reflexivity|].
    split; [rewrite dict_set_length; reflexivity|].
    split; [apply dict_set_NoDup; exact Hd|].
    intros Hn. unfold Repositories.user_delete. cbn [users].
    rewrite dict_has_get, dict_get_set_eq. unfold with_users. cbn [users user_next tasks task_next teams team_next].
    rewrite dict_del_set_fresh by exact Hn. destruct s; reflexivity.
  - unfold Repositories.user_delete.
    destruct (Repositories.dict_has i (users s)) eqn:Eh.
    + eexists. split; [reflexivity|].
      unfold user_get_by_id, Repositories.user_exists, Repositories.user_count, with_users.
      cbn [users].
      split; [rewrite dict_del_get_eq by exact Hd; reflexivity|].
      split; [intros j Hj; apply dict_del_get_ne; exact Hj|].
      split; [rewrite dict_has_get, dict_del_get_eq by exact Hd; reflexivity|].
      split; [rewrite dict_del_length, Eh; reflexivity|].
      apply dict_del_NoDup. exact Hd.
    + eexists. split; [reflexivity|].
      unfold user_get_by_id, Repositories.user_exists, Repositories.user_count.
      assert (Hg : dict_get i (users s) = None)
        by (rewrite dict_has_get in Eh; destruct (dict_get i (users s)); congruence).
      split; [rewrite Hg; reflexivity|]. split; [reflexivity|].
      split; [rewrite Eh; reflexivity|]. split; [reflexivity|exact Hd].
Qed.


(** ** Generated ids *)

Lemma str_of_nat_inj (n m : nat) : str_of_nat n = str_of_nat m -> n = m.
Proof.
  unfold str_of_nat. intros E.
  assert (Hnn : forall k, Nat.to_uint k <> Decimal.Nil).
  { intros k Hk. pose proof (DecimalNat.Unsigned.of_to k) as Ho. rewrite Hk in Ho.
    simpl in Ho. subst k. discriminate Hk. }
  apply DecimalNat.Unsigned.to_uint_inj.
  pose proof (NilZero.usu _ (Hnn n)) as Hn. pose proof (NilZero.usu _ (Hnn m)) as Hm.
  rewrite E in Hn. congruence.
Qed.

Lemma string_append_inj_l (p a b : string) : (p ++ a = p ++ b)%string -> a = b.
Proof. induction p as [|c r IH]; simpl; [auto|intros [= E]; exact (IH E)]. Qed.

(** Every key of the user repository is an id that [_generate_id] handed out
    before, and no key occurs twice. *)
Definition user_ids_generated (s : Store) : Prop :=
  NoDup (map fst (users s)) /\
  forall k, In k (map fst (users s)) ->
    exists n, k = ("userrepository_" ++ str_of_nat n)%string /\ (n < user_next s)%nat.

Section FreshIds.
Context `{Hasher}.

(** [UserService.create_user] with [BaseRepository._generate_id]: a failed
    registration leaves every repository as it was; a successful one, on a
    repository whose keys were all generated (and where every user sits
    under its own id), stores the new user under the next generated id,
    which was not in use, advances the counter, adds exactly one entry and
    changes no other, touches neither tasks nor teams, and keeps both
    properties of the repository. *)
Theorem create_user_fresh_id :
  forall (salt : string) (now : Z) (username email password : string) (role : UserRole)
         (s : Store),
    user_ids_generated s -> users_wf s ->
    (forall e s'', UserService.create_user salt now username email password role s
                   = (Raise e, s'') -> s'' = s) /\
    (forall u s', UserService.create_user salt now username email password role s = (Ok u, s') ->
       let i := ("userrepository_" ++ str_of_nat (user_next s))%string in
       u_id u = Some i /\
       dict_get i (users s) = None /\
       dict_get i (users s') = Some u /\
       user_next s' = S (user_next s) /\
       length (users s') = S (length (users s)) /\
       (forall k, k <> i -> dict_get k (users s') = dict_get k (users s)) /\
       tasks s' = tasks s /\ teams s' = teams s /\
       user_ids_generated s' /\ users_wf s').
Proof.
  intros salt now username email password role s [Hnd Hkeys] Hwf.
  unfold UserService.create_user, bindM, user_get_by_username, user_get_by_email, raiseM.
  destruct (find (fun u => String.eqb (u_username u) username) (values (users s)));
    [split; [intros e s'' [= _ <-]; reflexivity|intros u' s' [=]]|].
  destruct (find (fun u => String.eqb (u_email u) email) (values (users s)));
    [split; [intros e s'' [= _ <-]; reflexivity|intros u' s' [=]]|].
  destruct (new_user salt now username email password role) as [u0|e] eqn:En.
  2:{ split; [|intros u s'; destruct e; discriminate].
      intros e' s''; destruct e; intros [= _ <-]; reflexivity. }
  destruct (new_user_ok _ _ _ _ _ _ _ En) as (Hid & _ & _).
  unfold user_save. rewrite Hid.
  set (i := ("userrepository_" ++ str_of_nat (user_next s))%string).
  split; [intros e s'' [=]|].
  intros u s' E. injection E as <- <-.
  assert (Hfresh : dict_get i (users s) = None).
  { apply dict_get_none_iff. intros Hin. destruct (Hkeys i Hin) as (n & En' & Hn).
    apply string_append_inj_l, str_of_nat_inj in En'. lia. }
  assert (Hhas : Repositories.dict_has i (users s) = false) by (rewrite dict_has_get, Hfresh; reflexivity).
  unfold with_users. cbn [users user_next tasks teams set_id u_id].
  split; [reflexivity|]. split; [exact Hfresh|]. split; [apply dict_get_set_eq|].
  split; [reflexivity|]. split; [rewrite dict_set_length, Hhas; reflexivity|].
  split; [intros k Hk; apply dict_get_set_ne; exact Hk|].
  split; [reflexivity|]. split; [reflexivity|].
  split.
  - unfold user_ids_generated. cbn [users user_next].
    split; [apply dict_set_NoDup; exact Hnd|].
    intros k Hk. rewrite dict_keys_set, Hhas in Hk. apply in_app_iff in Hk as [Hk|[<-|[]]].
    + destruct (Hkeys k Hk) as (n & -> & Hn). exists n. split; [reflexivity|lia].
    + exists (user_next s). split; [reflexivity|lia].
  - unfold users_wf. intros k v. cbn [users].
    destruct (String.eqb k i) eqn:Ek.
    + apply String.eqb_eq in Ek. subst k. rewrite dict_get_set_eq. intros [= <-].
      split; [reflexivity|reflexivity].
    + apply String.eqb_neq in Ek. rewrite dict_get_set_ne by exact Ek. apply Hwf.
Qed.

End FreshIds.

(** ** User permissions *)

Section UserPermissions.
Context `{Hasher}.

(** [User.has_permission], [User._get_permissions] and
    [User.promote_to_admin]: a new user holds exactly the permissions of its
    role, so only an admin holds [admin.panel]; promotion by a non-admin
    raises [ValidationError]; promotion by an admin makes the user an admin
    holding exactly the admin permissions, with id, name, email, password
    hash, profile and creation time unchanged. *)
Theorem user_permissions_follow_role :
  (forall (salt : string) (now : Z) (un em pw : string) (r : UserRole) (u : User),
     new_user salt now un em pw r = Ok u ->
     u_role u = r /\
     (forall p, UserMore.has_permission u p = str_in p (_get_permissions r)) /\
     (UserMore.has_permission u "admin.panel" = true <-> r = ADMIN)) /\
  (forall u a : User, is_admin a = false ->
     UserMore.promote_to_admin u a = Raise (ValidationError "Only admins can promote users")) /\
  (forall u a : User, is_admin a = true ->
     exists u', UserMore.promote_to_admin u a = Ok u' /\ is_admin u' = true /\
       (forall p, UserMore.has_permission u' p = str_in p (_get_permissions ADMIN)) /\
       u' = mkUser (u_id u) (u_username u) (u_email u) (u_password_hash u) ADMIN
              (u_profile u) (u_created_at u) (u_permissions u')).
Proof.
  split; [|split].
  - intros salt now un em pw r u Hu. unfold new_user in Hu.
    destruct (_validate_username un) as [un'|e]; [|discriminate]. simpl in Hu.
    destruct (_validate_email em) as [em'|e]; [|discriminate]. simpl in Hu.
    destruct (_hash_password salt pw) as [ph|e]; [|discriminate]. simpl in Hu.
    injection Hu as <-. unfold UserMore.has_permission. cbn [u_role u_permissions].
    split; [reflexivity|]. split; [reflexivity|].
    destruct r; simpl; split; intro E; try reflexivity; discriminate.
  - intros u a Ha. unfold UserMore.promote_to_admin. rewrite Ha. reflexivity.
  - intros u a Ha. unfold UserMore.promote_to_admin. rewrite Ha. simpl.
    eexists. split; [reflexivity|]. split; [reflexivity|]. split; reflexivity.
Qed.

End UserPermissions.

(** ** Witnesses of the theorems above with hypotheses *)

Lemma add_then_complete_milestone_witness :
  existsb (fun m => String.eqb (m_id m) "m1") (p_milestones (project_with [task_T])) = false /\
  exists p2,
    ProjectMore.complete_milestone
      (snd (ProjectMore.add_milestone (project_with [task_T]) "m1" " Beta " "" 10 1)) "m1" 2
    = (true, p2) /\
    p_milestones p2 = [mkMilestone "m1" "Beta" "" 10 true (Some 2)].
Proof.
  pose proof (add_then_complete_milestone (project_with [task_T]) "m1" " Beta " "" 10 1 2 eq_refl)
    as Hc.
  cbv beta iota zeta delta [ProjectMore.add_milestone] in Hc.
  destruct Hc as (_ & _ & Hc).
  split; [reflexivity|exact Hc].
Defined.

Lemma add_task_comment_spec_witness :
  dict_get "task_T" (tasks scenario_store) = Some task_T /\
  dict_get "userrepository_2" (users scenario_store) = Some user_B /\
  exists t', TaskService.add_task_comment "task_T" "userrepository_2" " Looks good " "c1" 7
               scenario_store
             = (Ok t', with_tasks scenario_store (dict_set "task_T" t' (tasks scenario_store))) /\
             t_comments t' = [mkComment "c1" "userrepository_2" "Looks good" 7].
Proof.
  destruct (add_task_comment_spec "task_T" "userrepository_2" " Looks good " "c1" 7
              scenario_store task_T user_B eq_refl eq_refl) as (_ & _ & H3).
  split; [reflexivity|]. split; [reflexivity|].
  destruct (H3 eq_refl eq_refl eq_refl) as (t' & E & Ec & _).
  exists t'. split; [exact E|]. rewrite Ec. reflexivity.
Defined.

Lemma password_hash_verify_roundtrip_witness :
  UserMore.colon_free "abcd" = true /\
  exists u, new_user "abcd" 0 "alice" "alice@example.com" "secret1" USER = Ok u /\
            verify_password u "secret1" = true /\ verify_password u "secret2" = false.
Proof.
  destruct (password_hash_verify_roundtrip "abcd" eq_refl) as [H1 _].
  split; [reflexivity|].
  destruct (new_user "abcd" 0 "alice" "alice@example.com" "secret1" USER) as [u|e] eqn:E;
    [|vm_compute in E; discriminate].
  exists u. split; [reflexivity|].
  destruct (H1 0 "alice" "alice@example.com" "secret1" USER u eq_refl E) as [Hv Hok].
  split; [exact Hok|]. rewrite Hv. vm_compute. reflexivity.
Defined.

Lemma create_user_then_authenticate_witness :
  UserMore.colon_free "salt1" = true /\
  UserMore.colon_free (pbkdf2_hex "salt1" "password123") = true /\
  exists u s',
    UserService.create_user "salt1" 0 "Alice" "alice@example.com" "password123" USER empty_store
    = (Ok u, s') /\
    ServiceMore.authenticate_user "alice" "password123" s' = (Ok (Some u), s') /\
    ServiceMore.authenticate_user "Alice" "password123" s' = (Ok None, s').
Proof.
  split; [reflexivity|]. split; [reflexivity|].
  destruct (UserService.create_user "salt1" 0 "Alice" "alice@example.com" "password123" USER
              empty_store) as [[u|e] s'] eqn:E; [|vm_compute in E; discriminate].
  destruct (@create_user_then_authenticate demo_hasher "salt1" 0 "Alice" "alice@example.com" "password123" USER
              empty_store s' u eq_refl eq_refl eq_refl E) as (Hn & _ & _ & Ha & Hr).
  exists u, s'. split; [reflexivity|]. rewrite Hn in Ha. split; [exact Ha|].
  apply Hr. vm_compute. intro Hc. discriminate Hc.
Defined.

Lemma user_repository_save_get_delete_witness :
  NoDup (map fst (users scenario_store)) /\
  exists s',
    user_save (set_id user_B "userrepository_9") scenario_store
    = (Ok (set_id user_B "userrepository_9"), s') /\
    user_get_by_id "userrepository_9" s' = (Ok (Some (set_id user_B "userrepository_9")), s') /\
    Repositories.user_count s' = (Ok 3%nat, s') /\
    Repositories.user_delete "userrepository_9" s' = (Ok true, scenario_store).
Proof.
  assert (Hd : NoDup (map fst (users scenario_store))).
  { apply NoDup_cons; [simpl; intros [E|[]]; discriminate E|].
    apply NoDup_cons; [intros []|constructor]. }
  split; [exact Hd|].
  destruct (user_repository_save_get_delete scenario_store (set_id user_B "userrepository_9")
              "userrepository_9" Hd) as [H1 _].
  destruct (H1 eq_refl eq_refl) as (s' & E & Hg & _ & _ & Hc & _ & Hdel).
  exists s'. split; [exact E|]. split; [exact Hg|]. split; [exact Hc|].
  apply Hdel. reflexivity.
Defined.

Lemma create_user_fresh_id_witness :
  user_ids_generated scenario_store /\ users_wf scenario_store /\
  exists u s',
    UserService.create_user "salt9" 0 "carol" "carol@example.com" "password123" USER scenario_store
    = (Ok u, s') /\
    u_id u = Some "userrepository_3" /\ length (users s') = 3%nat /\ user_next s' = 4%nat.
Proof.
  assert (Hg : user_ids_generated scenario_store).
  { split.
    - apply NoDup_cons; [simpl; intros [E|[]]; discriminate E|].
      apply NoDup_cons; [intros []|constructor].
    - intros k Hk. simpl in Hk. destruct Hk as [<-|[<-|[]]];
        [exists 1%nat|exists 2%nat]; (split; [reflexivity|simpl; lia]). }
  assert (Hw : users_wf scenario_store).
  { intros k v Hk. cbn [scenario_store users dict_get] in Hk.
    destruct (String.eqb k "userrepository_1") eqn:E1.
    - apply String.eqb_eq in E1. subst k. injection Hk as <-. split; reflexivity.
    - destruct (String.eqb k "userrepository_2") eqn:E2; [|discriminate].
      apply String.eqb_eq in E2. subst k. injection Hk as <-. split; reflexivity. }
  split; [exact Hg|]. split; [exact Hw|].
  destruct (UserService.create_user "salt9" 0 "carol" "carol@example.com" "password123" USER
              scenario_store) as [[u|e] s'] eqn:E; [|vm_compute in E; discriminate].
  destruct (create_user_fresh_id "salt9" 0 "carol" "carol@example.com" "password123" USER
              scenario_store Hg Hw) as [_ H2].
  destruct (H2 u s' E) as (Hid & _ & _ & Hn & Hl & _).
  exists u, s'. split; [reflexivity|]. split; [exact Hid|]. split; [exact Hl|exact Hn].
Defined.
